(** * Kineto profiler session core: a shallow embedding

    This development models [torch/csrc/autograd/profiler_kineto.cpp]
    (the [USE_KINETO] / [USE_KINETO_UPDATED] configuration) and proves
    properties of its session life cycle, its correlation ids, its event
    import and finalisation and its metadata serialisers.

    Conventions.
    - Fixed width integers are [Z]; the only arithmetic the file performs
      on them is the increment of the 64-bit correlation counter, whose
      wrap-around is written out.
    - [std::string] is [string]; an [std::ostringstream] is the string
      accumulated so far, [oss << x] appends.
    - [c10::optional<T>] and nullable pointers are [option].
    - Objects reached through [shared_ptr] live in a store indexed by
      locations; the thread-local debug-info slot holds locations.
    - Code that throws keeps the state it had reached when it threw. *)

From stdpp Require Import gmap strings list pretty sorting.
From Stdlib Require Import ZArith Lia Ascii.

Open Scope Z_scope.

Set Warnings "-register-all".

(** ** Character and string helpers *)

(** The double quote character, written by its code. *)
Definition dquote : string := String (ascii_of_nat 34) EmptyString.

(** [std::string::erase(pos)]: drops everything from index [pos] on. *)
Definition string_erase (pos : nat) (s : string) : string :=
  String.substring 0 pos s.

(** [std::string::pop_back()]: removes the last character; calling it on
    an empty string is undefined behaviour, rendered by [None]. *)
Fixpoint string_pop_back (s : string) : option string :=
  match s with
  | EmptyString => None
  | String c EmptyString => Some EmptyString
  | String c rest => String c <$> string_pop_back rest
  end.

(** Copying a range to [std::ostream_iterator<std::string>(oss, delim)]:
    every element is written followed by the delimiter. *)
Fixpoint ostream_copy (delim : string) (xs : list string) (oss : string)
  : string :=
  match xs with
  | [] => oss
  | x :: rest => ostream_copy delim rest (oss +:+ x +:+ delim)
  end.

(** ** Metadata serialisers *)

(** Inner loop of [shapesToStr], from index [s_idx] on. *)
Fixpoint shapesToStr_dims (s_idx : nat) (shape : list Z) (oss : string)
  : string :=
  match shape with
  | [] => oss
  | d :: rest =>
      let oss := if (0 <? s_idx)%nat then oss +:+ ", " else oss in
      shapesToStr_dims (S s_idx) rest (oss +:+ pretty d)
  end.

(** Outer loop of [shapesToStr], from index [t_idx] on. *)
Fixpoint shapesToStr_loop (t_idx : nat) (shapes : list (list Z))
  (oss : string) : string :=
  match shapes with
  | [] => oss
  | shape :: rest =>
      let oss := if (0 <? t_idx)%nat then oss +:+ ", " else oss in
      let oss := oss +:+ "[" in
      let oss := shapesToStr_dims 0 shape oss in
      shapesToStr_loop (S t_idx) rest (oss +:+ "]")
  end.

Definition shapesToStr (shapes : list (list Z)) : string :=
  let oss := "" +:+ "[" in
  let oss := shapesToStr_loop 0 shapes oss in
  oss +:+ "]".

Definition dtypesToStr (types : list string) : string :=
  match types with
  | [] => "[]"
  | _ =>
      let rc :=
        ostream_copy ", " ((fun s => dquote +:+ s +:+ dquote) <$> types) "" in
      let rc := string_erase (String.length rc - 2) rc in
      "[" +:+ rc +:+ "]"
  end.

(** [stacksToStr] ends in an unguarded [pop_back]; [None] is undefined
    behaviour. *)
Definition stacksToStr (stacks : list string) : option string :=
  let rc := ostream_copy ";" stacks "" in
  string_pop_back rc.

(** ** Configuration and enumerations *)

Inductive ProfilerState := Disabled | CPU | CUDA | NVTX | KINETO.

#[global] Instance ProfilerState_eq_dec : EqDecision ProfilerState.
Proof. solve_decision. Defined.

Record ProfilerConfig := mkProfilerConfig {
  state : ProfilerState;
  report_input_shapes : bool;
  profile_memory : bool;
  with_stack : bool;
  with_flops : bool
}.

(** The activity kinds a caller may request. *)
Inductive ActivityType := ActivityType_CPU | ActivityType_CUDA.

#[global] Instance ActivityType_eq_dec : EqDecision ActivityType.
Proof. solve_decision. Defined.

(** [std::set::count] on the requested activity kinds. *)
Definition set_count (a : ActivityType) (activities : list ActivityType)
  : bool := bool_decide (a ∈ activities).

Inductive RecordScope :=
  | FUNCTION | BACKWARD_FUNCTION | TORCHSCRIPT_FUNCTION | USER_SCOPE.

#[global] Instance RecordScope_eq_dec : EqDecision RecordScope.
Proof. solve_decision. Defined.

(** ** The trace collector's activity records *)

Module libkineto.

(** The activity kinds named by the source. *)
Inductive ActivityType :=
  | CPU_OP | GPU_MEMCPY | GPU_MEMSET | CONCURRENT_KERNEL
  | EXTERNAL_CORRELATION | CUDA_RUNTIME.

#[global] Instance ActivityType_eq_dec : EqDecision ActivityType.
Proof. solve_decision. Defined.

(** What the [TraceActivity] interface exposes to
    [KinetoEvent::activity]. *)
Inductive TraceActivity := mkTraceActivity {
  type : ActivityType;
  name : string;
  deviceId : Z;
  resourceId : Z;
  timestamp : Z;
  duration : Z;
  correlationId : Z;
  linkedActivity : option TraceActivity
}.

(** The record [reportClientActivity] fills in; [metadata] collects the
    [addMetadata] calls in order. *)
Record GenericTraceActivity := mkGenericTraceActivity {
  activityType : ActivityType;
  activityName : string;
  startTime : Z;
  endTime : Z;
  device : Z;
  correlation : Z;
  sysThreadId : Z;
  metadata : list (string * string)
}.

Definition addMetadata (key value : string) (a : GenericTraceActivity)
  : GenericTraceActivity :=
  {| activityType := activityType a; activityName := activityName a;
     startTime := startTime a; endTime := endTime a; device := device a;
     correlation := correlation a; sysThreadId := sysThreadId a;
     metadata := metadata a ++ [(key, value)] |}.

(** A [GenericTraceActivity] seen through the [TraceActivity]
    interface; a client activity has no linked activity. *)
Definition as_TraceActivity (a : GenericTraceActivity) : TraceActivity :=
  {| type := activityType a; name := activityName a;
     deviceId := device a; resourceId := sysThreadId a;
     timestamp := startTime a; duration := endTime a - startTime a;
     correlationId := correlation a; linkedActivity := None |}.

Record TraceSpan := mkTraceSpan {
  span_startTime : Z;
  span_endTime : Z;
  span_name : string
}.

Record CpuTraceBuffer := mkCpuTraceBuffer {
  span : TraceSpan;
  gpuOpCount : Z;
  activities : list GenericTraceActivity
}.

(** [std::make_unique<CpuTraceBuffer>()]. *)
Definition CpuTraceBuffer_new : CpuTraceBuffer :=
  {| span := {| span_startTime := 0; span_endTime := 0; span_name := "" |};
     gpuOpCount := 0; activities := [] |}.

(** The finalised trace returned by [stopTrace]. *)
Record ActivityTraceInterface := mkActivityTrace {
  trace_activities : list TraceActivity
}.

End libkineto.

(** ** Captured events *)

Record KinetoEvent := mkKinetoEvent {
  start_thread_id_ : Z;
  end_thread_id_ : Z;
  fwd_thread_id_ : Z;
  sequence_nr_ : Z;
  scope_ : RecordScope;
  activity_type_ : libkineto.ActivityType;
  shapes_ : option (list (list Z));
  stack_ : option (list string);
  dtypes_ : option (list string);
  flops_ : Z;
  name_ : string;
  device_index_ : Z;
  start_us_ : Z;
  duration_us_ : Z;
  correlation_id_ : Z;
  linked_correlation_id_ : Z;
  device_resource_id_ : Z;
  is_async_ : bool
}.

(** [KinetoEvent::KinetoEvent()]: the constructor sets the activity kind
    to [CPU_OP]; the other members take the initialisers of the class
    declaration. *)
Definition KinetoEvent_new : KinetoEvent :=
  {| start_thread_id_ := 0; end_thread_id_ := 0; fwd_thread_id_ := 0;
     sequence_nr_ := -1; scope_ := FUNCTION;
     activity_type_ := libkineto.CPU_OP;
     shapes_ := None; stack_ := None; dtypes_ := None; flops_ := 0;
     name_ := ""; device_index_ := 0; start_us_ := 0; duration_us_ := 0;
     correlation_id_ := 0; linked_correlation_id_ := 0;
     device_resource_id_ := 0; is_async_ := false |}.

Definition hasShapes (e : KinetoEvent) : bool := bool_decide (is_Some (shapes_ e)).
Definition hasStack (e : KinetoEvent) : bool := bool_decide (is_Some (stack_ e)).
Definition hasTypes (e : KinetoEvent) : bool := bool_decide (is_Some (dtypes_ e)).

(** [KinetoEvent::activity]. *)
Definition activity (a : libkineto.TraceActivity) (e : KinetoEvent)
  : KinetoEvent :=
  {| name_ := libkineto.name a;
     device_index_ := libkineto.deviceId a;
     device_resource_id_ := libkineto.resourceId a;
     start_us_ := libkineto.timestamp a;
     duration_us_ := libkineto.duration a;
     correlation_id_ :=
       if decide (libkineto.type a = libkineto.CPU_OP)
       then libkineto.correlationId a
       else correlation_id_ e;
     activity_type_ := libkineto.type a;
     linked_correlation_id_ :=
       match libkineto.linkedActivity a with
       | Some linked => libkineto.correlationId linked
       | None => linked_correlation_id_ e
       end;
     start_thread_id_ := start_thread_id_ e;
     end_thread_id_ := end_thread_id_ e;
     fwd_thread_id_ := fwd_thread_id_ e;
     sequence_nr_ := sequence_nr_ e;
     scope_ := scope_ e;
     shapes_ := shapes_ e; stack_ := stack_ e; dtypes_ := dtypes_ e;
     flops_ := flops_ e; is_async_ := is_async_ e |}.

(** ** Operation descriptors and per-operation contexts *)

(** Input values of an operation, as far as [inputTypes] inspects them. *)
Inductive IValue :=
  | IV_Tensor (defined : bool) (dtype_name : string)
  | IV_Scalar (tagKind : string)
  | IV_List (tagKind : string)
  | IV_Other.

(** What the callbacks read from an [at::RecordFunction].  The results of
    the helpers [inputSizes] and [saveExtraArgs], which are defined
    outside this file, are carried by the descriptor. *)
Record RecordFunction := mkRecordFunction {
  fn_name : string;
  fn_inputs : list IValue;
  fn_inputSizes : list (list Z);
  fn_extraArgs : list (string * Z);
  fn_seqNr : Z;
  fn_forwardThreadId : Z;
  fn_scope : RecordScope;
  fn_isAsync : bool
}.

Definition inputTypes (fn : RecordFunction) : list string :=
  (fun input =>
     match input with
     | IV_Tensor true dtype_name => dtype_name
     | IV_Tensor false _ => ""
     | IV_Scalar tagKind | IV_List tagKind => tagKind
     | IV_Other => ""
     end) <$> fn_inputs fn.

Record KinetoObserverContext := mkKinetoObserverContext {
  startUs : Z;
  correlationId : Z;
  startThreadId : Z;
  endThreadId : Z;
  shapes : option (list (list Z));
  dtypes : option (list string);
  sequenceNr : Z;
  fwdThreadId : Z;
  recFunScope : RecordScope;
  stack : option (list string);
  extraArgs : option (list (string * Z))
}.

(** [std::make_unique<KinetoObserverContext>()]: a value-initialised
    context, which is what the start callback hands back when it does not
    instrument the operation. *)
Definition KinetoObserverContext_new : KinetoObserverContext :=
  {| startUs := 0; correlationId := 0; startThreadId := 0; endThreadId := 0;
     shapes := None; dtypes := None; sequenceNr := 0; fwdThreadId := 0;
     recFunScope := FUNCTION; stack := None; extraArgs := None |}.

(** ** The per-context profiling state *)

(** An entry of the legacy per-context event list. *)
Record LegacyEvent := mkLegacyEvent {
  legacy_name : string;
  legacy_thread_id : Z
}.

(** [KinetoThreadLocalState] with the members of its base class that the
    file uses: the configuration, the callback handle ([0] when none is
    installed) and the legacy event list. *)
Record KinetoThreadLocalState := mkKinetoThreadLocalState {
  config_ : ProfilerConfig;
  handle_ : Z;
  legacy_events_of : list LegacyEvent;
  kineto_events_ : list KinetoEvent;
  cpu_trace : option libkineto.CpuTraceBuffer
}.

(** The constructor inherited from the base class, followed by the
    default member initialiser of [cpu_trace]. *)
Definition KinetoThreadLocalState_new (config : ProfilerConfig)
  : KinetoThreadLocalState :=
  {| config_ := config; handle_ := 0; legacy_events_of := [];
     kineto_events_ := [];
     cpu_trace := Some libkineto.CpuTraceBuffer_new |}.

Definition hasCallbackHandle (st : KinetoThreadLocalState) : bool :=
  bool_decide (0 < handle_ st).

Definition set_handle_ (h : Z) (st : KinetoThreadLocalState) :=
  {| config_ := config_ st; handle_ := h;
     legacy_events_of := legacy_events_of st;
     kineto_events_ := kineto_events_ st; cpu_trace := cpu_trace st |}.

Definition set_legacy_events (l : list LegacyEvent)
  (st : KinetoThreadLocalState) :=
  {| config_ := config_ st; handle_ := handle_ st; legacy_events_of := l;
     kineto_events_ := kineto_events_ st; cpu_trace := cpu_trace st |}.

Definition set_kineto_events_ (l : list KinetoEvent)
  (st : KinetoThreadLocalState) :=
  {| config_ := config_ st; handle_ := handle_ st;
     legacy_events_of := legacy_events_of st;
     kineto_events_ := l; cpu_trace := cpu_trace st |}.

Definition set_cpu_trace (b : option libkineto.CpuTraceBuffer)
  (st : KinetoThreadLocalState) :=
  {| config_ := config_ st; handle_ := handle_ st;
     legacy_events_of := legacy_events_of st;
     kineto_events_ := kineto_events_ st; cpu_trace := b |}.

(** ** Results of effectful code *)

(** [TORCH_CHECK] raises a usage error the caller can handle;
    [TORCH_INTERNAL_ASSERT] reports a broken invariant. *)
Inductive Err :=
  | UsageError (msg : string)
  | InternalAssert (msg : string).

(** A computation over a state [S] returns a value, throws (keeping the
    state reached at the throw), or has undefined behaviour. *)
Inductive Res (S A : Type) :=
  | Val (a : A) (s : S)
  | Throw (e : Err) (s : S)
  | Undef.

Arguments Val {S A} a s.
Arguments Throw {S A} e s.
Arguments Undef {S A}.

Definition M (S A : Type) : Type := S → Res S A.

#[global] Instance M_ret {S} : MRet (M S) := λ A a s, Val a s.

#[global] Instance M_bind {S} : MBind (M S) := λ A B f m s,
  match m s with
  | Val a s' => f a s'
  | Throw e s' => Throw e s'
  | Undef => Undef
  end.

Definition TORCH_CHECK {S} (cond : bool) (msg : string) : M S () :=
  λ s, if cond then Val () s else Throw (UsageError msg) s.

Definition TORCH_INTERNAL_ASSERT {S} (cond : bool) (msg : string) : M S () :=
  λ s, if cond then Val () s else Throw (InternalAssert msg) s.

Definition undefined {S A} : M S A := λ _, Undef.

Definition get_state {S} : M S S := λ s, Val s s.
Definition modify {S} (f : S → S) : M S () := λ s, Val () (f s).

(** Dereferencing a pointer that may be null. *)
Definition deref_opt {S A} (p : option A) : M S A :=
  match p with
  | Some a => mret a
  | None => undefined
  end.

(** ** Methods of [KinetoThreadLocalState] that touch only the object *)

(** [!opt->empty()] guarded by [opt] being engaged. *)
Definition engaged_nonempty {A} (o : option (list A)) : bool :=
  match o with
  | Some (_ :: _) => true
  | _ => false
  end.

(** Modelled from the spec: [ProfilerThreadLocalState::mark] belongs to the
    base class, whose source is not in this file; a session boundary
    "emits a synthetic marker event", which is appended to the legacy
    per-context list. *)
Definition mark (name : string) (include_cuda : bool) (thread_id : Z)
  : M KinetoThreadLocalState () :=
  modify (λ st,
    set_legacy_events
      (legacy_events_of st ++
         [{| legacy_name := name; legacy_thread_id := thread_id |}]) st).

(** Modelled from the spec: [ProfilerThreadLocalState::consolidate] belongs
    to the base class; it yields the "legacy per-context event-list
    structure" of the result. *)
Definition consolidate : M KinetoThreadLocalState (list LegacyEvent) :=
  λ st, Val (legacy_events_of st) (set_legacy_events [] st).

(** One iteration of the loop of [addTraceEvents]. *)
Definition addTraceEvents_step (events : list KinetoEvent)
  (ev : libkineto.TraceActivity) : list KinetoEvent :=
  if decide (libkineto.type ev ≠ libkineto.CPU_OP)
  then events ++ [activity ev KinetoEvent_new]
  else events.

Definition addTraceEvents (trace : libkineto.ActivityTraceInterface)
  : M KinetoThreadLocalState () :=
  modify (λ st,
    set_kineto_events_
      (foldl addTraceEvents_step (kineto_events_ st)
         (libkineto.trace_activities trace)) st).

(** The body of the loop of [finalizeCPUTrace] for one event and the
    activity paired with it; [None] when a serialiser is undefined. *)
Definition finalize_activity (kineto_event : KinetoEvent)
  (act : libkineto.GenericTraceActivity)
  : option libkineto.GenericTraceActivity :=
  let act :=
    match shapes_ kineto_event with
    | Some sh => libkineto.addMetadata "Input Dims" (shapesToStr sh) act
    | None => act
    end in
  act ←
    match stack_ kineto_event with
    | Some stk =>
        s ← stacksToStr stk; Some (libkineto.addMetadata "Call stack" s act)
    | None => Some act
    end;
  let act :=
    match dtypes_ kineto_event with
    | Some ty => libkineto.addMetadata "Input type" (dtypesToStr ty) act
    | None => act
    end in
  let act :=
    if bool_decide (0 ≤ sequence_nr_ kineto_event)
    then
      libkineto.addMetadata "Sequence number"
        (pretty (sequence_nr_ kineto_event))
        (libkineto.addMetadata "Fwd thread id"
           (pretty (fwd_thread_id_ kineto_event)) act)
    else act in
  Some act.

(** The loop of [finalizeCPUTrace] over the indices still to visit; both
    vectors are read at the same index, and reading past the end of one is
    undefined. *)
Fixpoint finalize_loop (idxs : list nat) (events : list KinetoEvent)
  (acts : list libkineto.GenericTraceActivity)
  : option (list libkineto.GenericTraceActivity) :=
  match idxs with
  | [] => Some acts
  | idx :: rest =>
      kineto_event ← events !! idx;
      act ← acts !! idx;
      act' ← finalize_activity kineto_event act;
      finalize_loop rest events (<[idx := act']> acts)
  end.

Definition set_activities (acts : list libkineto.GenericTraceActivity)
  (b : libkineto.CpuTraceBuffer) : libkineto.CpuTraceBuffer :=
  {| libkineto.span := libkineto.span b;
     libkineto.gpuOpCount := libkineto.gpuOpCount b;
     libkineto.activities := acts |}.

Definition finalizeCPUTrace : M KinetoThreadLocalState () :=
  st ← get_state;
  buf ← deref_opt (cpu_trace st);
  TORCH_INTERNAL_ASSERT
    (bool_decide (length (libkineto.activities buf)
                  = length (kineto_events_ st))) "";;
  acts ← deref_opt
    (finalize_loop (seq 0 (length (libkineto.activities buf)))
       (kineto_events_ st) (libkineto.activities buf));
  modify (set_cpu_trace (Some (set_activities acts buf))).

(** ** The process state around the profiler *)

(** The trace collector, as far as this file drives it. *)
Record ActivityProfiler := mkActivityProfiler {
  trace_started : bool;
  correlation_stack : gmap Z (list Z);
  thread_info : gset Z;
  transferred : list libkineto.CpuTraceBuffer
}.

(** A registered thread-local callback pair. *)
Record Callback := mkCallback {
  cb_handle : Z;
  cb_needsInputs : bool;
  cb_needsIds : bool
}.

Record World := mkWorld {
  (** the [static std::atomic<uint64_t>] of [next_correlation_id] *)
  corr_id_ : Z;
  (** the objects owned through [shared_ptr] *)
  states : gmap nat KinetoThreadLocalState;
  next_loc : nat;
  (** the debug-info slot of every context: a stack of pointers *)
  debug_info : gmap Z (list nat);
  (** the hook registry: thread-local callbacks of every context *)
  callbacks : gmap Z (list Callback);
  next_callback_handle : Z;
  kineto : ActivityProfiler
}.

Definition World_init : World :=
  {| corr_id_ := 1; states := ∅; next_loc := 0%nat; debug_info := ∅;
     callbacks := ∅; next_callback_handle := 1;
     kineto := {| trace_started := false; correlation_stack := ∅;
                  thread_info := ∅; transferred := [] |} |}.

Definition set_corr_id_ (c : Z) (w : World) : World :=
  {| corr_id_ := c; states := states w; next_loc := next_loc w;
     debug_info := debug_info w; callbacks := callbacks w;
     next_callback_handle := next_callback_handle w; kineto := kineto w |}.

Definition set_states (m : gmap nat KinetoThreadLocalState) (n : nat)
  (w : World) : World :=
  {| corr_id_ := corr_id_ w; states := m; next_loc := n;
     debug_info := debug_info w; callbacks := callbacks w;
     next_callback_handle := next_callback_handle w; kineto := kineto w |}.

Definition set_debug_info (d : gmap Z (list nat)) (w : World) : World :=
  {| corr_id_ := corr_id_ w; states := states w; next_loc := next_loc w;
     debug_info := d; callbacks := callbacks w;
     next_callback_handle := next_callback_handle w; kineto := kineto w |}.

Definition set_callbacks (c : gmap Z (list Callback)) (h : Z) (w : World)
  : World :=
  {| corr_id_ := corr_id_ w; states := states w; next_loc := next_loc w;
     debug_info := debug_info w; callbacks := c;
     next_callback_handle := h; kineto := kineto w |}.

Definition set_kineto (k : ActivityProfiler) (w : World) : World :=
  {| corr_id_ := corr_id_ w; states := states w; next_loc := next_loc w;
     debug_info := debug_info w; callbacks := callbacks w;
     next_callback_handle := next_callback_handle w; kineto := k |}.

(** What a call reads from its surroundings: the calling context, the
    clock, the system thread id and the two call-stack providers (whose
    entries arrive already rendered as strings). *)
Record Env := mkEnv {
  currentThreadId : Z;
  getTimeUs : Z;
  systemThreadId : Z;
  currentCallstack : list string;
  pythonCallstack : list string
}.

(** *** Objects in the store *)

Definition make_shared (st : KinetoThreadLocalState) : M World nat :=
  λ w, Val (next_loc w)
           (set_states (<[next_loc w := st]> (states w)) (S (next_loc w)) w).

(** Reading through a pointer; a dangling pointer is undefined. *)
Definition deref (p : nat) : M World KinetoThreadLocalState :=
  λ w, match states w !! p with
       | Some st => Val st w
       | None => Undef
       end.

(** Running a method on the object behind a pointer. *)
Definition on_object {A} (p : nat) (method : M KinetoThreadLocalState A)
  : M World A :=
  λ w, match states w !! p with
       | Some st =>
           match method st with
           | Val a st' => Val a (set_states (<[p := st']> (states w)) (next_loc w) w)
           | Throw e st' =>
               Throw e (set_states (<[p := st']> (states w)) (next_loc w) w)
           | Undef => Undef
           end
       | None => Undef
       end.

(** *** The context-local debug-info slot *)

(** Modelled from the spec: [c10::ThreadLocalDebugInfo] lives outside this
    file; the spec describes a "context-local debug-info slot" on which a
    state is published by [enable] and popped by [disable].  The slot is a
    stack of pointers; [get] reads its top. *)
Definition ThreadLocalDebugInfo_get (t : Z) : M World (option nat) :=
  λ w, Val (head (default [] (debug_info w !! t))) w.

Definition ThreadLocalDebugInfo_push (t : Z) (p : nat) : M World () :=
  modify (λ w,
    set_debug_info (<[t := p :: default [] (debug_info w !! t)]> (debug_info w)) w).

(** Popping an empty slot yields the null pointer and changes nothing. *)
Definition ThreadLocalDebugInfo_pop (t : Z) : M World (option nat) :=
  λ w, match default [] (debug_info w !! t) with
       | [] => Val None w
       | p :: rest => Val (Some p) (set_debug_info (<[t := rest]> (debug_info w)) w)
       end.

Definition getProfilerTLSState (t : Z) : M World (option nat) :=
  ThreadLocalDebugInfo_get t.

(** *** The hook registry *)

(** Modelled from the spec: the registry is an external collaborator with
    [addCallback(startFn, endFn, needsInputs, needsIds) -> handle] and
    [removeCallback(handle)]; handles are positive and fresh. *)
Definition addThreadLocalCallback (t : Z) (needsInputs needsIds : bool)
  : M World Z :=
  λ w, let h := next_callback_handle w in
       Val h (set_callbacks
                (<[t := default [] (callbacks w !! t)
                        ++ [{| cb_handle := h; cb_needsInputs := needsInputs;
                               cb_needsIds := needsIds |}]]> (callbacks w))
                (h + 1) w).

Definition removeCallback (t : Z) (h : Z) : M World () :=
  modify (λ w,
    set_callbacks
      (<[t := filter (λ cb, cb_handle cb ≠ h) (default [] (callbacks w !! t))]>
         (callbacks w))
      (next_callback_handle w) w).

(** *** The trace collector *)

(** Modelled from the spec: the collector is an external collaborator;
    the operations below are the ones §6 lists, acting on the collector's
    own record. *)
Definition pushCorrelationId (t : Z) (id : Z) : M World () :=
  modify (λ w,
    let k := kineto w in
    set_kineto
      {| trace_started := trace_started k;
         correlation_stack :=
           <[t := id :: default [] (correlation_stack k !! t)]>
             (correlation_stack k);
         thread_info := thread_info k; transferred := transferred k |} w).

Definition popCorrelationId (t : Z) : M World () :=
  modify (λ w,
    let k := kineto w in
    set_kineto
      {| trace_started := trace_started k;
         correlation_stack :=
           <[t := tail (default [] (correlation_stack k !! t))]>
             (correlation_stack k);
         thread_info := thread_info k; transferred := transferred k |} w).

Definition recordThreadInfo (t : Z) : M World () :=
  modify (λ w,
    let k := kineto w in
    set_kineto
      {| trace_started := trace_started k;
         correlation_stack := correlation_stack k;
         thread_info := {[t]} ∪ thread_info k;
         transferred := transferred k |} w).

Definition startTrace : M World () :=
  modify (λ w,
    let k := kineto w in
    set_kineto
      {| trace_started := true; correlation_stack := correlation_stack k;
         thread_info := thread_info k; transferred := transferred k |} w).

Definition transferCpuTrace (buf : option libkineto.CpuTraceBuffer)
  : M World () :=
  modify (λ w,
    let k := kineto w in
    set_kineto
      {| trace_started := trace_started k;
         correlation_stack := correlation_stack k;
         thread_info := thread_info k;
         transferred := transferred k ++ option_list buf |} w).

(** [stopTrace] hands back whatever the collector finalised, [None] when
    it has nothing; the outcome is an input of the model. *)
Definition stopTrace (finalised : option libkineto.ActivityTraceInterface)
  : M World (option libkineto.ActivityTraceInterface) :=
  λ w, let k := kineto w in
       Val finalised
         (set_kineto
            {| trace_started := false;
               correlation_stack := correlation_stack k;
               thread_info := thread_info k;
               transferred := transferred k |} w).

(** ** The correlation id generator *)

Definition uint64_modulus : Z := 2 ^ 64.

(** [return corr_id_++;] on a 64-bit unsigned atomic. *)
Definition next_correlation_id : M World Z :=
  λ w, Val (corr_id_ w)
           (set_corr_id_ ((corr_id_ w + 1) mod uint64_modulus) w).

(** The values handed out by [n] successive calls. *)
Fixpoint issue (n : nat) (w : World) : list Z * World :=
  match n with
  | O => ([], w)
  | S n' =>
      match next_correlation_id w with
      | Val id w' => let '(ids, w'') := issue n' w' in (id :: ids, w'')
      | _ => ([], w)
      end
  end.

(** ** Recording a finished operation *)

(** [computeFlops] is defined outside this file; its result for an
    operation is taken as given. *)
Definition reportClientActivity (this : nat) (env : Env) (flops : Z)
  (fn : RecordFunction) (ctx : option KinetoObserverContext) : M World () :=
  match ctx with
  | None => mret ()
  | Some ctx =>
      let op :=
        {| libkineto.activityType := libkineto.CPU_OP;
           libkineto.activityName := fn_name fn;
           libkineto.startTime := startUs ctx;
           libkineto.endTime := getTimeUs env;
           libkineto.device := 0;
           libkineto.correlation := correlationId ctx;
           libkineto.sysThreadId := systemThreadId env;
           libkineto.metadata := [] |} in
      recordThreadInfo (currentThreadId env);;
      on_object this (
        st ← get_state;
        let ev := activity (libkineto.as_TraceActivity op) KinetoEvent_new in
        let ev :=
          {| start_thread_id_ := startThreadId ctx;
             end_thread_id_ := endThreadId ctx;
             sequence_nr_ := sequenceNr ctx;
             fwd_thread_id_ := fwdThreadId ctx;
             scope_ := recFunScope ctx;
             is_async_ := fn_isAsync fn;
             shapes_ :=
               if engaged_nonempty (shapes ctx) then shapes ctx else shapes_ ev;
             dtypes_ :=
               if engaged_nonempty (dtypes ctx) then dtypes ctx else dtypes_ ev;
             stack_ :=
               if engaged_nonempty (stack ctx) then stack ctx else stack_ ev;
             flops_ :=
               if engaged_nonempty (extraArgs ctx) then flops else flops_ ev;
             activity_type_ := activity_type_ ev; name_ := name_ ev;
             device_index_ := device_index_ ev; start_us_ := start_us_ ev;
             duration_us_ := duration_us_ ev;
             correlation_id_ := correlation_id_ ev;
             linked_correlation_id_ := linked_correlation_id_ ev;
             device_resource_id_ := device_resource_id_ ev |} in
        modify (set_kineto_events_ (kineto_events_ st ++ [ev]));;
        buf ← deref_opt (cpu_trace st);
        modify (set_cpu_trace
                  (Some (set_activities (libkineto.activities buf ++ [op]) buf))))
  end.

(** ** The capture callbacks *)

(** The start callback registered by [pushProfilingCallbacks]. *)
Definition start_callback (env : Env) (fn : RecordFunction)
  : M World KinetoObserverContext :=
  state_ptr ← getProfilerTLSState (currentThreadId env);
  match state_ptr with
  | None => mret KinetoObserverContext_new
  | Some p =>
      st ← deref p;
      if decide (state (config_ st) ≠ KINETO)
      then mret KinetoObserverContext_new
      else
        corr_id ← next_correlation_id;
        pushCorrelationId (currentThreadId env) corr_id;;
        let with_shapes := report_input_shapes (config_ st) in
        let capture_stack :=
          with_stack (config_ st)
          && bool_decide (fn_scope fn ≠ BACKWARD_FUNCTION) in
        let cs := currentCallstack env in
        let cs := match cs with [] => pythonCallstack env | _ => cs end in
        mret
          {| startUs := getTimeUs env;
             correlationId := corr_id;
             startThreadId := currentThreadId env;
             endThreadId := 0;
             shapes := if with_shapes then Some (fn_inputSizes fn) else None;
             dtypes := if with_shapes then Some (inputTypes fn) else None;
             extraArgs :=
               if with_flops (config_ st) then Some (fn_extraArgs fn) else None;
             sequenceNr := fn_seqNr fn;
             fwdThreadId := fn_forwardThreadId fn;
             recFunScope := fn_scope fn;
             stack := if capture_stack then Some cs else None |}
  end.

Definition set_endThreadId (t : Z) (c : KinetoObserverContext)
  : KinetoObserverContext :=
  {| startUs := startUs c; correlationId := correlationId c;
     startThreadId := startThreadId c; endThreadId := t;
     shapes := shapes c; dtypes := dtypes c; sequenceNr := sequenceNr c;
     fwdThreadId := fwdThreadId c; recFunScope := recFunScope c;
     stack := stack c; extraArgs := extraArgs c |}.

(** The end callback registered by [pushProfilingCallbacks].  It returns
    the operation context as it leaves it, so that a write to the context
    is visible in the result. *)
Definition end_callback (env : Env) (flops : Z) (fn : RecordFunction)
  (ctx_ptr : option KinetoObserverContext)
  : M World (option KinetoObserverContext) :=
  state_ptr ← getProfilerTLSState (currentThreadId env);
  match state_ptr with
  | None => mret ctx_ptr
  | Some p =>
      st ← deref p;
      if decide (state (config_ st) ≠ KINETO)
      then mret ctx_ptr
      else
        TORCH_INTERNAL_ASSERT (bool_decide (is_Some ctx_ptr)) "";;
        let kineto_ctx_ptr := set_endThreadId (currentThreadId env) <$> ctx_ptr in
        reportClientActivity p env flops fn kineto_ctx_ptr;;
        popCorrelationId (currentThreadId env);;
        mret kineto_ctx_ptr
  end.

Definition pushProfilingCallbacks (env : Env) : M World () :=
  state_ptr ← getProfilerTLSState (currentThreadId env);
  TORCH_INTERNAL_ASSERT (bool_decide (is_Some state_ptr))
    "Expected profiler state set";;
  p ← deref_opt state_ptr;
  st ← deref p;
  handle ← addThreadLocalCallback (currentThreadId env)
              (report_input_shapes (config_ st)) true;
  on_object p (modify (set_handle_ handle)).

(** ** Session control *)

Definition enableProfiler (env : Env) (config : ProfilerConfig)
  (activities : list ActivityType) : M World () :=
  TORCH_CHECK (bool_decide (state config = KINETO)) "";;
  TORCH_CHECK (bool_decide (activities ≠ []))
    "No activities specified for Kineto profiler";;
  state_ptr ← getProfilerTLSState (currentThreadId env);
  TORCH_CHECK (bool_decide (state_ptr = None))
    "Profiler is already enabled on this thread";;
  p ← make_shared (KinetoThreadLocalState_new config);
  ThreadLocalDebugInfo_push (currentThreadId env) p;;
  on_object p (modify (set_cpu_trace
    (Some {| libkineto.span :=
               {| libkineto.span_startTime := getTimeUs env;
                  libkineto.span_endTime :=
                    libkineto.span_endTime
                      (libkineto.span libkineto.CpuTraceBuffer_new);
                  libkineto.span_name := "PyTorch Profiler" |};
             libkineto.gpuOpCount := -1;
             libkineto.activities :=
               libkineto.activities libkineto.CpuTraceBuffer_new |})));;
  (if set_count ActivityType_CPU activities
   then pushProfilingCallbacks env
   else mret ());;
  startTrace;;
  on_object p (mark "__start_profile" false (currentThreadId env)).

(** The result of a session. *)
Record ProfilerResult := mkProfilerResult {
  saved_ : bool;
  events_ : list KinetoEvent;
  legacy_events_ : list LegacyEvent;
  trace_ : libkineto.ActivityTraceInterface
}.

(** [ProfilerResult::ProfilerResult]; [saved_] takes the initialiser of
    the class declaration. *)
Definition ProfilerResult_new (events : list KinetoEvent)
  (legacy_events : list LegacyEvent)
  (trace : libkineto.ActivityTraceInterface) : ProfilerResult :=
  {| saved_ := false; events_ := events; legacy_events_ := legacy_events;
     trace_ := trace |}.

Definition set_span_endTime (t : Z) (b : libkineto.CpuTraceBuffer)
  : libkineto.CpuTraceBuffer :=
  {| libkineto.span :=
       {| libkineto.span_startTime := libkineto.span_startTime (libkineto.span b);
          libkineto.span_endTime := t;
          libkineto.span_name := libkineto.span_name (libkineto.span b) |};
     libkineto.gpuOpCount := libkineto.gpuOpCount b;
     libkineto.activities := libkineto.activities b |}.

(** [finalised] is what the collector will answer to [stopTrace]. *)
Definition disableProfiler (env : Env)
  (finalised : option libkineto.ActivityTraceInterface)
  : M World ProfilerResult :=
  state_sp ← ThreadLocalDebugInfo_pop (currentThreadId env);
  st ← match state_sp with
       | Some p => st ← deref p; mret (Some st)
       | None => mret None
       end;
  TORCH_CHECK
    (match st with
     | Some st => bool_decide (state (config_ st) = KINETO)
     | None => false
     end) "Can't disable Kineto profiler when it's not running";;
  state_ptr ← deref_opt state_sp;
  st ← deref state_ptr;
  (if hasCallbackHandle st
   then removeCallback (currentThreadId env) (handle_ st)
   else mret ());;
  on_object state_ptr (mark "__stop_profile" false (currentThreadId env));;
  on_object state_ptr (
    s ← get_state;
    buf ← deref_opt (cpu_trace s);
    modify (set_cpu_trace (Some (set_span_endTime (getTimeUs env) buf))));;
  on_object state_ptr finalizeCPUTrace;;
  buf ← on_object state_ptr (
    s ← get_state; modify (set_cpu_trace None);; mret (cpu_trace s));
  transferCpuTrace buf;;
  trace ← stopTrace finalised;
  TORCH_CHECK (bool_decide (is_Some trace)) "";;
  trace ← deref_opt trace;
  on_object state_ptr (addTraceEvents trace);;
  events ← on_object state_ptr (
    s ← get_state; modify (set_kineto_events_ []);; mret (kineto_events_ s));
  legacy ← on_object state_ptr consolidate;
  mret (ProfilerResult_new events legacy trace).

(** ** Saving a result *)

(** The result together with the files written so far. *)
Record SaveState := mkSaveState {
  result : ProfilerResult;
  files : gmap string libkineto.ActivityTraceInterface
}.

(** Modelled from the spec: the trace's own [save] belongs to the
    collector; it "writes the trace" to the file at [path]. *)
Definition trace_save (path : string) : M SaveState () :=
  modify (λ s,
    {| result := result s;
       files := <[path := trace_ (result s)]> (files s) |}).

Definition save (path : string) : M SaveState () :=
  s ← get_state;
  TORCH_CHECK (negb (saved_ (result s))) "Trace is already saved";;
  trace_save path;;
  modify (λ s,
    {| result :=
         {| saved_ := true; events_ := events_ (result s);
            legacy_events_ := legacy_events_ (result s);
            trace_ := trace_ (result s) |};
       files := files s |}).


(** ** Device classification of an event *)




(** ** Preparing a trace *)

#[global] Instance libkineto_ActivityType_countable :
  Countable libkineto.ActivityType.
Proof.
  refine (inj_countable'
            (λ k, match k with
                  | libkineto.CPU_OP => 0%nat
                  | libkineto.GPU_MEMCPY => 1%nat
                  | libkineto.GPU_MEMSET => 2%nat
                  | libkineto.CONCURRENT_KERNEL => 3%nat
                  | libkineto.EXTERNAL_CORRELATION => 4%nat
                  | libkineto.CUDA_RUNTIME => 5%nat
                  end)
            (λ n, match n with
                  | 0%nat => libkineto.CPU_OP
                  | 1%nat => libkineto.GPU_MEMCPY
                  | 2%nat => libkineto.GPU_MEMSET
                  | 3%nat => libkineto.CONCURRENT_KERNEL
                  | 4%nat => libkineto.EXTERNAL_CORRELATION
                  | _ => libkineto.CUDA_RUNTIME
                  end) _).
  by intros [].
Defined.

Definition cpuTypes : gset libkineto.ActivityType :=
  {[ libkineto.CPU_OP; libkineto.EXTERNAL_CORRELATION;
     libkineto.CUDA_RUNTIME ]}.

Definition cudaTypes : gset libkineto.ActivityType :=
  {[ libkineto.GPU_MEMCPY; libkineto.GPU_MEMSET;
     libkineto.CONCURRENT_KERNEL; libkineto.CUDA_RUNTIME ]}.

(** The set [prepareProfiler] builds from the requested activity kinds. *)
Definition k_activities (activities : list ActivityType)
  : gset libkineto.ActivityType :=
  let k := ∅ in
  let k := if set_count ActivityType_CPU activities then k ∪ cpuTypes else k in
  let k := if set_count ActivityType_CUDA activities then k ∪ cudaTypes else k in
  k.

(** Modelled from the spec: the collector's entry point is an external
    collaborator; §4.4 says [prepare] "lazily initializes the Trace
    Collector singleton if not yet registered" and hands it the activity
    kind set.  The record keeps what [prepareProfiler] asks and tells
    it. *)
Record KinetoApi := mkKinetoApi {
  profilerRegistered : bool;
  profilerInitialized : bool;
  init_cpuOnly : option bool;
  logMessagesSuppressed : bool;
  preparedActivities : option (gset libkineto.ActivityType)
}.

Definition libkineto_init (cpuOnly logOnError : bool) : M KinetoApi () :=
  modify (λ api,
    {| profilerRegistered := true;
       profilerInitialized := profilerInitialized api;
       init_cpuOnly := Some cpuOnly;
       logMessagesSuppressed := logMessagesSuppressed api;
       preparedActivities := preparedActivities api |}).

Definition suppressLogMessages : M KinetoApi () :=
  modify (λ api,
    {| profilerRegistered := profilerRegistered api;
       profilerInitialized := profilerInitialized api;
       init_cpuOnly := init_cpuOnly api;
       logMessagesSuppressed := true;
       preparedActivities := preparedActivities api |}).

Definition initProfilerIfRegistered : M KinetoApi () :=
  modify (λ api,
    {| profilerRegistered := profilerRegistered api;
       profilerInitialized :=
         profilerInitialized api || profilerRegistered api;
       init_cpuOnly := init_cpuOnly api;
       logMessagesSuppressed := logMessagesSuppressed api;
       preparedActivities := preparedActivities api |}).

Definition prepareTrace (k : gset libkineto.ActivityType) : M KinetoApi () :=
  modify (λ api,
    {| profilerRegistered := profilerRegistered api;
       profilerInitialized := profilerInitialized api;
       init_cpuOnly := init_cpuOnly api;
       logMessagesSuppressed := logMessagesSuppressed api;
       preparedActivities := Some k |}).

(** [hasCUDA] is the answer of [at::hasCUDA()]. *)
Definition prepareProfiler (hasCUDA : bool) (config : ProfilerConfig)
  (activities : list ActivityType) : M KinetoApi () :=
  TORCH_CHECK (bool_decide (state config = KINETO))
    "Supported only in Kineto profiler";;
  let k := k_activities activities in
  api ← get_state;
  (if negb (profilerRegistered api)
   then libkineto_init (negb hasCUDA) true;; suppressLogMessages
   else mret ());;
  api ← get_state;
  (if negb (profilerInitialized api)
   then initProfilerIfRegistered
   else mret ());;
  prepareTrace k.

(** * Vocabulary of the properties *)

(** The claim of C4 read literally, for any number of calls. *)
Definition always_increasing : Prop :=
  ∀ n : nat, StronglySorted Z.lt (issue n World_init).1.

(** The events [addTraceEvents] appends for a list of activities. *)
Definition imported (acts : list libkineto.TraceActivity) : list KinetoEvent :=
  (λ a, activity a KinetoEvent_new)
    <$> filter (λ a, libkineto.type a ≠ libkineto.CPU_OP) acts.

(** A recorded operation and a device kernel linked to it. *)
Definition sample_op : libkineto.GenericTraceActivity :=
  {| libkineto.activityType := libkineto.CPU_OP;
     libkineto.activityName := "add";
     libkineto.startTime := 10; libkineto.endTime := 25;
     libkineto.device := 0; libkineto.correlation := 41;
     libkineto.sysThreadId := 4242; libkineto.metadata := [] |}.

Definition sample_kernel : libkineto.TraceActivity :=
  {| libkineto.type := libkineto.CONCURRENT_KERNEL;
     libkineto.name := "add_kernel";
     libkineto.deviceId := 0; libkineto.resourceId := 7;
     libkineto.timestamp := 30; libkineto.duration := 4;
     libkineto.correlationId := 41;
     libkineto.linkedActivity := Some (libkineto.as_TraceActivity sample_op) |}.



(** No event of the sequence stores an empty stack. *)
Definition stacks_nonempty (events : list KinetoEvent) : Prop :=
  Forall (λ e, stack_ e ≠ Some []) events.

(** The metadata [finalizeCPUTrace] is to attach for an event, in the
    order of the four tests of its loop body. *)
Definition attached_metadata (e : KinetoEvent) : list (string * string) :=
  (if hasShapes e
   then [("Input Dims", shapesToStr (default [] (shapes_ e)))] else [])
  ++ (if hasStack e
      then [("Call stack", default "" (stacksToStr (default [] (stack_ e))))]
      else [])
  ++ (if hasTypes e
      then [("Input type", dtypesToStr (default [] (dtypes_ e)))] else [])
  ++ (if bool_decide (0 ≤ sequence_nr_ e)
      then [("Fwd thread id", pretty (fwd_thread_id_ e));
            ("Sequence number", pretty (sequence_nr_ e))]
      else []).

(** An activity with further metadata appended and nothing else changed. *)
Definition with_metadata (md : list (string * string))
  (a : libkineto.GenericTraceActivity) : libkineto.GenericTraceActivity :=
  {| libkineto.activityType := libkineto.activityType a;
     libkineto.activityName := libkineto.activityName a;
     libkineto.startTime := libkineto.startTime a;
     libkineto.endTime := libkineto.endTime a;
     libkineto.device := libkineto.device a;
     libkineto.correlation := libkineto.correlation a;
     libkineto.sysThreadId := libkineto.sysThreadId a;
     libkineto.metadata := libkineto.metadata a ++ md |}.

(** A state with two events paired with two activities. *)
Definition sample_state : KinetoThreadLocalState :=
  {| config_ := {| state := KINETO; report_input_shapes := true;
                   profile_memory := false; with_stack := true;
                   with_flops := false |};
     handle_ := 1; legacy_events_of := [];
     kineto_events_ :=
       [ {| start_thread_id_ := 7; end_thread_id_ := 7; fwd_thread_id_ := 3;
            sequence_nr_ := 5; scope_ := FUNCTION;
            activity_type_ := libkineto.CPU_OP;
            shapes_ := Some [[2; 3]; [4]]; stack_ := Some ["a.py(1): f"];
            dtypes_ := Some ["float"; "int"]; flops_ := 0; name_ := "add";
            device_index_ := 0; start_us_ := 10; duration_us_ := 15;
            correlation_id_ := 41; linked_correlation_id_ := 0;
            device_resource_id_ := 4242; is_async_ := false |};
         activity (libkineto.as_TraceActivity sample_op) KinetoEvent_new ];
     cpu_trace :=
       Some (set_activities [sample_op; sample_op]
               libkineto.CpuTraceBuffer_new) |}.


(** [m] keeps [I]: whenever it returns or throws from a state satisfying
    [I], the state it leaves satisfies [I]. *)
Definition preserves {S A} (I : S → Prop) (m : M S A) : Prop :=
  ∀ s, I s →
    match m s with
    | Val _ s' | Throw _ s' => I s'
    | Undef => True
    end.

(** The invariant on one object and on the store. *)
Definition object_ok (st : KinetoThreadLocalState) : Prop :=
  stacks_nonempty (kineto_events_ st).

Definition store_ok (w : World) : Prop :=
  ∀ p st, states w !! p = Some st → object_ok st.

(** The calls a program and the hook registry make into this file, with
    the inputs each call reads from its surroundings. *)
Inductive Call :=
  | Call_enableProfiler (env : Env) (config : ProfilerConfig)
      (activities : list ActivityType)
  | Call_start_callback (env : Env) (fn : RecordFunction)
  | Call_end_callback (env : Env) (flops : Z) (fn : RecordFunction)
      (ctx : option KinetoObserverContext)
  | Call_disableProfiler (env : Env)
      (finalised : option libkineto.ActivityTraceInterface).

(** The state a call leaves behind, whether it returned or threw. *)
Definition state_after {A} (r : Res World A) : option World :=
  match r with
  | Val _ w | Throw _ w => Some w
  | Undef => None
  end.

Definition run (c : Call) (w : World) : option World :=
  match c with
  | Call_enableProfiler env config activities =>
      state_after (enableProfiler env config activities w)
  | Call_start_callback env fn => state_after (start_callback env fn w)
  | Call_end_callback env flops fn ctx =>
      state_after (end_callback env flops fn ctx w)
  | Call_disableProfiler env finalised =>
      state_after (disableProfiler env finalised w)
  end.

Inductive reachable : World → Prop :=
  | reachable_init : reachable World_init
  | reachable_step c w w' :
      reachable w → run c w = Some w' → reachable w'.

(** *** A sample session *)

Definition sample_config : ProfilerConfig :=
  {| state := KINETO; report_input_shapes := true; profile_memory := false;
     with_stack := true; with_flops := false |}.

Definition sample_env : Env :=
  {| currentThreadId := 7; getTimeUs := 100; systemThreadId := 4242;
     currentCallstack := []; pythonCallstack := ["a.py(1): f"] |}.

Definition other_env : Env :=
  {| currentThreadId := 8; getTimeUs := 120; systemThreadId := 4243;
     currentCallstack := []; pythonCallstack := [] |}.

Definition sample_fn : RecordFunction :=
  {| fn_name := "add";
     fn_inputs := [IV_Tensor true "float"; IV_Scalar "Int"];
     fn_inputSizes := [[2; 3]; []]; fn_extraArgs := [];
     fn_seqNr := 5; fn_forwardThreadId := 0; fn_scope := FUNCTION;
     fn_isAsync := false |}.

(** The context the start callback returns for [sample_fn] in a fresh
    session. *)
Definition sample_ctx : KinetoObserverContext :=
  {| startUs := 100; correlationId := 1; startThreadId := 7;
     endThreadId := 0; shapes := Some [[2; 3]; []];
     dtypes := Some ["float"; "Int"]; sequenceNr := 5; fwdThreadId := 0;
     recFunScope := FUNCTION; stack := Some ["a.py(1): f"];
     extraArgs := None |}.

Definition world_enabled : World :=
  default World_init
    (run (Call_enableProfiler sample_env sample_config [ActivityType_CPU])
       World_init).

Definition world_started : World :=
  default World_init (run (Call_start_callback sample_env sample_fn) world_enabled).

Definition world_ended : World :=
  default World_init
    (run (Call_end_callback sample_env 0 sample_fn (Some sample_ctx))
       world_started).

Definition sample_final_state : KinetoThreadLocalState :=
  default (KinetoThreadLocalState_new sample_config)
    (states world_ended !! 0%nat).

Definition sample_event : KinetoEvent :=
  default KinetoEvent_new (head (kineto_events_ sample_final_state)).

(** The number of calls of [save] that return normally when the result is
    saved to each of [paths] in turn, and the state they leave. *)
Fixpoint save_all (paths : list string) (s : SaveState) : nat * SaveState :=
  match paths with
  | [] => (0%nat, s)
  | path :: rest =>
      match save path s with
      | Val _ s' => let '(n, s'') := save_all rest s' in (S n, s'')
      | Throw _ s' => save_all rest s'
      | Undef => (0%nat, s)
      end
  end.

(** A newly built result. *)
Definition sample_result : ProfilerResult :=
  ProfilerResult_new [] []
    {| libkineto.trace_activities := [sample_kernel] |}.

(** The state published in a context's slot, if any. *)
Definition active_state (t : Z) (w : World) : option nat :=
  head (default [] (debug_info w !! t)).

Definition not_running : string :=
  "Can't disable Kineto profiler when it's not running".

(** The claim of C1 read literally: whenever [disableProfiler] is called
    while the active state is not of [KINETO] kind, it throws a usage
    error and the context's slot still holds that state. *)
Definition disable_failure_keeps_slot : Prop :=
  ∀ env finalised w p st,
    active_state (currentThreadId env) w = Some p →
    states w !! p = Some st → state (config_ st) ≠ KINETO →
    ∃ msg w',
      disableProfiler env finalised w = Throw (UsageError msg) w'
      ∧ active_state (currentThreadId env) w'
        = active_state (currentThreadId env) w.

(** A context whose slot holds a state of the legacy CPU kind. *)
Definition legacy_config : ProfilerConfig :=
  {| state := CPU; report_input_shapes := false; profile_memory := false;
     with_stack := false; with_flops := false |}.

Definition world_legacy : World :=
  {| corr_id_ := 1;
     states := {[ 0%nat := KinetoThreadLocalState_new legacy_config ]};
     next_loc := 1%nat;
     debug_info := {[ 7 := [0%nat] ]};
     callbacks := ∅; next_callback_handle := 1;
     kineto := kineto World_init |}.

(** The test both callbacks start with: no state in the slot, or a state
    whose kind is not [KINETO]. *)
Definition profiling_off (t : Z) (w : World) : Prop :=
  active_state t w = None
  ∨ ∃ p st, active_state t w = Some p ∧ states w !! p = Some st
            ∧ state (config_ st) ≠ KINETO.

(** The claim of C3 read literally for its second case: handed the
    context the start callback produces on its disabled path, the end
    callback returns at once and changes nothing. *)
Definition end_callback_skips_sentinel : Prop :=
  ∀ env flops fn w,
    end_callback env flops fn (Some KinetoObserverContext_new) w
    = Val (Some KinetoObserverContext_new) w.


(** ** Vocabulary of the further properties *)

(** The world with the object behind [p] replaced. *)
Definition with_object (p : nat) (st : KinetoThreadLocalState) (w : World)
  : World :=
  set_states (<[p := st]> (states w)) (next_loc w) w.

(** The collector after the calling thread was made known to it. *)
Definition with_thread_info (t : Z) (w : World) : World :=
  set_kineto
    {| trace_started := trace_started (kineto w);
       correlation_stack := correlation_stack (kineto w);
       thread_info := {[t]} ∪ thread_info (kineto w);
       transferred := transferred (kineto w) |} w.

(** The collector with the correlation stack of context [t] replaced. *)
Definition with_correlation_stack (t : Z) (l : list Z) (w : World) : World :=
  set_kineto
    {| trace_started := trace_started (kineto w);
       correlation_stack := <[t := l]> (correlation_stack (kineto w));
       thread_info := thread_info (kineto w);
       transferred := transferred (kineto w) |} w.

(** The correlation stack of a context. *)
Definition correlation_stack_of (t : Z) (w : World) : list Z :=
  default [] (correlation_stack (kineto w) !! t).

(** The activity [reportClientActivity] hands to the buffer. *)
Definition client_activity (env : Env) (fn : RecordFunction)
  (ctx : KinetoObserverContext) : libkineto.GenericTraceActivity :=
  {| libkineto.activityType := libkineto.CPU_OP;
     libkineto.activityName := fn_name fn;
     libkineto.startTime := startUs ctx;
     libkineto.endTime := getTimeUs env;
     libkineto.device := 0;
     libkineto.correlation := correlationId ctx;
     libkineto.sysThreadId := systemThreadId env;
     libkineto.metadata := [] |}.

(** The event [reportClientActivity] appends, field by field. *)
Definition client_event (env : Env) (flops : Z) (fn : RecordFunction)
  (ctx : KinetoObserverContext) : KinetoEvent :=
  {| start_thread_id_ := startThreadId ctx;
     end_thread_id_ := endThreadId ctx;
     fwd_thread_id_ := fwdThreadId ctx;
     sequence_nr_ := sequenceNr ctx;
     scope_ := recFunScope ctx;
     activity_type_ := libkineto.CPU_OP;
     shapes_ := if engaged_nonempty (shapes ctx) then shapes ctx else None;
     stack_ := if engaged_nonempty (stack ctx) then stack ctx else None;
     dtypes_ := if engaged_nonempty (dtypes ctx) then dtypes ctx else None;
     flops_ := if engaged_nonempty (extraArgs ctx) then flops else 0;
     name_ := fn_name fn;
     device_index_ := 0;
     start_us_ := startUs ctx;
     duration_us_ := getTimeUs env - startUs ctx;
     correlation_id_ := correlationId ctx;
     linked_correlation_id_ := 0;
     device_resource_id_ := systemThreadId env;
     is_async_ := fn_isAsync fn |}.

(** The object after one more operation was recorded in it. *)
Definition recorded (env : Env) (flops : Z) (fn : RecordFunction)
  (ctx : KinetoObserverContext) (st : KinetoThreadLocalState)
  (buf : libkineto.CpuTraceBuffer) : KinetoThreadLocalState :=
  set_cpu_trace
    (Some (set_activities
             (libkineto.activities buf ++ [client_activity env fn ctx]) buf))
    (set_kineto_events_
       (kineto_events_ st ++ [client_event env flops fn ctx]) st).

(** The context the start callback fills in for an instrumented
    operation. *)
Definition started_ctx (env : Env) (fn : RecordFunction)
  (config : ProfilerConfig) (corr_id : Z) : KinetoObserverContext :=
  {| startUs := getTimeUs env;
     correlationId := corr_id;
     startThreadId := currentThreadId env;
     endThreadId := 0;
     shapes :=
       if report_input_shapes config then Some (fn_inputSizes fn) else None;
     dtypes :=
       if report_input_shapes config then Some (inputTypes fn) else None;
     sequenceNr := fn_seqNr fn;
     fwdThreadId := fn_forwardThreadId fn;
     recFunScope := fn_scope fn;
     stack :=
       if with_stack config && bool_decide (fn_scope fn ≠ BACKWARD_FUNCTION)
       then Some (match currentCallstack env with
                  | [] => pythonCallstack env
                  | _ => currentCallstack env
                  end)
       else None;
     extraArgs := if with_flops config then Some (fn_extraArgs fn) else None |}.

(** The process state after the start callback instrumented an
    operation. *)
Definition started (env : Env) (w : World) : World :=
  with_correlation_stack (currentThreadId env)
    (corr_id_ w :: correlation_stack_of (currentThreadId env) w)
    (set_corr_id_ ((corr_id_ w + 1) mod uint64_modulus) w).

(** The process state after the end callback recorded an operation. *)
Definition ended (env : Env) (flops : Z) (fn : RecordFunction)
  (ctx : KinetoObserverContext) (p : nat) (st : KinetoThreadLocalState)
  (buf : libkineto.CpuTraceBuffer) (w : World) : World :=
  with_correlation_stack (currentThreadId env)
    (tail (correlation_stack_of (currentThreadId env) w))
    (with_object p
       (recorded env flops fn (set_endThreadId (currentThreadId env) ctx) st buf)
       (with_thread_info (currentThreadId env) w)).

(** A state is active in context [t], of [KINETO] kind, and still owns
    its buffer. *)
Definition session_active (t : Z) (p : nat) (st : KinetoThreadLocalState)
  (buf : libkineto.CpuTraceBuffer) (w : World) : Prop :=
  active_state t w = Some p ∧ states w !! p = Some st
  ∧ state (config_ st) = KINETO ∧ cpu_trace st = Some buf.

(** What [finalizeCPUTrace] leaves in the buffer: every activity with the
    metadata of the event at its index. *)
Definition finalized_activities (events : list KinetoEvent)
  (acts : list libkineto.GenericTraceActivity)
  : list libkineto.GenericTraceActivity :=
  zip_with (λ e a, with_metadata (attached_metadata e) a) events acts.

(** The callback pair [pushProfilingCallbacks] registers. *)
Definition registered_callback (config : ProfilerConfig) (w : World)
  : Callback :=
  {| cb_handle := next_callback_handle w;
     cb_needsInputs := report_input_shapes config;
     cb_needsIds := true |}.

Definition start_mark (env : Env) : LegacyEvent :=
  {| legacy_name := "__start_profile";
     legacy_thread_id := currentThreadId env |}.

Definition stop_mark (env : Env) : LegacyEvent :=
  {| legacy_name := "__stop_profile";
     legacy_thread_id := currentThreadId env |}.

(** The state object of a session that has just been enabled. *)
Definition enabled_object (env : Env) (config : ProfilerConfig) (handle : Z)
  : KinetoThreadLocalState :=
  {| config_ := config; handle_ := handle;
     legacy_events_of := [start_mark env];
     kineto_events_ := [];
     cpu_trace :=
       Some {| libkineto.span :=
                 {| libkineto.span_startTime := getTimeUs env;
                    libkineto.span_endTime := 0;
                    libkineto.span_name := "PyTorch Profiler" |};
               libkineto.gpuOpCount := -1;
               libkineto.activities := [] |} |}.

(** The process state after [enableProfiler] returned. *)
Definition enabled (env : Env) (config : ProfilerConfig)
  (activities : list ActivityType) (w : World) : World :=
  let p := next_loc w in
  let t := currentThreadId env in
  let cpu := set_count ActivityType_CPU activities in
  {| corr_id_ := corr_id_ w;
     states :=
       <[p := enabled_object env config
                (if cpu then next_callback_handle w else 0)]> (states w);
     next_loc := S p;
     debug_info := <[t := [p]]> (debug_info w);
     callbacks :=
       if cpu
       then <[t := default [] (callbacks w !! t)
                   ++ [registered_callback config w]]> (callbacks w)
       else callbacks w;
     next_callback_handle :=
       if cpu then next_callback_handle w + 1 else next_callback_handle w;
     kineto :=
       {| trace_started := true;
          correlation_stack := correlation_stack (kineto w);
          thread_info := thread_info (kineto w);
          transferred := transferred (kineto w) |} |}.

(** The buffer [disableProfiler] hands to the collector. *)
Definition transferred_buffer (env : Env) (st : KinetoThreadLocalState)
  (buf : libkineto.CpuTraceBuffer) : libkineto.CpuTraceBuffer :=
  set_activities
    (finalized_activities (kineto_events_ st) (libkineto.activities buf))
    (set_span_endTime (getTimeUs env) buf).

(** The process state after [disableProfiler] tore a session down,
    leaving [obj] behind the popped pointer. *)
Definition torn_down (env : Env) (p : nat) (rest : list nat)
  (st : KinetoThreadLocalState) (buf : libkineto.CpuTraceBuffer)
  (obj : KinetoThreadLocalState) (w : World) : World :=
  let t := currentThreadId env in
  {| corr_id_ := corr_id_ w;
     states := <[p := obj]> (states w);
     next_loc := next_loc w;
     debug_info := <[t := rest]> (debug_info w);
     callbacks :=
       if hasCallbackHandle st
       then <[t := filter (λ cb, cb_handle cb ≠ handle_ st)
                     (default [] (callbacks w !! t))]> (callbacks w)
       else callbacks w;
     next_callback_handle := next_callback_handle w;
     kineto :=
       {| trace_started := false;
          correlation_stack := correlation_stack (kineto w);
          thread_info := thread_info (kineto w);
          transferred :=
            transferred (kineto w) ++ [transferred_buffer env st buf] |} |}.

(** The popped object when the collector returned a trace, and when it
    returned nothing. *)
Definition emptied_object (st : KinetoThreadLocalState)
  : KinetoThreadLocalState :=
  {| config_ := config_ st; handle_ := handle_ st; legacy_events_of := [];
     kineto_events_ := []; cpu_trace := None |}.

Definition stopped_object (env : Env) (st : KinetoThreadLocalState)
  : KinetoThreadLocalState :=
  {| config_ := config_ st; handle_ := handle_ st;
     legacy_events_of := legacy_events_of st ++ [stop_mark env];
     kineto_events_ := kineto_events_ st; cpu_trace := None |}.

(** The result [disableProfiler] returns. *)
Definition session_result (env : Env) (st : KinetoThreadLocalState)
  (trace : libkineto.ActivityTraceInterface) : ProfilerResult :=
  ProfilerResult_new
    (kineto_events_ st ++ imported (libkineto.trace_activities trace))
    (legacy_events_of st ++ [stop_mark env]) trace.

(** The pointers published in a context's slot. *)
Definition slot (t : Z) (w : World) : list nat :=
  default [] (debug_info w !! t).

(** The object behind [p] is a running session: of [KINETO] kind, owning
    a buffer with one activity per event, no event storing an empty
    stack. *)
Definition live_session (p : nat) (w : World) : Prop :=
  (p < next_loc w)%nat
  ∧ ∃ st buf,
      states w !! p = Some st ∧ state (config_ st) = KINETO
      ∧ cpu_trace st = Some buf
      ∧ length (libkineto.activities buf) = length (kineto_events_ st)
      ∧ stacks_nonempty (kineto_events_ st).

(** Every slot is empty or holds exactly one running session, and no two
    contexts publish the same object. *)
Definition sessions_ok (w : World) : Prop :=
  (∀ t, slot t w = [] ∨ ∃ p, slot t w = [p] ∧ live_session p w)
  ∧ (∀ t1 t2 p, p ∈ slot t1 w → p ∈ slot t2 w → t1 = t2).

(** Every element preceded by the separator. *)
Fixpoint join_tail (sep : string) (xs : list string) : string :=
  match xs with
  | [] => ""
  | x :: rest => sep +:+ x +:+ join_tail sep rest
  end.

(** The elements of a list written one after the other with the separator
    between neighbours. *)
Definition join (sep : string) (xs : list string) : string :=
  match xs with
  | [] => ""
  | x :: rest => x +:+ join_tail sep rest
  end.

(** A string between double quotes, and a string between brackets. *)
Definition quoted (s : string) : string := dquote +:+ s +:+ dquote.

Definition bracketed (s : string) : string := "[" +:+ s +:+ "]".

(** A shape rendered as the bracketed list of its decimal dimensions. *)
Definition shape_text (shape : list Z) : string :=
  bracketed (join ", " (pretty <$> shape)).



(** A collector entry point nobody has touched yet. *)
Definition fresh_api : KinetoApi :=
  {| profilerRegistered := false; profilerInitialized := false;
     init_cpuOnly := None; logMessagesSuppressed := false;
     preparedActivities := None |}.

(** The context a call is made in. *)
Definition thread_of (c : Call) : Z :=
  match c with
  | Call_enableProfiler env _ _ | Call_start_callback env _
  | Call_end_callback env _ _ _ | Call_disableProfiler env _ =>
      currentThreadId env
  end.

(** A completed operation: what the end callback is handed and what it
    reads from its surroundings. *)
Record Completion := mkCompletion {
  c_env : Env;
  c_flops : Z;
  c_fn : RecordFunction;
  c_ctx : KinetoObserverContext
}.

(** The end callback run for each completed operation in turn. *)
Fixpoint complete_all (cs : list Completion) : M World () :=
  match cs with
  | [] => mret ()
  | c :: rest =>
      end_callback (c_env c) (c_flops c) (c_fn c) (Some (c_ctx c));;
      complete_all rest
  end.

(** The event and the activity recorded for a completed operation. *)
Definition completed_event (c : Completion) : KinetoEvent :=
  client_event (c_env c) (c_flops c) (c_fn c)
    (set_endThreadId (currentThreadId (c_env c)) (c_ctx c)).

Definition completed_activity (c : Completion)
  : libkineto.GenericTraceActivity :=
  client_activity (c_env c) (c_fn c)
    (set_endThreadId (currentThreadId (c_env c)) (c_ctx c)).

(** A whole session: enable, the completed operations, disable. *)
Definition profile_session (env : Env) (config : ProfilerConfig)
  (activities : list ActivityType) (cs : list Completion) (env_stop : Env)
  (trace : libkineto.ActivityTraceInterface) : M World ProfilerResult :=
  enableProfiler env config activities;;
  complete_all cs;;
  disableProfiler env_stop (Some trace).

Definition sample_completion : Completion :=
  {| c_env := sample_env; c_flops := 0; c_fn := sample_fn;
     c_ctx := sample_ctx |}.

(** A device kernel the collector reports as linked to the activity
    buffered for [sample_completion]. *)
Definition sample_linked_kernel : libkineto.TraceActivity :=
  {| libkineto.type := libkineto.CONCURRENT_KERNEL;
     libkineto.name := "add_kernel";
     libkineto.deviceId := 0; libkineto.resourceId := 7;
     libkineto.timestamp := 130; libkineto.duration := 4;
     libkineto.correlationId := 1;
     libkineto.linkedActivity :=
       Some (libkineto.as_TraceActivity
               (completed_activity sample_completion)) |}.

(** * Properties *)

(** ** Serialisers *)

(** C9: the metadata serialisers are functions of their argument alone,
    and [shapesToStr [[2,3],[4]]] is ["[[2, 3], [4]]"], [dtypesToStr] of
    [float], [int] is the bracketed list of the two names in double quotes
    separated by a comma and a space, and [dtypesToStr] of the empty list
    is ["[]"]. *)
Theorem serialisers_exact_outputs :
  shapesToStr [[2; 3]; [4]] = "[[2, 3], [4]]"
  ∧ dtypesToStr ["float"; "int"]
    = "[" +:+ dquote +:+ "float" +:+ dquote +:+ ", "
          +:+ dquote +:+ "int" +:+ dquote +:+ "]"
  ∧ dtypesToStr [] = "[]".
Proof. repeat split; reflexivity. Qed.

(** ** The correlation id generator *)

Section generator.

Implicit Types (w : World) (n k : nat).

Lemma issue_S n w :
  issue (S n) w =
    (corr_id_ w :: (issue n (set_corr_id_ ((corr_id_ w + 1) mod uint64_modulus) w)).1,
     (issue n (set_corr_id_ ((corr_id_ w + 1) mod uint64_modulus) w)).2).
Proof. cbn [issue next_correlation_id]. by destruct (issue n _). Qed.

Lemma issue_length n w : length (issue n w).1 = n.
Proof.
  revert w; induction n as [|n IH]; intros w; [done|].
  rewrite issue_S; cbn. by rewrite IH.
Qed.

(** The [k]-th call (counting from zero) returns the counter advanced [k]
    times, modulo [2^64]. *)
Lemma issue_lookup n k w :
  (k < n)%nat → 0 ≤ corr_id_ w < uint64_modulus →
  (issue n w).1 !! k = Some ((corr_id_ w + Z.of_nat k) mod uint64_modulus).
Proof.
  revert k w; induction n as [|n IH]; intros k w Hk Hw; [lia|].
  rewrite issue_S. destruct k as [|k]; cbn [fst lookup list_lookup].
  - rewrite Z.add_0_r, Z.mod_small; done.
  - rewrite IH; cbn [corr_id_ set_corr_id_]; [|lia|by apply Z.mod_pos_bound].
    f_equal. rewrite Zplus_mod_idemp_l. f_equal. lia.
Qed.

Lemma issue_counter n w :
  0 ≤ corr_id_ w < uint64_modulus →
  corr_id_ (issue n w).2 = (corr_id_ w + Z.of_nat n) mod uint64_modulus.
Proof.
  revert w; induction n as [|n IH]; intros w Hw.
  - cbn. rewrite Z.add_0_r, Z.mod_small; done.
  - rewrite issue_S; cbn [snd]. rewrite IH; cbn [corr_id_ set_corr_id_];
      [|by apply Z.mod_pos_bound].
    rewrite Zplus_mod_idemp_l. f_equal. lia.
Qed.

(** Before the counter wraps, [n] calls from the initial state return
    [1, 2, ..., n]. *)
Lemma issue_init_before_wrap n :
  Z.of_nat n < uint64_modulus →
  (issue n World_init).1 = (λ k, 1 + Z.of_nat k) <$> seq 0 n.
Proof.
  intros Hn. apply list_eq; intros k.
  destruct (decide (k < n)%nat) as [Hk|Hk].
  - rewrite issue_lookup by (done || (cbn; unfold uint64_modulus; lia)).
    rewrite list_lookup_fmap, lookup_seq_lt by done. cbn.
    rewrite Z.mod_small; [done|]. unfold uint64_modulus in *. lia.
  - rewrite !lookup_ge_None_2; [done|..].
    + rewrite length_fmap, length_seq. lia.
    + rewrite issue_length. lia.
Qed.

Lemma increasing_from_seq (i n : nat) :
  StronglySorted Z.lt ((λ k : nat, 1 + Z.of_nat k) <$> seq i n).
Proof.
  revert i; induction n as [|n IH]; intros i; cbn; constructor; [apply IH|].
  apply Forall_fmap, Forall_forall. intros k Hk%elem_of_seq. cbn. lia.
Qed.

End generator.

Lemma StronglySorted_lookup_lt {A} (R : A → A → Prop) (l : list A)
  (i j : nat) (x y : A) :
  StronglySorted R l → (i < j)%nat → l !! i = Some x → l !! j = Some y →
  R x y.
Proof.
  intros Hl; revert i j; induction Hl as [|a l Hl IH Ha]; intros i j Hij Hi Hj.
  - by rewrite lookup_nil in Hi.
  - destruct j as [|j]; [lia|]. destruct i as [|i]; cbn in *.
    + injection Hi as <-. rewrite Forall_forall in Ha.
      apply Ha. by eapply list_elem_of_lookup_2.
    + apply (IH i j); [lia|done..].
Qed.

(** Around the wrap: when [n] calls are as many as [2^64], the call at
    index [2^64 - 2] returns [2^64 - 1] and the next one returns [0]. *)
Lemma wrap_lookup (n k : nat) :
  Z.of_nat n = uint64_modulus → Z.of_nat k = uint64_modulus - 2 →
  (issue n World_init).1 !! k = Some (uint64_modulus - 1)
  ∧ (issue n World_init).1 !! S k = Some 0.
Proof.
  intros Hn Hk.
  assert (Hm : uint64_modulus = 18446744073709551616) by reflexivity.
  split.
  - rewrite issue_lookup; [|lia|cbn [corr_id_ World_init]; lia].
    cbn [corr_id_ World_init]. f_equal. rewrite Hk.
    rewrite Z.mod_small; lia.
  - rewrite issue_lookup; [|lia|cbn [corr_id_ World_init]; lia].
    cbn [corr_id_ World_init]. f_equal.
    replace (1 + Z.of_nat (S k)) with uint64_modulus by lia.
    apply Z_mod_same_full.
Qed.

(** C4, counterexample: among [2^64] successive calls from the initial
    state, the call at index [2^64 - 2] returns [2^64 - 1] and the next
    one returns [0], so the sequence is not increasing. *)
Lemma next_correlation_id_wraps :
  (∃ n k : nat,
      Z.of_nat n = uint64_modulus ∧ Z.of_nat k = uint64_modulus - 2
      ∧ (issue n World_init).1 !! k = Some (uint64_modulus - 1)
      ∧ (issue n World_init).1 !! S k = Some 0)
  ∧ ¬ always_increasing.
Proof.
  assert (Hm : 0 ≤ uint64_modulus - 2) by (by cbv).
  destruct (Z_of_nat_complete (uint64_modulus - 2) Hm) as [k Hk].
  assert (Hn : Z.of_nat (S (S k)) = uint64_modulus) by lia.
  destruct (wrap_lookup (S (S k)) k Hn (eq_sym Hk)) as [H1 H2].
  split.
  - exists (S (S k)), k. by rewrite <- Hk.
  - intros Hall.
    pose proof (StronglySorted_lookup_lt _ _ k (S k) _ _
                  (Hall (S (S k))) ltac:(lia) H1 H2) as Hlt.
    revert Hlt. by cbv.
Qed.

(** C4, as amended: the counter starts at [1]; a call never fails, returns
    the counter and has the sole effect of advancing it by one modulo
    [2^64]; and as long as fewer than [2^64] ids have been issued, the
    values returned are [1, 2, ..., n], hence strictly increasing and
    pairwise distinct. *)
Theorem next_correlation_id_increasing_before_wrap (n : nat) :
  Z.of_nat n < uint64_modulus →
  corr_id_ World_init = 1
  ∧ (∀ w, next_correlation_id w
          = Val (corr_id_ w)
                (set_corr_id_ ((corr_id_ w + 1) mod uint64_modulus) w))
  ∧ (∀ w, 0 ≤ corr_id_ w < uint64_modulus - 1 →
          ∃ w', next_correlation_id w = Val (corr_id_ w) w'
                ∧ corr_id_ w' = corr_id_ w + 1)
  ∧ (issue n World_init).1 = (λ k, 1 + Z.of_nat k) <$> seq 0 n
  ∧ StronglySorted Z.lt (issue n World_init).1
  ∧ NoDup (issue n World_init).1.
Proof.
  intros Hn. split; [done|]. split; [done|]. split.
  { intros w Hw. eexists; split; [done|]. cbn.
    apply Z.mod_small. unfold uint64_modulus in *. lia. }
  rewrite issue_init_before_wrap by done.
  split; [done|]. split; [apply increasing_from_seq|].
  apply NoDup_fmap_2; [|apply NoDup_seq]. intros i j ?. lia.
Qed.

Lemma next_correlation_id_increasing_before_wrap_witness :
  Z.of_nat 3 < uint64_modulus ∧ (issue 3 World_init).1 = [1; 2; 3].
Proof.
  split; [reflexivity|].
  destruct (next_correlation_id_increasing_before_wrap 3 eq_refl)
    as (_ & _ & _ & H & _).
  exact H.
Defined.

(** ** Importing activities *)

Section import.

Implicit Types (a : libkineto.TraceActivity) (e : KinetoEvent)
  (st : KinetoThreadLocalState).

Lemma addTraceEvents_loop (acts : list libkineto.TraceActivity)
  (events : list KinetoEvent) :
  foldl addTraceEvents_step events acts = events ++ imported acts.
Proof.
  revert events; induction acts as [|a acts IH]; intros events.
  - cbn. by rewrite app_nil_r.
  - cbn [foldl]. rewrite IH. unfold addTraceEvents_step, imported.
    rewrite filter_cons. destruct (decide _); [|done].
    rewrite fmap_cons. by rewrite <- app_assoc.
Qed.

Lemma activity_keeps_stack a e : stack_ (activity a e) = stack_ e.
Proof. done. Qed.

End import.




(** C6: [addTraceEvents] leaves the events already in the sequence in
    place and appends, in the order of the external trace, one event for
    each of its activities whose kind is not [CPU_OP]; activities of kind
    [CPU_OP] are skipped, and nothing else of the state changes. *)
Theorem addTraceEvents_appends_non_cpu_op
  (trace : libkineto.ActivityTraceInterface) (st : KinetoThreadLocalState) :
  addTraceEvents trace st =
    Val () (set_kineto_events_
              (kineto_events_ st ++
                 ((λ a, activity a KinetoEvent_new)
                    <$> filter (λ a, libkineto.type a ≠ libkineto.CPU_OP)
                          (libkineto.trace_activities trace))) st).
Proof.
  unfold addTraceEvents, modify. by rewrite addTraceEvents_loop.
Qed.

(** ** Finalising the CPU trace *)

Section finalise.

Implicit Types (e : KinetoEvent) (a : libkineto.GenericTraceActivity)
  (st : KinetoThreadLocalState).

Lemma string_app_cons (c : ascii) (s1 s2 : string) :
  String c s1 +:+ s2 = String c (s1 +:+ s2).
Proof. reflexivity. Qed.

Lemma string_app_nil_l (s : string) : "" +:+ s = s.
Proof. reflexivity. Qed.

Lemma string_app_nil_r (s : string) : s +:+ "" = s.
Proof.
  induction s as [|c s IH]; [done|]. rewrite string_app_cons. by f_equal.
Qed.

Lemma string_app_assoc (s1 s2 s3 : string) :
  (s1 +:+ s2) +:+ s3 = s1 +:+ (s2 +:+ s3).
Proof.
  induction s1 as [|c s1 IH]; [done|]. rewrite !string_app_cons. by f_equal.
Qed.

Lemma ostream_copy_acc (delim : string) (xs : list string) (oss : string) :
  ostream_copy delim xs oss = oss +:+ ostream_copy delim xs "".
Proof.
  revert oss; induction xs as [|x xs IH]; intros oss; cbn [ostream_copy].
  - by rewrite string_app_nil_r.
  - rewrite IH, (IH ("" +:+ x +:+ delim)).
    by rewrite string_app_nil_l, string_app_assoc.
Qed.

Lemma string_pop_back_app (s : string) (c : ascii) :
  string_pop_back (s +:+ String c "") = Some s.
Proof.
  induction s as [|d s IH]; [done|].
  rewrite string_app_cons. cbn [string_pop_back]. rewrite IH.
  destruct s; [done|]. by rewrite string_app_cons.
Qed.

(** On a non-empty list the accumulated string ends in the separator, so
    the final [pop_back] is defined. *)
Lemma stacksToStr_nonempty (stk : list string) :
  stk ≠ [] → ∃ s, stacksToStr stk = Some s
                  ∧ s +:+ ";" = ostream_copy ";" stk "".
Proof.
  intros Hne. unfold stacksToStr.
  assert (∃ s, ostream_copy ";" stk "" = s +:+ ";") as [s Hs].
  { induction stk as [|x stk IH]; [done|]. cbn [ostream_copy].
    destruct stk as [|y stk].
    - by exists x.
    - destruct IH as [s Hs]; [done|].
      rewrite ostream_copy_acc, Hs. exists ((x +:+ ";") +:+ s).
      by rewrite string_app_nil_l, !string_app_assoc. }
  exists s. rewrite Hs. split; [|done]. apply string_pop_back_app.
Qed.

Lemma stacksToStr_empty : stacksToStr [] = None.
Proof. done. Qed.

Lemma finalize_activity_defined e a :
  stack_ e ≠ Some [] →
  finalize_activity e a = Some (with_metadata (attached_metadata e) a).
Proof.
  intros Hstk. unfold finalize_activity, attached_metadata, with_metadata,
    hasShapes, hasStack, hasTypes.
  destruct a as [ty nm t0 t1 dv co tid md].
  destruct (stack_ e) as [stk|] eqn:Es.
  - destruct (stacksToStr_nonempty stk) as (s & Hs & _); [congruence|].
    change (default [] (Some stk)) with stk. rewrite Hs.
    destruct (shapes_ e) as [sh|], (dtypes_ e) as [dt|],
      (bool_decide (0 ≤ sequence_nr_ e));
      unfold libkineto.addMetadata; cbn; rewrite <- ?app_assoc; cbn;
      reflexivity.
  - destruct (shapes_ e) as [sh|], (dtypes_ e) as [dt|],
      (bool_decide (0 ≤ sequence_nr_ e));
      unfold libkineto.addMetadata; cbn; rewrite <- ?app_assoc, ?app_nil_r;
      cbn; reflexivity.
Qed.

Lemma finalize_activity_undefined e a :
  stack_ e = Some [] → finalize_activity e a = None.
Proof. intros Hstk. unfold finalize_activity. by rewrite Hstk. Qed.

End finalise.

Section finalise_loop.

Implicit Types (e : KinetoEvent) (a : libkineto.GenericTraceActivity)
  (events : list KinetoEvent) (acts : list libkineto.GenericTraceActivity).

(** The loop from index [i] on, over [k] further indices: the activities
    below [i] are left alone, every activity from [i] on receives the
    metadata of the event at its index. *)
Lemma finalize_loop_from (k i : nat) events acts :
  (i + k)%nat = length acts → length events = length acts →
  stacks_nonempty events →
  ∃ acts',
    finalize_loop (seq i k) events acts = Some acts'
    ∧ length acts' = length acts
    ∧ (∀ j, (j < i)%nat → acts' !! j = acts !! j)
    ∧ (∀ j e a, (i ≤ j)%nat → events !! j = Some e → acts !! j = Some a →
         acts' !! j = Some (with_metadata (attached_metadata e) a)).
Proof.
  revert i acts; induction k as [|k IH]; intros i acts Hlen Hev Hwf.
  - exists acts. split; [done|]. split; [done|]. split; [done|].
    intros j e a Hj _ Ha. apply lookup_lt_Some in Ha. lia.
  - cbn [seq finalize_loop].
    destruct (lookup_lt_is_Some_2 events i ltac:(lia)) as [e He].
    destruct (lookup_lt_is_Some_2 acts i ltac:(lia)) as [a Ha].
    rewrite He, Ha. cbn.
    assert (Hstk : stack_ e ≠ Some []).
    { unfold stacks_nonempty in Hwf. rewrite Forall_forall in Hwf.
      apply Hwf. by eapply list_elem_of_lookup_2. }
    rewrite (finalize_activity_defined e a Hstk). cbn.
    destruct (IH (S i) (<[i := with_metadata (attached_metadata e) a]> acts))
      as (acts' & Hrun & Hl & Hlow & Hhigh).
    { rewrite length_insert. lia. }
    { by rewrite length_insert. }
    { done. }
    exists acts'. rewrite length_insert in Hl.
    split; [done|]. split; [done|]. split.
    + intros j Hj. rewrite Hlow by lia. apply list_lookup_insert_ne. lia.
    + intros j e' a' Hj He' Ha'.
      destruct (decide (j = i)) as [->|Hne].
      * rewrite Hlow by lia.
        rewrite list_lookup_insert_eq by (apply lookup_lt_Some in Ha; done).
        congruence.
      * apply Hhigh; [lia|done|].
        rewrite list_lookup_insert_ne by lia. done.
Qed.

End finalise_loop.

(** ** Preservation of invariants by effectful code *)

Section preservation.

Context {S : Type} (I : S → Prop).

Lemma preserves_ret {A} (a : A) : preserves I (mret a).
Proof. by intros s Hs. Qed.

Lemma preserves_bind {A B} (m : M S A) (f : A → M S B) :
  preserves I m → (∀ a, preserves I (f a)) → preserves I (m ≫= f).
Proof.
  intros Hm Hf s Hs. specialize (Hm s Hs).
  unfold mbind, M_bind. destruct (m s) as [a s'| |]; [|done..].
  by apply Hf.
Qed.

Lemma preserves_check (cond : bool) (msg : string) :
  preserves I (TORCH_CHECK cond msg).
Proof. intros s Hs. unfold TORCH_CHECK. by destruct cond. Qed.

Lemma preserves_assert (cond : bool) (msg : string) :
  preserves I (TORCH_INTERNAL_ASSERT cond msg).
Proof. intros s Hs. unfold TORCH_INTERNAL_ASSERT. by destruct cond. Qed.

Lemma preserves_get_state : preserves I get_state.
Proof. by intros s Hs. Qed.

(** After reading the state, the continuation may rely on [I] for what
    was read. *)
Lemma preserves_get_bind {B} (f : S → M S B) :
  (∀ s, I s → preserves I (f s)) → preserves I (get_state ≫= f).
Proof. intros Hf s Hs. by apply Hf. Qed.

Lemma preserves_deref_opt {A} (p : option A) : preserves I (deref_opt p).
Proof. intros s Hs. by destruct p. Qed.

Lemma preserves_modify (f : S → S) :
  (∀ s, I s → I (f s)) → preserves I (modify f).
Proof. intros Hf s Hs. by apply Hf. Qed.

End preservation.

Create HintDb preserve.

#[local] Hint Resolve preserves_ret preserves_check preserves_assert
  preserves_get_state preserves_deref_opt : preserve.

(** ** No stored stack is empty *)

Section stack_invariant.

Implicit Types (w : World) (st : KinetoThreadLocalState) (env : Env).

Lemma preserves_same_states {A} (m : M World A) :
  (∀ w, match m w with
        | Val _ w' | Throw _ w' => states w' = states w
        | Undef => True
        end) →
  preserves store_ok m.
Proof.
  intros Hm w Hw. specialize (Hm w).
  destruct (m w) as [a w'|e w'|]; [| |done];
    intros p st Hp; rewrite Hm in Hp; by eapply Hw.
Qed.

Lemma preserves_on_object {A} (p : nat) (method : M KinetoThreadLocalState A) :
  preserves object_ok method → preserves store_ok (on_object p method).
Proof.
  intros Hm w Hw. unfold on_object.
  destruct (states w !! p) as [st|] eqn:Hp; [|done].
  specialize (Hm st (Hw p st Hp)).
  destruct (method st) as [a st'|e st'|]; [| |done];
    intros q st0; cbn [states set_states];
    (destruct (decide (p = q)) as [->|Hne];
     [rewrite lookup_insert_eq; congruence
     |rewrite lookup_insert_ne by done; apply Hw]).
Qed.

Lemma preserves_make_shared st :
  object_ok st → preserves store_ok (make_shared st).
Proof.
  intros Hst w Hw q st0. cbn [states set_states].
  destruct (decide (next_loc w = q)) as [->|Hne].
  - rewrite lookup_insert_eq. congruence.
  - rewrite lookup_insert_ne by done. apply Hw.
Qed.

Lemma object_ok_new config : object_ok (KinetoThreadLocalState_new config).
Proof. constructor. Qed.

Lemma preserves_mark nm cuda t : preserves object_ok (mark nm cuda t).
Proof. by apply preserves_modify. Qed.

Lemma preserves_consolidate : preserves object_ok consolidate.
Proof. by intros st Hst. Qed.

Lemma preserves_set_cpu_trace b : preserves object_ok (modify (set_cpu_trace b)).
Proof. by apply preserves_modify. Qed.

Lemma preserves_set_handle_ h : preserves object_ok (modify (set_handle_ h)).
Proof. by apply preserves_modify. Qed.

Lemma imported_stacks (acts : list libkineto.TraceActivity) :
  stacks_nonempty (imported acts).
Proof.
  unfold imported. apply Forall_fmap, Forall_forall. intros a _. cbn. done.
Qed.

Lemma preserves_addTraceEvents trace :
  preserves object_ok (addTraceEvents trace).
Proof.
  apply preserves_modify. intros st Hst. unfold object_ok in *.
  cbn [kineto_events_ set_kineto_events_]. rewrite addTraceEvents_loop.
  apply Forall_app. split; [done|apply imported_stacks].
Qed.

Lemma preserves_finalizeCPUTrace : preserves object_ok finalizeCPUTrace.
Proof.
  unfold finalizeCPUTrace.
  apply preserves_bind; [auto with preserve|]. intros st.
  apply preserves_bind; [auto with preserve|]. intros buf.
  apply preserves_bind; [auto with preserve|]. intros _.
  apply preserves_bind; [auto with preserve|]. intros acts.
  apply preserves_set_cpu_trace.
Qed.

(** [engaged_nonempty] is the guard under which a stack is stored. *)
Lemma engaged_nonempty_stack (o d : option (list string)) :
  d ≠ Some [] → (if engaged_nonempty o then o else d) ≠ Some [].
Proof. intros Hd. by destruct o as [[|x l]|]. Qed.

Lemma preserves_reportClientActivity p env flops fn ctx :
  preserves store_ok (reportClientActivity p env flops fn ctx).
Proof.
  unfold reportClientActivity. destruct ctx as [ctx|]; [|auto with preserve].
  apply preserves_bind; [by apply preserves_same_states|]. intros _.
  apply preserves_on_object.
  apply preserves_get_bind. intros st Hst.
  apply preserves_bind.
  - apply preserves_modify. intros st' _. unfold object_ok in *.
    cbn [kineto_events_ set_kineto_events_].
    apply Forall_app. split; [done|].
    constructor; [|constructor]. cbn [stack_].
    by apply engaged_nonempty_stack.
  - intros _. apply preserves_bind; [auto with preserve|]. intros buf.
    apply preserves_set_cpu_trace.
Qed.

End stack_invariant.

Section stack_invariant_api.

Implicit Types (w : World) (env : Env).

Lemma preserves_deref p : preserves store_ok (deref p).
Proof.
  apply preserves_same_states. intros w. unfold deref.
  by destruct (states w !! p).
Qed.

Lemma preserves_get t : preserves store_ok (getProfilerTLSState t).
Proof. by apply preserves_same_states. Qed.

Lemma preserves_push t p : preserves store_ok (ThreadLocalDebugInfo_push t p).
Proof. by apply preserves_same_states. Qed.

Lemma preserves_pop t : preserves store_ok (ThreadLocalDebugInfo_pop t).
Proof.
  apply preserves_same_states. intros w. unfold ThreadLocalDebugInfo_pop.
  by destruct (default [] (debug_info w !! t)).
Qed.

Lemma preserves_addThreadLocalCallback t b1 b2 :
  preserves store_ok (addThreadLocalCallback t b1 b2).
Proof. by apply preserves_same_states. Qed.

Lemma preserves_removeCallback t h : preserves store_ok (removeCallback t h).
Proof. by apply preserves_same_states. Qed.

Lemma preserves_pushCorrelationId t id :
  preserves store_ok (pushCorrelationId t id).
Proof. by apply preserves_same_states. Qed.

Lemma preserves_popCorrelationId t : preserves store_ok (popCorrelationId t).
Proof. by apply preserves_same_states. Qed.

Lemma preserves_startTrace : preserves store_ok startTrace.
Proof. by apply preserves_same_states. Qed.

Lemma preserves_stopTrace fin : preserves store_ok (stopTrace fin).
Proof. by apply preserves_same_states. Qed.

Lemma preserves_transferCpuTrace buf : preserves store_ok (transferCpuTrace buf).
Proof. by apply preserves_same_states. Qed.

Lemma preserves_next_correlation_id : preserves store_ok next_correlation_id.
Proof. by apply preserves_same_states. Qed.

End stack_invariant_api.

#[local] Hint Resolve preserves_deref preserves_get preserves_push
  preserves_pop preserves_addThreadLocalCallback preserves_removeCallback
  preserves_pushCorrelationId preserves_popCorrelationId preserves_startTrace
  preserves_stopTrace preserves_transferCpuTrace preserves_next_correlation_id
  preserves_reportClientActivity preserves_mark preserves_consolidate
  preserves_set_cpu_trace preserves_set_handle_ preserves_addTraceEvents
  preserves_finalizeCPUTrace preserves_on_object : preserve.

(** Splits a sequence of effectful steps and settles each step that is
    one of the operations above. *)
Ltac preserve_steps :=
  repeat first
    [ solve [auto with preserve]
    | apply preserves_bind; [|intros ?]
    | apply preserves_on_object ].

Section stack_invariant_sessions.

Implicit Types (w : World) (env : Env).

Lemma preserves_start_callback env fn :
  preserves store_ok (start_callback env fn).
Proof.
  unfold start_callback.
  apply preserves_bind; [auto with preserve|]. intros [p|]; [|auto with preserve].
  apply preserves_bind; [auto with preserve|]. intros st.
  destruct (decide _); preserve_steps.
Qed.

Lemma preserves_end_callback env flops fn ctx :
  preserves store_ok (end_callback env flops fn ctx).
Proof.
  unfold end_callback.
  apply preserves_bind; [auto with preserve|]. intros [p|]; [|auto with preserve].
  apply preserves_bind; [auto with preserve|]. intros st.
  destruct (decide _); preserve_steps.
Qed.

Lemma preserves_pushProfilingCallbacks env :
  preserves store_ok (pushProfilingCallbacks env).
Proof. unfold pushProfilingCallbacks. preserve_steps. Qed.

Lemma preserves_enableProfiler env config activities :
  preserves store_ok (enableProfiler env config activities).
Proof.
  unfold enableProfiler. preserve_steps.
  - apply preserves_make_shared, object_ok_new.
  - destruct (set_count _ _);
      [apply preserves_pushProfilingCallbacks|auto with preserve].
Qed.

Lemma preserves_disableProfiler env finalised :
  preserves store_ok (disableProfiler env finalised).
Proof.
  unfold disableProfiler.
  apply preserves_bind; [auto with preserve|]. intros state_sp.
  apply preserves_bind.
  { destruct state_sp; preserve_steps. }
  intros st. preserve_steps.
  - destruct (hasCallbackHandle _); auto with preserve.
  - apply preserves_modify. intros s _. constructor.
Qed.

End stack_invariant_sessions.

(** ** Reachable process states *)

Lemma state_after_preserves {A} (m : M World A) (w w' : World) :
  preserves store_ok m → store_ok w → state_after (m w) = Some w' →
  store_ok w'.
Proof.
  intros Hm Hw Hrun. specialize (Hm w Hw).
  destruct (m w); cbn in Hrun, Hm; [by simplify_eq..|done].
Qed.

Lemma reachable_store_ok (w : World) : reachable w → store_ok w.
Proof.
  induction 1 as [|c w w' _ IH Hrun].
  - intros p st Hp. cbn [states World_init] in Hp.
    by rewrite lookup_empty in Hp.
  - destruct c; cbn [run] in Hrun;
      eapply state_after_preserves; try exact Hrun; try exact IH.
    + apply preserves_enableProfiler.
    + apply preserves_start_callback.
    + apply preserves_end_callback.
    + apply preserves_disableProfiler.
Qed.

Lemma finalizeCPUTrace_defined (st : KinetoThreadLocalState)
  (buf : libkineto.CpuTraceBuffer) :
  cpu_trace st = Some buf → object_ok st → finalizeCPUTrace st ≠ Undef.
Proof.
  intros Hbuf Hok. unfold finalizeCPUTrace.
  cbv [mbind M_bind get_state deref_opt mret M_ret]. rewrite Hbuf.
  unfold TORCH_INTERNAL_ASSERT. case_bool_decide as Hlen; [|done].
  destruct (finalize_loop_from (length (libkineto.activities buf)) 0
              (kineto_events_ st) (libkineto.activities buf))
    as (acts' & -> & _); done.
Qed.

(** C7: [finalizeCPUTrace] fails its internal assertion, changing
    nothing, when the buffer's activity count differs from the event
    count.  When the counts agree, on a state none of whose events stores
    an empty stack, it returns normally, keeps the number of activities,
    and the activity at each index is the old one with exactly this
    metadata appended, in this order: the serialised shapes when the event
    at that index has shapes, the serialised call stack when it has a
    stack, the serialised input types when it has types, and the forward
    thread id followed by the sequence number when the sequence number is
    not negative.  Every object of a reachable process state is such a
    state. *)
Theorem finalizeCPUTrace_attaches_metadata
  (st : KinetoThreadLocalState) (buf : libkineto.CpuTraceBuffer) :
  cpu_trace st = Some buf →
  (length (libkineto.activities buf) ≠ length (kineto_events_ st) →
     finalizeCPUTrace st = Throw (InternalAssert "") st)
  ∧ (length (libkineto.activities buf) = length (kineto_events_ st) →
     stacks_nonempty (kineto_events_ st) →
     ∃ acts',
       finalizeCPUTrace st
         = Val () (set_cpu_trace (Some (set_activities acts' buf)) st)
       ∧ length acts' = length (libkineto.activities buf)
       ∧ ∀ idx e a,
           kineto_events_ st !! idx = Some e →
           libkineto.activities buf !! idx = Some a →
           acts' !! idx = Some (with_metadata (attached_metadata e) a))
  ∧ (∀ w p, reachable w → states w !! p = Some st →
       stacks_nonempty (kineto_events_ st)).
Proof.
  intros Hbuf. split; [|split].
  - intros Hne. unfold finalizeCPUTrace.
    cbv [mbind M_bind get_state deref_opt mret M_ret]. rewrite Hbuf.
    unfold TORCH_INTERNAL_ASSERT. by rewrite bool_decide_eq_false_2.
  - intros Heq Hwf.
    destruct (finalize_loop_from (length (libkineto.activities buf)) 0
                (kineto_events_ st) (libkineto.activities buf))
      as (acts' & Hrun & Hl & _ & Hhigh); [done..|].
    exists acts'. split; [|split; [done|]].
    + unfold finalizeCPUTrace.
      cbv [mbind M_bind get_state deref_opt mret M_ret]. rewrite Hbuf.
      unfold TORCH_INTERNAL_ASSERT. rewrite bool_decide_eq_true_2 by done.
      rewrite Hrun. reflexivity.
    + intros idx e a He Ha. apply (Hhigh idx e a); [lia|done..].
  - intros w p Hw Hp. exact (reachable_store_ok w Hw p st Hp).
Qed.

Lemma finalizeCPUTrace_attaches_metadata_witness :
  ∃ acts',
    finalizeCPUTrace sample_state
      = Val () (set_cpu_trace
                  (Some (set_activities acts'
                           (set_activities [sample_op; sample_op]
                              libkineto.CpuTraceBuffer_new))) sample_state)
    ∧ libkineto.metadata <$> acts' !! 0%nat
      = Some [("Input Dims", "[[2, 3], [4]]"); ("Call stack", "a.py(1): f");
              ("Input type", dtypesToStr ["float"; "int"]);
              ("Fwd thread id", "3"); ("Sequence number", "5")]
    ∧ libkineto.metadata <$> acts' !! 1%nat = Some [].
Proof.
  destruct (finalizeCPUTrace_attaches_metadata sample_state
              (set_activities [sample_op; sample_op]
                 libkineto.CpuTraceBuffer_new) eq_refl) as (_ & H & _).
  destruct (H eq_refl) as (acts' & Hrun & _ & Hat).
  { repeat constructor; discriminate. }
  exists acts'. split; [exact Hrun|]. split.
  - by rewrite (Hat 0%nat _ _ eq_refl eq_refl).
  - by rewrite (Hat 1%nat _ _ eq_refl eq_refl).
Defined.

(** C10: [stacksToStr] is undefined on the empty list and defined on every
    other list.  [reportClientActivity] keeps the store free of events
    with an empty stored stack, and so does every other call; hence in
    every reachable state each stored stack that [finalizeCPUTrace] hands
    to [stacksToStr] is non-empty, the serialiser is defined on it, and
    [finalizeCPUTrace] on an object that still owns its buffer never
    reaches the undefined removal. *)
Theorem stacksToStr_only_on_nonempty_stacks :
  stacksToStr [] = None
  ∧ (∀ stk, stk ≠ [] → is_Some (stacksToStr stk))
  ∧ (∀ p env flops fn ctx,
       preserves store_ok (reportClientActivity p env flops fn ctx))
  ∧ (∀ w p st,
       reachable w → states w !! p = Some st →
       (∀ e stk, e ∈ kineto_events_ st → stack_ e = Some stk →
          stk ≠ [] ∧ is_Some (stacksToStr stk))
       ∧ (∀ buf, cpu_trace st = Some buf → finalizeCPUTrace st ≠ Undef)).
Proof.
  split; [done|]. split.
  { intros stk Hne. destruct (stacksToStr_nonempty stk Hne) as (s & -> & _).
    by eexists. }
  split; [apply preserves_reportClientActivity|].
  intros w p st Hw Hp.
  pose proof (reachable_store_ok w Hw p st Hp) as Hok. split.
  - intros e stk He Hstk. unfold object_ok, stacks_nonempty in Hok.
    rewrite Forall_forall in Hok. specialize (Hok e He).
    assert (stk ≠ []) as Hne by congruence. split; [done|].
    destruct (stacksToStr_nonempty stk Hne) as (s & -> & _). by eexists.
  - intros buf Hbuf. by eapply finalizeCPUTrace_defined.
Qed.

Lemma start_callback_sample :
  start_callback sample_env sample_fn world_enabled
  = Val sample_ctx world_started.
Proof. vm_compute. reflexivity. Qed.

Lemma reachable_world_enabled : reachable world_enabled.
Proof.
  apply (reachable_step
           (Call_enableProfiler sample_env sample_config [ActivityType_CPU])
           World_init); [apply reachable_init|]. by vm_compute.
Qed.

Lemma reachable_world_ended : reachable world_ended.
Proof.
  apply (reachable_step
           (Call_end_callback sample_env 0 sample_fn (Some sample_ctx))
           world_started); [|by vm_compute].
  apply (reachable_step (Call_start_callback sample_env sample_fn)
           world_enabled); [apply reachable_world_enabled|by vm_compute].
Qed.

Lemma stacksToStr_only_on_nonempty_stacks_witness :
  reachable world_ended
  ∧ states world_ended !! 0%nat = Some sample_final_state
  ∧ kineto_events_ sample_final_state = [sample_event]
  ∧ stack_ sample_event = Some ["a.py(1): f"]
  ∧ is_Some (stacksToStr ["a.py(1): f"])
  ∧ finalizeCPUTrace sample_final_state ≠ Undef.
Proof.
  destruct stacksToStr_only_on_nonempty_stacks as (_ & _ & _ & H).
  assert (Hst : states world_ended !! 0%nat = Some sample_final_state)
    by (by vm_compute).
  destruct (H _ _ _ reachable_world_ended Hst) as [Hstk Hfin].
  assert (Hev : kineto_events_ sample_final_state = [sample_event])
    by (by vm_compute).
  assert (Hs : stack_ sample_event = Some ["a.py(1): f"]) by (by vm_compute).
  split; [exact reachable_world_ended|]. split; [exact Hst|].
  split; [exact Hev|]. split; [exact Hs|]. split.
  - apply (Hstk sample_event _); [rewrite Hev; apply list_elem_of_here|exact Hs].
  - destruct (cpu_trace sample_final_state) as [buf|] eqn:Hbuf.
    + by apply (Hfin buf).
    + by vm_compute in Hbuf.
Defined.

(** ** Saving a result *)

Section saving.

Implicit Types (s : SaveState) (path : string).

Lemma save_fresh s path :
  saved_ (result s) = false →
  save path s =
    Val () {| result := {| saved_ := true; events_ := events_ (result s);
                           legacy_events_ := legacy_events_ (result s);
                           trace_ := trace_ (result s) |};
              files := <[path := trace_ (result s)]> (files s) |}.
Proof.
  intros Hs. unfold save.
  cbv [mbind M_bind get_state TORCH_CHECK trace_save modify]. by rewrite Hs.
Qed.

Lemma save_again s path :
  saved_ (result s) = true →
  save path s = Throw (UsageError "Trace is already saved") s.
Proof.
  intros Hs. unfold save.
  cbv [mbind M_bind get_state TORCH_CHECK trace_save modify]. by rewrite Hs.
Qed.

Lemma save_all_saved (paths : list string) s :
  saved_ (result s) = true → save_all paths s = (0%nat, s).
Proof.
  intros Hs. induction paths as [|path paths IH]; [done|].
  cbn [save_all]. by rewrite save_again.
Qed.

End saving.

(** C8: on a result that has not been saved (as every newly built result
    is), [save] writes the trace to the file and marks the result saved;
    any later [save] throws a usage error before touching the trace, in a
    state equal to the one it was called in, so the saved flag and the
    files written by the first call are unaffected; over any sequence of
    calls at most one returns normally. *)
Theorem save_at_most_once (s : SaveState) (path path2 : string) :
  (∀ events legacy trace,
     saved_ (ProfilerResult_new events legacy trace) = false)
  ∧ (saved_ (result s) = false →
     ∃ s1,
       save path s = Val () s1
       ∧ saved_ (result s1) = true
       ∧ files s1 = <[path := trace_ (result s)]> (files s)
       ∧ save path2 s1 = Throw (UsageError "Trace is already saved") s1)
  ∧ (saved_ (result s) = true →
     save path s = Throw (UsageError "Trace is already saved") s)
  ∧ (∀ paths, ((save_all paths s).1 ≤ 1)%nat).
Proof.
  split; [done|]. split; [|split].
  - intros Hs. eexists. split; [by apply save_fresh|].
    split; [done|]. split; [done|]. by apply save_again.
  - apply save_again.
  - intros paths. revert s. induction paths as [|p paths IH]; intros s.
    + cbn. lia.
    + cbn [save_all]. destruct (saved_ (result s)) eqn:Hs.
      * rewrite save_again by done. apply IH.
      * rewrite save_fresh by done. rewrite save_all_saved by done. cbn. lia.
Qed.

Lemma save_at_most_once_witness :
  ∃ s1,
    save "trace.json" {| result := sample_result; files := ∅ |} = Val () s1
    ∧ files s1 !! "trace.json"
      = Some {| libkineto.trace_activities := [sample_kernel] |}
    ∧ save "other.json" s1 = Throw (UsageError "Trace is already saved") s1.
Proof.
  destruct (save_at_most_once {| result := sample_result; files := ∅ |}
              "trace.json" "other.json") as (_ & H & _).
  destruct (H eq_refl) as (s1 & Hrun & _ & Hfiles & Hagain).
  exists s1. split; [exact Hrun|]. split; [|exact Hagain].
  rewrite Hfiles. apply lookup_insert_eq.
Defined.

(** ** Session control: usage errors *)

Section usage_errors.

Implicit Types (w : World) (env : Env).

Lemma enableProfiler_wrong_kind env config activities w :
  state config ≠ KINETO →
  enableProfiler env config activities w = Throw (UsageError "") w.
Proof.
  intros Hk. unfold enableProfiler. cbv [mbind M_bind TORCH_CHECK].
  by rewrite bool_decide_eq_false_2.
Qed.

Lemma enableProfiler_no_activities env config w :
  state config = KINETO →
  enableProfiler env config [] w
  = Throw (UsageError "No activities specified for Kineto profiler") w.
Proof.
  intros Hk. unfold enableProfiler. cbv [mbind M_bind TORCH_CHECK].
  by rewrite bool_decide_eq_true_2.
Qed.

Lemma enableProfiler_already_enabled env config activities w p :
  state config = KINETO → activities ≠ [] →
  active_state (currentThreadId env) w = Some p →
  enableProfiler env config activities w
  = Throw (UsageError "Profiler is already enabled on this thread") w.
Proof.
  intros Hk Ha Hp. unfold enableProfiler.
  cbv [mbind M_bind TORCH_CHECK getProfilerTLSState ThreadLocalDebugInfo_get].
  rewrite bool_decide_eq_true_2 by done.
  rewrite bool_decide_eq_true_2 by done.
  unfold active_state in Hp. rewrite Hp.
  by rewrite bool_decide_eq_false_2.
Qed.

End usage_errors.

(** C2: [enableProfiler] throws a usage error, leaving the whole process
    state as it was, when the activity set is empty, when the
    configuration's state is not [KINETO], or when a state is already
    published in the calling context's slot; in the last case the state
    that was active is therefore still the active one, and unchanged. *)
Theorem enableProfiler_usage_errors
  (env : Env) (config : ProfilerConfig) (activities : list ActivityType)
  (w : World) :
  activities = [] ∨ state config ≠ KINETO
  ∨ is_Some (active_state (currentThreadId env) w) →
  ∃ msg,
    enableProfiler env config activities w = Throw (UsageError msg) w
    ∧ ∀ w', state_after (enableProfiler env config activities w) = Some w' →
        active_state (currentThreadId env) w'
        = active_state (currentThreadId env) w
        ∧ states w' = states w.
Proof.
  intros Hcase.
  assert (∃ msg, enableProfiler env config activities w
                 = Throw (UsageError msg) w) as [msg Hrun].
  { destruct (decide (state config = KINETO)) as [Hk|Hk];
      [|eexists; by apply enableProfiler_wrong_kind].
    destruct activities as [|a activities];
      [eexists; by apply enableProfiler_no_activities|].
    destruct Hcase as [?|[?|[p Hp]]]; [done..|].
    eexists. by eapply enableProfiler_already_enabled. }
  exists msg. split; [done|]. intros w'. rewrite Hrun. cbn.
  by intros [= <-].
Qed.

Lemma enableProfiler_usage_errors_witness :
  is_Some (active_state 7 world_enabled)
  ∧ (∃ msg,
       enableProfiler sample_env sample_config [ActivityType_CPU] world_enabled
       = Throw (UsageError msg) world_enabled)
  ∧ (∃ msg,
       enableProfiler other_env sample_config [] world_enabled
       = Throw (UsageError msg) world_enabled).
Proof.
  assert (Hact : is_Some (active_state (currentThreadId sample_env) world_enabled))
    by (by exists 0%nat).
  split; [exact Hact|]. split.
  - destruct (enableProfiler_usage_errors sample_env sample_config
                [ActivityType_CPU] world_enabled (or_intror (or_intror Hact)))
      as (msg & Hrun & _).
    by exists msg.
  - destruct (enableProfiler_usage_errors other_env sample_config
                [] world_enabled (or_introl eq_refl)) as (msg & Hrun & _).
    by exists msg.
Defined.

Section disable_errors.

Implicit Types (w : World) (env : Env).

Lemma disableProfiler_no_state env finalised w :
  active_state (currentThreadId env) w = None →
  disableProfiler env finalised w = Throw (UsageError not_running) w.
Proof.
  intros Hnone. unfold disableProfiler, active_state in *.
  cbv [mbind M_bind ThreadLocalDebugInfo_pop TORCH_CHECK mret M_ret].
  by destruct (default [] (debug_info w !! currentThreadId env)).
Qed.

Lemma disableProfiler_other_kind env finalised w p rest st :
  default [] (debug_info w !! currentThreadId env) = p :: rest →
  states w !! p = Some st → state (config_ st) ≠ KINETO →
  disableProfiler env finalised w
  = Throw (UsageError not_running)
      (set_debug_info (<[currentThreadId env := rest]> (debug_info w)) w).
Proof.
  intros Hslot Hp Hk. unfold disableProfiler.
  cbv [mbind M_bind ThreadLocalDebugInfo_pop TORCH_CHECK mret M_ret deref].
  rewrite Hslot. cbn [states set_debug_info]. rewrite Hp.
  by rewrite bool_decide_eq_false_2.
Qed.

End disable_errors.

(** C1, counterexample: with a state of kind [CPU] published in context
    [7], [disableProfiler] throws the usage error after popping it: the
    slot, which held the state before the call, is empty afterwards. *)
Lemma disableProfiler_pops_before_check :
  active_state 7 world_legacy = Some 0%nat
  ∧ (∃ w',
       disableProfiler sample_env None world_legacy
       = Throw (UsageError not_running) w'
       ∧ active_state 7 w' = None)
  ∧ ¬ disable_failure_keeps_slot.
Proof.
  assert (Hrun : disableProfiler sample_env None world_legacy
                 = Throw (UsageError not_running)
                     (set_debug_info (<[7 := []]> (debug_info world_legacy))
                        world_legacy)).
  { by apply (disableProfiler_other_kind sample_env None world_legacy 0%nat []
                (KinetoThreadLocalState_new legacy_config)). }
  split; [done|]. split.
  - eexists. split; [exact Hrun|]. done.
  - intros Hclaim.
    destruct (Hclaim sample_env None world_legacy 0%nat
                (KinetoThreadLocalState_new legacy_config))
      as (msg & w' & Hrun' & Hslot); [done..|].
    rewrite Hrun in Hrun'. injection Hrun' as _ <-. discriminate Hslot.
Qed.

(** C1, as amended: [disableProfiler] called in a context with no active
    state, or whose active state is not of [KINETO] kind, throws a usage
    error.  With no active state the process state is left exactly as it
    was.  With an active state of another kind, the only change is that
    this state has been popped from the calling context's slot: the
    objects in the store, the slots of all other contexts, the callbacks,
    the collector and the correlation counter are as before. *)
Theorem disableProfiler_without_kineto_session
  (env : Env) (finalised : option libkineto.ActivityTraceInterface)
  (w : World) :
  (active_state (currentThreadId env) w = None →
     ∃ msg, disableProfiler env finalised w = Throw (UsageError msg) w)
  ∧ (∀ p rest st,
       default [] (debug_info w !! currentThreadId env) = p :: rest →
       states w !! p = Some st → state (config_ st) ≠ KINETO →
       ∃ w',
         disableProfiler env finalised w = Throw (UsageError not_running) w'
         ∧ debug_info w' !! currentThreadId env = Some rest
         ∧ (∀ t, t ≠ currentThreadId env →
              debug_info w' !! t = debug_info w !! t)
         ∧ states w' = states w
         ∧ callbacks w' = callbacks w
         ∧ kineto w' = kineto w
         ∧ corr_id_ w' = corr_id_ w).
Proof.
  split; [intros Hnone; eexists; by apply disableProfiler_no_state|].
  intros p rest st Hslot Hp Hk. eexists.
  split; [by eapply disableProfiler_other_kind|].
  cbn [debug_info states callbacks kineto corr_id_ set_debug_info].
  split; [apply lookup_insert_eq|]. split; [|done].
  intros t Ht. by rewrite lookup_insert_ne.
Qed.

Lemma disableProfiler_without_kineto_session_witness :
  (∃ msg, disableProfiler other_env None world_legacy
          = Throw (UsageError msg) world_legacy)
  ∧ ∃ w',
      disableProfiler sample_env None world_legacy
        = Throw (UsageError not_running) w'
      ∧ debug_info w' !! 7 = Some []
      ∧ states w' = states world_legacy.
Proof.
  destruct (disableProfiler_without_kineto_session other_env None world_legacy)
    as [Hnone _].
  destruct (disableProfiler_without_kineto_session sample_env None world_legacy)
    as [_ Hother].
  split; [exact (Hnone eq_refl)|].
  destruct (Hother 0%nat [] (KinetoThreadLocalState_new legacy_config)
              eq_refl eq_refl) as (w' & Hrun & Hslot & _ & Hstates & _).
  { discriminate. }
  exists w'. split; [exact Hrun|]. split; [exact Hslot|exact Hstates].
Defined.

(** ** The disabled path of the callbacks *)

Section disabled_path.

Implicit Types (w : World) (env : Env).

Lemma end_callback_off env flops fn ctx w :
  profiling_off (currentThreadId env) w →
  end_callback env flops fn ctx w = Val ctx w.
Proof.
  unfold profiling_off, active_state, end_callback.
  cbv [mbind M_bind getProfilerTLSState ThreadLocalDebugInfo_get deref
       mret M_ret].
  intros [->|(p & st & -> & -> & Hk)]; [done|].
  by rewrite decide_True.
Qed.

Lemma start_callback_off env fn w :
  profiling_off (currentThreadId env) w →
  start_callback env fn w = Val KinetoObserverContext_new w.
Proof.
  unfold profiling_off, active_state, start_callback.
  cbv [mbind M_bind getProfilerTLSState ThreadLocalDebugInfo_get deref
       mret M_ret].
  intros [->|(p & st & -> & -> & Hk)]; [done|].
  by rewrite decide_True.
Qed.

End disabled_path.

(** C3, counterexample: in a context with an active [KINETO] session, the
    end callback handed the value-initialised context records an event and
    an activity from it, writes the end thread id into it and pops the
    correlation stack. *)
Lemma end_callback_records_sentinel :
  active_state 7 world_enabled = Some 0%nat
  ∧ (∃ st,
       states world_enabled !! 0%nat = Some st
       ∧ state (config_ st) = KINETO ∧ kineto_events_ st = [])
  ∧ correlation_stack (kineto world_enabled) !! 7 = None
  ∧ (∃ ctx' w' st',
       end_callback sample_env 0 sample_fn (Some KinetoObserverContext_new)
         world_enabled = Val (Some ctx') w'
       ∧ endThreadId ctx' = 7
       ∧ states w' !! 0%nat = Some st'
       ∧ length (kineto_events_ st') = 1%nat
       ∧ (libkineto.activities <$> cpu_trace st')
         = Some [ {| libkineto.activityType := libkineto.CPU_OP;
                     libkineto.activityName := "add";
                     libkineto.startTime := 0; libkineto.endTime := 100;
                     libkineto.device := 0; libkineto.correlation := 0;
                     libkineto.sysThreadId := 4242;
                     libkineto.metadata := [] |} ]
       ∧ correlation_stack (kineto w') !! 7 = Some [])
  ∧ ¬ end_callback_skips_sentinel.
Proof.
  split; [done|]. split; [eexists; by vm_compute|]. split; [done|]. split.
  - eexists _, _, _. split; [by vm_compute|]. by vm_compute.
  - intros Hclaim.
    specialize (Hclaim sample_env 0 sample_fn world_enabled).
    by vm_compute in Hclaim.
Qed.

(** C3, as amended: when the calling context has no active profiling
    state, or its active state is not of [KINETO] kind, the end callback
    returns at once: the process state and the operation context are
    exactly as before, so no event is recorded, nothing is appended to the
    buffer and no correlation id is popped.  These are the very conditions
    under which the start callback hands back the value-initialised
    context without any effect. *)
Theorem end_callback_disabled_path_has_no_effect
  (env : Env) (flops : Z) (fn : RecordFunction)
  (ctx : option KinetoObserverContext) (w : World) :
  profiling_off (currentThreadId env) w →
  end_callback env flops fn ctx w = Val ctx w
  ∧ start_callback env fn w = Val KinetoObserverContext_new w
  ∧ end_callback env flops fn (Some KinetoObserverContext_new) w
    = Val (Some KinetoObserverContext_new) w.
Proof.
  intros Hoff. split; [by apply end_callback_off|].
  split; [by apply start_callback_off|by apply end_callback_off].
Qed.

Lemma end_callback_disabled_path_has_no_effect_witness :
  profiling_off 7 World_init ∧ profiling_off 7 world_legacy
  ∧ end_callback sample_env 0 sample_fn (Some sample_ctx) World_init
    = Val (Some sample_ctx) World_init
  ∧ end_callback sample_env 0 sample_fn (Some sample_ctx) world_legacy
    = Val (Some sample_ctx) world_legacy.
Proof.
  assert (H1 : profiling_off (currentThreadId sample_env) World_init)
    by (by left).
  assert (H2 : profiling_off (currentThreadId sample_env) world_legacy).
  { right. exists 0%nat, (KinetoThreadLocalState_new legacy_config).
    split; [done|]. split; [done|]. discriminate. }
  split; [exact H1|]. split; [exact H2|]. split.
  - exact (proj1 (end_callback_disabled_path_has_no_effect
                    sample_env 0 sample_fn (Some sample_ctx) World_init H1)).
  - exact (proj1 (end_callback_disabled_path_has_no_effect
                    sample_env 0 sample_fn (Some sample_ctx) world_legacy H2)).
Defined.


(** * Further properties *)

(** ** Running effectful code step by step *)

Section stepping.

Lemma bind_Val {S A B} (m : M S A) (f : A → M S B) (s s' : S) (a : A) :
  m s = Val a s' → (m ≫= f) s = f a s'.
Proof. intros H. unfold mbind, M_bind. by rewrite H. Qed.

Lemma bind_Throw {S A B} (m : M S A) (f : A → M S B) (s s' : S) (e : Err) :
  m s = Throw e s' → (m ≫= f) s = Throw e s'.
Proof. intros H. unfold mbind, M_bind. by rewrite H. Qed.

Lemma on_object_Val {A} (p : nat) (method : M KinetoThreadLocalState A)
  (w : World) (st st' : KinetoThreadLocalState) (a : A) :
  states w !! p = Some st → method st = Val a st' →
  on_object p method w = Val a (with_object p st' w).
Proof. intros Hp Hm. unfold on_object. by rewrite Hp, Hm. Qed.

Lemma with_object_lookup (p : nat) (st : KinetoThreadLocalState) (w : World) :
  states (with_object p st w) !! p = Some st.
Proof. apply lookup_insert_eq. Qed.

Lemma with_object_lookup_ne (p q : nat) (st : KinetoThreadLocalState)
  (w : World) :
  p ≠ q → states (with_object p st w) !! q = states w !! q.
Proof. intros Hne. by apply lookup_insert_ne. Qed.

Lemma with_object_twice (p : nat) (st1 st2 : KinetoThreadLocalState)
  (w : World) :
  with_object p st2 (with_object p st1 w) = with_object p st2 w.
Proof.
  unfold with_object. cbn [states set_states next_loc]. unfold set_states.
  cbn. by rewrite insert_insert_eq.
Qed.

End stepping.

(** ** What the callbacks record *)

Section recording.

Implicit Types (w : World) (env : Env) (st : KinetoThreadLocalState).

Lemma reportClientActivity_null p env flops fn w :
  reportClientActivity p env flops fn None w = Val () w.
Proof. done. Qed.

Lemma reportClientActivity_records p env flops fn ctx w st buf :
  states w !! p = Some st → cpu_trace st = Some buf →
  reportClientActivity p env flops fn (Some ctx) w
  = Val () (with_object p (recorded env flops fn ctx st buf)
              (with_thread_info (currentThreadId env) w)).
Proof.
  intros Hp Hbuf. unfold reportClientActivity.
  rewrite (bind_Val _ _ w (with_thread_info (currentThreadId env) w) ())
    by done.
  apply (on_object_Val p _ _ st); [done|].
  cbv [mbind M_bind get_state modify deref_opt mret M_ret].
  cbn [cpu_trace set_kineto_events_]. rewrite Hbuf. reflexivity.
Qed.

End recording.

Section callbacks_on.

Implicit Types (w : World) (env : Env) (st : KinetoThreadLocalState).

Lemma start_callback_on env fn w p st :
  active_state (currentThreadId env) w = Some p → states w !! p = Some st →
  state (config_ st) = KINETO →
  start_callback env fn w
  = Val (started_ctx env fn (config_ st) (corr_id_ w)) (started env w).
Proof.
  intros Hact Hp Hk. unfold start_callback, active_state in *.
  cbv [mbind M_bind getProfilerTLSState ThreadLocalDebugInfo_get deref
       mret M_ret].
  rewrite Hact, Hp. rewrite decide_False by (by intros []).
  reflexivity.
Qed.

Lemma end_callback_on env flops fn ctx w p st buf :
  session_active (currentThreadId env) p st buf w →
  end_callback env flops fn (Some ctx) w
  = Val (Some (set_endThreadId (currentThreadId env) ctx))
      (ended env flops fn ctx p st buf w).
Proof.
  intros (Hact & Hp & Hk & Hbuf). unfold end_callback, active_state in *.
  cbv [mbind M_bind getProfilerTLSState ThreadLocalDebugInfo_get deref
       mret M_ret TORCH_INTERNAL_ASSERT].
  rewrite Hact, Hp. rewrite decide_False by (by intros []).
  change (set_endThreadId (currentThreadId env) <$> Some ctx)
    with (Some (set_endThreadId (currentThreadId env) ctx)).
  rewrite bool_decide_eq_true_2 by (by eexists).
  rewrite (reportClientActivity_records p env flops fn _ w st buf) by done.
  reflexivity.
Qed.

Lemma end_callback_null env flops fn w p st :
  active_state (currentThreadId env) w = Some p → states w !! p = Some st →
  state (config_ st) = KINETO →
  end_callback env flops fn None w = Throw (InternalAssert "") w.
Proof.
  intros Hact Hp Hk. unfold end_callback, active_state in *.
  cbv [mbind M_bind getProfilerTLSState ThreadLocalDebugInfo_get deref
       mret M_ret TORCH_INTERNAL_ASSERT].
  rewrite Hact, Hp. rewrite decide_False by (by intros []).
  reflexivity.
Qed.

Lemma session_active_started env w t p st buf :
  session_active t p st buf w → session_active t p st buf (started env w).
Proof. done. Qed.

Lemma session_active_ended env flops fn ctx w p st buf :
  session_active (currentThreadId env) p st buf w →
  session_active (currentThreadId env) p
    (recorded env flops fn (set_endThreadId (currentThreadId env) ctx) st buf)
    (set_activities
       (libkineto.activities buf
        ++ [client_activity env fn
              (set_endThreadId (currentThreadId env) ctx)]) buf)
    (ended env flops fn ctx p st buf w).
Proof.
  intros (Hact & Hp & Hk & Hbuf). split; [done|].
  split; [apply with_object_lookup|]. done.
Qed.

Lemma correlation_stack_of_started env w :
  correlation_stack_of (currentThreadId env) (started env w)
  = corr_id_ w :: correlation_stack_of (currentThreadId env) w.
Proof.
  unfold correlation_stack_of, started, with_correlation_stack. cbn.
  by rewrite lookup_insert_eq.
Qed.

Lemma correlation_stack_of_ended env flops fn ctx p st buf w :
  correlation_stack_of (currentThreadId env) (ended env flops fn ctx p st buf w)
  = tail (correlation_stack_of (currentThreadId env) w).
Proof.
  unfold correlation_stack_of, ended, with_correlation_stack. cbn.
  by rewrite lookup_insert_eq.
Qed.

End callbacks_on.

(** ** Finalisation as a pairing of events and activities *)

Section finalise_zip.

Implicit Types (st : KinetoThreadLocalState) (buf : libkineto.CpuTraceBuffer).

Lemma finalize_loop_zip (events : list KinetoEvent)
  (acts : list libkineto.GenericTraceActivity) :
  length events = length acts → stacks_nonempty events →
  finalize_loop (seq 0 (length acts)) events acts
  = Some (finalized_activities events acts).
Proof.
  intros Hlen Hwf.
  destruct (finalize_loop_from (length acts) 0 events acts)
    as (acts' & -> & Hl & _ & Hat); [done..|].
  f_equal. apply list_eq. intros j. unfold finalized_activities.
  rewrite lookup_zip_with.
  destruct (events !! j) as [e|] eqn:He; cbn.
  - destruct (lookup_lt_is_Some_2 acts j) as [a Ha].
    { apply lookup_lt_Some in He. lia. }
    rewrite Ha. cbn. apply Hat; [lia|done..].
  - apply lookup_ge_None_2. apply lookup_ge_None_1 in He. lia.
Qed.

Lemma finalizeCPUTrace_zip st buf :
  cpu_trace st = Some buf →
  length (libkineto.activities buf) = length (kineto_events_ st) →
  stacks_nonempty (kineto_events_ st) →
  finalizeCPUTrace st
  = Val () (set_cpu_trace
              (Some (set_activities
                       (finalized_activities (kineto_events_ st)
                          (libkineto.activities buf)) buf)) st).
Proof.
  intros Hbuf Hlen Hwf. unfold finalizeCPUTrace.
  cbv [mbind M_bind get_state deref_opt mret M_ret TORCH_INTERNAL_ASSERT].
  rewrite Hbuf. rewrite bool_decide_eq_true_2 by done.
  by rewrite finalize_loop_zip.
Qed.

End finalise_zip.

(** ** Enabling and disabling a session *)

(** Reduces projections of updated process states and lookups of the
    key just inserted. *)
Ltac run_world :=
  repeat (progress
            (cbn [states set_states set_debug_info next_loc debug_info
                  set_callbacks set_kineto set_corr_id_ callbacks kineto
                  next_callback_handle corr_id_ default from_option head id];
             rewrite ?lookup_insert_eq; cbv beta iota)).

Section sessions.

Implicit Types (w : World) (env : Env) (st : KinetoThreadLocalState).

Lemma World_ext w1 w2 :
  corr_id_ w1 = corr_id_ w2 → states w1 = states w2 →
  next_loc w1 = next_loc w2 → debug_info w1 = debug_info w2 →
  callbacks w1 = callbacks w2 →
  next_callback_handle w1 = next_callback_handle w2 →
  kineto w1 = kineto w2 → w1 = w2.
Proof. destruct w1, w2; cbn; intros; by subst. Qed.

Lemma active_state_None_slot t w :
  active_state t w = None → default [] (debug_info w !! t) = [].
Proof. unfold active_state. by destruct (default [] (debug_info w !! t)). Qed.

Lemma enableProfiler_ok env config activities w :
  state config = KINETO → activities ≠ [] →
  active_state (currentThreadId env) w = None →
  enableProfiler env config activities w
  = Val () (enabled env config activities w).
Proof.
  intros Hk Ha Hnone. unfold enableProfiler.
  cbv [mbind M_bind TORCH_CHECK getProfilerTLSState ThreadLocalDebugInfo_get].
  rewrite (bool_decide_eq_true_2 (state config = KINETO)) by done.
  cbv beta iota.
  rewrite (bool_decide_eq_true_2 (activities ≠ [])) by done. cbv beta iota.
  pose proof (active_state_None_slot _ _ Hnone) as Hslot.
  unfold active_state in Hnone. rewrite Hnone.
  rewrite bool_decide_eq_true_2 by done. cbv beta iota.
  cbv [make_shared ThreadLocalDebugInfo_push modify].
  unfold enabled. destruct (set_count ActivityType_CPU activities).
  - unfold pushProfilingCallbacks.
    cbv [mbind M_bind getProfilerTLSState ThreadLocalDebugInfo_get
         TORCH_INTERNAL_ASSERT deref_opt deref mret M_ret
         addThreadLocalCallback on_object modify startTrace mark].
    run_world. rewrite bool_decide_eq_true_2 by (by eexists). run_world.
    f_equal. apply World_ext; cbn; try done.
    + by rewrite !insert_insert_eq.
    + by rewrite Hslot.
  - cbv [mbind M_bind mret M_ret on_object modify startTrace mark].
    run_world.
    f_equal. apply World_ext; cbn; try done.
    + by rewrite !insert_insert_eq.
    + by rewrite Hslot.
Qed.

Lemma set_span_endTime_activities t0 (buf : libkineto.CpuTraceBuffer) :
  libkineto.activities (set_span_endTime t0 buf) = libkineto.activities buf.
Proof. done. Qed.

(** The common prefix of [disableProfiler] on an active session: up to
    and including the request to stop the trace. *)
Lemma disableProfiler_on env finalised w p rest st buf :
  default [] (debug_info w !! currentThreadId env) = p :: rest →
  states w !! p = Some st → state (config_ st) = KINETO →
  cpu_trace st = Some buf →
  length (libkineto.activities buf) = length (kineto_events_ st) →
  stacks_nonempty (kineto_events_ st) →
  disableProfiler env finalised w
  = match finalised with
    | Some trace =>
        Val (session_result env st trace)
          (torn_down env p rest st buf (emptied_object st) w)
    | None =>
        Throw (UsageError "")
          (torn_down env p rest st buf (stopped_object env st) w)
    end.
Proof.
  intros Hslot Hp Hk Hbuf Hlen Hwf. unfold disableProfiler.
  cbv [mbind M_bind ThreadLocalDebugInfo_pop TORCH_CHECK mret M_ret deref
       deref_opt].
  rewrite Hslot. run_world. rewrite Hp.
  rewrite bool_decide_eq_true_2 by done. cbv beta iota. run_world.
  rewrite Hp.
  set (w1 := (if hasCallbackHandle st
              then removeCallback (currentThreadId env) (handle_ st)
              else λ s, Val () s)
               (set_debug_info
                  (<[currentThreadId env := rest]> (debug_info w)) w)).
  assert (Hw1 : w1 = Val ()
            (set_callbacks
               (if hasCallbackHandle st
                then <[currentThreadId env :=
                         filter (λ cb, cb_handle cb ≠ handle_ st)
                           (default [] (callbacks w !! currentThreadId env))]>
                       (callbacks w)
                else callbacks w)
               (next_callback_handle w)
               (set_debug_info
                  (<[currentThreadId env := rest]> (debug_info w)) w))).
  { unfold w1. by destruct (hasCallbackHandle st). }
  rewrite Hw1. clear w1 Hw1.
  cbv [on_object mark modify get_state mbind M_bind mret M_ret deref_opt].
  run_world. rewrite Hp. run_world.
  cbn [cpu_trace set_legacy_events]. rewrite Hbuf. run_world.
  rewrite (finalizeCPUTrace_zip _ (set_span_endTime (getTimeUs env) buf));
    [|done|by rewrite set_span_endTime_activities|done].
  run_world.
  cbv [transferCpuTrace stopTrace modify]. run_world.
  cbn [cpu_trace set_cpu_trace option_list].
  destruct finalised as [trace|].
  - rewrite bool_decide_eq_true_2 by (by eexists). cbv beta iota.
    cbv [addTraceEvents consolidate modify]. run_world.
    cbn [kineto_events_ set_kineto_events_ set_cpu_trace set_legacy_events
         legacy_events_of].
    rewrite addTraceEvents_loop.
    f_equal. apply World_ext; cbn; try done.
    by rewrite !insert_insert_eq.
  - rewrite bool_decide_eq_false_2 by (by intros [? [=]]). cbv beta iota.
    f_equal. apply World_ext; cbn; try done.
    by rewrite !insert_insert_eq.
Qed.

End sessions.

(** ** Sessions of reachable process states *)

Section sessions_invariant.

Implicit Types (w : World) (env : Env) (st : KinetoThreadLocalState).

Lemma slot_active t w p :
  slot t w = [p] → active_state t w = Some p.
Proof. unfold slot, active_state. by intros ->. Qed.

Lemma slot_empty_active t w : slot t w = [] → active_state t w = None.
Proof. unfold slot, active_state. by intros ->. Qed.

Lemma sessions_ok_elem w t p :
  sessions_ok w → p ∈ slot t w → slot t w = [p] ∧ live_session p w.
Proof.
  intros [Hs _] Hp. destruct (Hs t) as [Hnil|(q & Hq & Hlive)].
  - rewrite Hnil in Hp. by apply elem_of_nil in Hp.
  - rewrite Hq in Hp. apply list_elem_of_singleton in Hp. by subst.
Qed.

(** The invariant looks only at the slots, the objects and the allocation
    counter. *)
Lemma sessions_ok_same w w' :
  debug_info w' = debug_info w → states w' = states w →
  next_loc w' = next_loc w → sessions_ok w → sessions_ok w'.
Proof.
  intros Hd Hs Hn Hok.
  unfold sessions_ok, slot, live_session in *. by rewrite Hd, Hs, Hn.
Qed.

Lemma sessions_ok_init : sessions_ok World_init.
Proof.
  split.
  - intros t. left. unfold slot. cbn. by rewrite lookup_empty.
  - intros t1 t2 p Hp. unfold slot in Hp. cbn in Hp.
    rewrite lookup_empty in Hp. by apply elem_of_nil in Hp.
Qed.

Lemma slot_enabled env config activities w t :
  slot t (enabled env config activities w)
  = if decide (t = currentThreadId env) then [next_loc w] else slot t w.
Proof.
  unfold slot, enabled. cbn [debug_info]. destruct (decide _) as [->|Hne].
  - by rewrite lookup_insert_eq.
  - by rewrite lookup_insert_ne.
Qed.

Lemma sessions_ok_enabled env config activities w :
  state config = KINETO → sessions_ok w →
  sessions_ok (enabled env config activities w).
Proof.
  intros Hk Hok. split.
  - intros t. rewrite slot_enabled. destruct (decide _) as [->|Hne].
    + right. exists (next_loc w). split; [done|]. split; [cbn; lia|].
      eexists _, _. unfold enabled. cbn [states].
      rewrite lookup_insert_eq. split; [done|]. split; [done|].
      split; [done|]. split; [done|]. constructor.
    + destruct (proj1 Hok t) as [Hnil|(q & Hq & Hlt & st & buf & Hst & Hrest)];
        [by left|].
      right. exists q. split; [done|]. split; [cbn; lia|].
      exists st, buf. split; [|done]. unfold enabled. cbn [states].
      rewrite lookup_insert_ne by lia. done.
  - intros t1 t2 p. rewrite !slot_enabled.
    destruct (decide (t1 = _)) as [->|H1], (decide (t2 = _)) as [->|H2];
      [done| | |apply (proj2 Hok)].
    + intros ->%list_elem_of_singleton Hp.
      destruct (sessions_ok_elem _ _ _ Hok Hp) as (_ & Hlt & _). lia.
    + intros Hp ->%list_elem_of_singleton.
      destruct (sessions_ok_elem _ _ _ Hok Hp) as (_ & Hlt & _). lia.
Qed.

Lemma engaged_nonempty_None_stack (o : option (list string)) :
  (if engaged_nonempty o then o else None) ≠ Some [].
Proof. by destruct o as [[|x l]|]. Qed.

Lemma sessions_ok_ended env flops fn ctx w p st buf :
  session_active (currentThreadId env) p st buf w → sessions_ok w →
  sessions_ok (ended env flops fn ctx p st buf w).
Proof.
  intros (Hact & Hp & Hk & Hbuf) Hok.
  assert (Hslots : ∀ t, slot t (ended env flops fn ctx p st buf w) = slot t w)
    by done.
  split.
  - intros t. rewrite Hslots.
    destruct (proj1 Hok t) as [Hnil|(q & Hq & Hlt & st' & buf' & Hst & Hrest)];
      [by left|].
    right. exists q. split; [done|]. split; [done|].
    unfold ended. cbn [states with_correlation_stack set_kineto].
    destruct (decide (p = q)) as [<-|Hne].
    + rewrite with_object_lookup. eexists _, _. split; [done|].
      assert (st' = st) as -> by congruence.
      assert (buf' = buf) as -> by (destruct Hrest as (_ & ? & _); congruence).
      destruct Hrest as (_ & _ & Hlen & Hwf).
      split; [done|]. split; [done|]. cbn. split.
      * rewrite !length_app. cbn. lia.
      * apply Forall_app. split; [done|]. constructor; [|constructor].
        cbn. apply engaged_nonempty_None_stack.
    + rewrite with_object_lookup_ne by done. by exists st', buf'.
  - intros t1 t2 q. rewrite !Hslots. apply (proj2 Hok).
Qed.

Lemma slot_torn_down env p rest st buf obj w t :
  slot t (torn_down env p rest st buf obj w)
  = if decide (t = currentThreadId env) then rest else slot t w.
Proof.
  unfold slot, torn_down. cbn [debug_info]. destruct (decide _) as [->|Hne].
  - by rewrite lookup_insert_eq.
  - by rewrite lookup_insert_ne.
Qed.

Lemma sessions_ok_torn_down env p st buf obj w :
  slot (currentThreadId env) w = [p] → sessions_ok w →
  sessions_ok (torn_down env p [] st buf obj w).
Proof.
  intros Hslot Hok. split.
  - intros t. rewrite slot_torn_down. destruct (decide _) as [->|Hne];
      [by left|].
    destruct (proj1 Hok t) as [Hnil|(q & Hq & Hlt & st' & buf' & Hst & Hrest)];
      [by left|].
    right. exists q. split; [done|]. split; [done|].
    exists st', buf'. split; [|done]. unfold torn_down. cbn [states].
    rewrite lookup_insert_ne; [done|]. intros <-. apply Hne.
    apply (proj2 Hok t (currentThreadId env) p).
    + rewrite Hq. apply list_elem_of_here.
    + rewrite Hslot. apply list_elem_of_here.
  - intros t1 t2 q. rewrite !slot_torn_down.
    destruct (decide (t1 = _)) as [->|H1], (decide (t2 = _)) as [->|H2];
      [done| | |apply (proj2 Hok)].
    + by intros ?%elem_of_nil.
    + by intros _ ?%elem_of_nil.
Qed.

End sessions_invariant.

Section outcomes.

Implicit Types (w : World) (env : Env) (st : KinetoThreadLocalState).

(** On a well-formed process state [enableProfiler] either throws a usage
    error and changes nothing, or returns having enabled a session. *)
Lemma enableProfiler_cases env config activities w :
  sessions_ok w →
  (∃ msg, enableProfiler env config activities w = Throw (UsageError msg) w)
  ∨ (state config = KINETO ∧ activities ≠ []
     ∧ slot (currentThreadId env) w = []
     ∧ enableProfiler env config activities w
       = Val () (enabled env config activities w)).
Proof.
  intros Hok.
  destruct (decide (state config = KINETO)) as [Hk|Hk];
    [|left; eexists; by apply enableProfiler_wrong_kind].
  destruct activities as [|a activities];
    [left; eexists; by apply enableProfiler_no_activities|].
  destruct (proj1 Hok (currentThreadId env)) as [Hnil|(p & Hp & _)].
  - right. split; [done|]. split; [done|]. split; [done|].
    apply enableProfiler_ok; [done..|]. by apply slot_empty_active.
  - left. eexists. eapply enableProfiler_already_enabled; [done..|].
    by apply slot_active.
Qed.

Lemma start_callback_cases env fn w :
  sessions_ok w →
  (slot (currentThreadId env) w = []
   ∧ start_callback env fn w = Val KinetoObserverContext_new w)
  ∨ (∃ p st buf,
       slot (currentThreadId env) w = [p]
       ∧ session_active (currentThreadId env) p st buf w
       ∧ start_callback env fn w
         = Val (started_ctx env fn (config_ st) (corr_id_ w))
             (started env w)).
Proof.
  intros Hok.
  destruct (proj1 Hok (currentThreadId env))
    as [Hnil|(p & Hp & _ & st & buf & Hst & Hk & Hbuf & _)].
  - left. split; [done|]. apply start_callback_off. left.
    by apply slot_empty_active.
  - right. exists p, st, buf. split; [done|].
    pose proof (slot_active _ _ _ Hp) as Hact. split; [done|].
    by apply (start_callback_on env fn w p st).
Qed.

Lemma end_callback_cases env flops fn ctx w :
  sessions_ok w →
  (slot (currentThreadId env) w = []
   ∧ end_callback env flops fn ctx w = Val ctx w)
  ∨ (∃ p st buf,
       slot (currentThreadId env) w = [p]
       ∧ session_active (currentThreadId env) p st buf w
       ∧ match ctx with
         | None =>
             end_callback env flops fn ctx w = Throw (InternalAssert "") w
         | Some c =>
             end_callback env flops fn ctx w
             = Val (Some (set_endThreadId (currentThreadId env) c))
                 (ended env flops fn c p st buf w)
         end).
Proof.
  intros Hok.
  destruct (proj1 Hok (currentThreadId env))
    as [Hnil|(p & Hp & _ & st & buf & Hst & Hk & Hbuf & _)].
  - left. split; [done|]. apply end_callback_off. left.
    by apply slot_empty_active.
  - right. exists p, st, buf. split; [done|].
    pose proof (slot_active _ _ _ Hp) as Hact. split; [done|].
    destruct ctx as [c|].
    + by apply end_callback_on.
    + by apply (end_callback_null env flops fn w p st).
Qed.

Lemma disableProfiler_cases env finalised w :
  sessions_ok w →
  (slot (currentThreadId env) w = []
   ∧ disableProfiler env finalised w = Throw (UsageError not_running) w)
  ∨ (∃ p st buf,
       slot (currentThreadId env) w = [p]
       ∧ session_active (currentThreadId env) p st buf w
       ∧ disableProfiler env finalised w
         = match finalised with
           | Some trace =>
               Val (session_result env st trace)
                 (torn_down env p [] st buf (emptied_object st) w)
           | None =>
               Throw (UsageError "")
                 (torn_down env p [] st buf (stopped_object env st) w)
           end).
Proof.
  intros Hok.
  destruct (proj1 Hok (currentThreadId env))
    as [Hnil|(p & Hp & _ & st & buf & Hst & Hk & Hbuf & Hlen & Hwf)].
  - left. split; [done|]. apply disableProfiler_no_state.
    by apply slot_empty_active.
  - right. exists p, st, buf. split; [done|].
    pose proof (slot_active _ _ _ Hp) as Hact. split; [done|].
    by apply disableProfiler_on.
Qed.

Lemma sessions_ok_started env w : sessions_ok w → sessions_ok (started env w).
Proof. by apply sessions_ok_same. Qed.

(** Every call runs to a well-formed process state. *)
Lemma run_sessions_ok c w :
  sessions_ok w → ∃ w', run c w = Some w' ∧ sessions_ok w'.
Proof.
  intros Hok. destruct c as [env config activities|env fn|env flops fn ctx
                             |env finalised]; cbn [run].
  - destruct (enableProfiler_cases env config activities w Hok)
      as [[msg ->]|(Hk & _ & _ & ->)]; cbn [state_after].
    + by exists w.
    + eexists. split; [done|]. by apply sessions_ok_enabled.
  - destruct (start_callback_cases env fn w Hok)
      as [[_ ->]|(p & st & buf & _ & _ & ->)]; cbn [state_after].
    + by exists w.
    + eexists. split; [done|]. by apply sessions_ok_started.
  - destruct (end_callback_cases env flops fn ctx w Hok)
      as [[_ ->]|(p & st & buf & _ & Hact & Hrun)]; cbn [state_after].
    + by exists w.
    + destruct ctx as [c|]; rewrite Hrun; cbn [state_after].
      * eexists. split; [done|]. by apply sessions_ok_ended.
      * by exists w.
  - destruct (disableProfiler_cases env finalised w Hok)
      as [[_ ->]|(p & st & buf & Hslot & _ & ->)]; cbn [state_after].
    + by exists w.
    + destruct finalised; cbn [state_after]; eexists; (split; [done|]);
        by apply sessions_ok_torn_down.
Qed.

Lemma reachable_sessions_ok w : reachable w → sessions_ok w.
Proof.
  induction 1 as [|c w w' _ IH Hrun]; [apply sessions_ok_init|].
  destruct (run_sessions_ok c w IH) as (w'' & Hrun' & Hok).
  congruence.
Qed.

End outcomes.


(** ** The serialisers as joins *)

Section joins.

Implicit Types (s sep oss : string) (xs : list string).

Lemma string_length_app s1 s2 :
  String.length (s1 +:+ s2) = (String.length s1 + String.length s2)%nat.
Proof.
  induction s1 as [|c s1 IH]; [done|].
  rewrite string_app_cons. cbn. by rewrite IH.
Qed.

Lemma string_erase_app s1 s2 :
  string_erase (String.length s1) (s1 +:+ s2) = s1.
Proof.
  unfold string_erase. induction s1 as [|c s1 IH].
  - cbn. by destruct s2.
  - rewrite string_app_cons. cbn. by rewrite IH.
Qed.

Lemma shapesToStr_dims_later (i : nat) (shape : list Z) oss :
  shapesToStr_dims (S i) shape oss
  = oss +:+ join_tail ", " (pretty <$> shape).
Proof.
  revert i oss; induction shape as [|d shape IH]; intros i oss.
  - cbn. by rewrite string_app_nil_r.
  - cbn [shapesToStr_dims]. rewrite IH. cbn [Nat.ltb Nat.leb fmap list_fmap join_tail].
    by rewrite !string_app_assoc.
Qed.

Lemma shapesToStr_dims_first (shape : list Z) oss :
  shapesToStr_dims 0 shape oss = oss +:+ join ", " (pretty <$> shape).
Proof.
  destruct shape as [|d shape].
  - cbn. by rewrite string_app_nil_r.
  - cbn [shapesToStr_dims]. rewrite shapesToStr_dims_later.
    cbn [Nat.ltb Nat.leb fmap list_fmap join]. by rewrite !string_app_assoc.
Qed.

Lemma shapesToStr_loop_later (i : nat) (shapes : list (list Z)) oss :
  shapesToStr_loop (S i) shapes oss
  = oss +:+ join_tail ", " (shape_text <$> shapes).
Proof.
  revert i oss; induction shapes as [|shape shapes IH]; intros i oss.
  - cbn. by rewrite string_app_nil_r.
  - cbn [shapesToStr_loop]. rewrite IH, shapesToStr_dims_first.
    cbn [Nat.ltb Nat.leb fmap list_fmap join_tail].
    unfold shape_text, bracketed. by rewrite !string_app_assoc.
Qed.

Lemma ostream_copy_join sep x xs :
  ostream_copy sep (x :: xs) "" = join sep (x :: xs) +:+ sep.
Proof.
  revert x; induction xs as [|y xs IH]; intros x.
  - cbn. by rewrite string_app_nil_r.
  - change (ostream_copy sep (x :: y :: xs) "")
      with (ostream_copy sep (y :: xs) ("" +:+ x +:+ sep)).
    rewrite ostream_copy_acc, IH. cbn [join join_tail].
    by rewrite string_app_nil_l, !string_app_assoc.
Qed.

End joins.

(** X1: [shapesToStr] writes the bracketed list of the shapes, separated
    by a comma and a space, each shape being the bracketed list of its
    dimensions in decimal, separated the same way; no separator precedes
    the first or follows the last element at either level. *)
Theorem shapesToStr_is_nested_join (shapes : list (list Z)) :
  shapesToStr shapes
  = bracketed
      (join ", "
         ((λ shape, bracketed (join ", " (pretty <$> shape))) <$> shapes)).
Proof.
  unfold shapesToStr. destruct shapes as [|shape shapes]; [done|].
  cbn [shapesToStr_loop]. rewrite shapesToStr_loop_later.
  rewrite shapesToStr_dims_first.
  cbn [Nat.ltb Nat.leb fmap list_fmap join]. unfold bracketed.
  fold (shape_text shape).
  change (λ shape0 : list Z, "[" +:+ join ", " (pretty <$> shape0) +:+ "]")
    with shape_text.
  unfold shape_text, bracketed. by rewrite !string_app_nil_l, !string_app_assoc.
Qed.

(** X2: [dtypesToStr] writes the bracketed list of the type names, each
    between double quotes, separated by a comma and a space; the erasure
    of the last separator never reaches before the start of the string,
    and the empty list gives the empty brackets. *)
Theorem dtypesToStr_is_quoted_join (types : list string) :
  dtypesToStr types = bracketed (join ", " (quoted <$> types))
  ∧ (types ≠ [] →
     (2 ≤ String.length
            (ostream_copy ", "
               ((λ s, dquote +:+ s +:+ dquote) <$> types) ""))%nat).
Proof.
  destruct types as [|ty types]; [done|].
  unfold dtypesToStr. cbn [fmap list_fmap].
  change (list_fmap string string (λ s, dquote +:+ s +:+ dquote) types)
    with (quoted <$> types).
  change (dquote +:+ ty +:+ dquote) with (quoted ty).
  rewrite ostream_copy_join.
  split.
  - rewrite string_length_app. cbn [String.length].
    replace (String.length (join ", " (quoted ty :: (quoted <$> types))) + 2 - 2)%nat
      with (String.length (join ", " (quoted ty :: (quoted <$> types))))
      by lia.
    by rewrite string_erase_app.
  - intros _. rewrite string_length_app. cbn [String.length]. lia.
Qed.

Lemma dtypesToStr_is_quoted_join_witness :
  dtypesToStr ["float"; "int"]
    = bracketed (join ", " [quoted "float"; quoted "int"])
  ∧ (2 ≤ String.length
           (ostream_copy ", "
              ((λ s, dquote +:+ s +:+ dquote) <$> ["float"; "int"]) ""))%nat.
Proof.
  destruct (dtypesToStr_is_quoted_join ["float"; "int"]) as [H1 H2].
  split; [exact H1|]. apply H2. discriminate.
Defined.

(** X3: on a non-empty list [stacksToStr] is defined and writes the
    entries separated by semicolons, with none after the last; an entry
    that is the empty string is kept. *)
Theorem stacksToStr_is_join (frame : string) (frames : list string) :
  stacksToStr (frame :: frames) = Some (join ";" (frame :: frames)).
Proof.
  unfold stacksToStr. rewrite ostream_copy_join. apply string_pop_back_app.
Qed.


(** ** Device classification *)




(** ** Preparing a trace *)

Section prepare.

Lemma activities_nonempty_cases (activities : list ActivityType) :
  activities ≠ []
  ↔ ActivityType_CPU ∈ activities ∨ ActivityType_CUDA ∈ activities.
Proof.
  split.
  - destruct activities as [|[] l]; [done|intros _..].
    + left. apply list_elem_of_here.
    + right. apply list_elem_of_here.
  - by intros [H|H] ->; apply elem_of_nil in H.
Qed.

End prepare.

(** X5: the set [prepareProfiler] asks the collector to trace contains
    the operation and external-correlation kinds exactly when the CPU
    activity is requested, the device copy, set and kernel kinds exactly
    when the CUDA activity is requested, and the runtime kind exactly when
    either is requested; it is empty when nothing is requested. *)
Theorem k_activities_membership
  (activities : list ActivityType) (k : libkineto.ActivityType) :
  (k ∈ k_activities activities ↔
     match k with
     | libkineto.CPU_OP | libkineto.EXTERNAL_CORRELATION =>
         ActivityType_CPU ∈ activities
     | libkineto.GPU_MEMCPY | libkineto.GPU_MEMSET
     | libkineto.CONCURRENT_KERNEL =>
         ActivityType_CUDA ∈ activities
     | libkineto.CUDA_RUNTIME => activities ≠ []
     end)
  ∧ k_activities [] = ∅.
Proof.
  split; [|done].
  pose proof (activities_nonempty_cases activities) as Hne.
  unfold k_activities, set_count, cpuTypes, cudaTypes.
  destruct (bool_decide_reflect (ActivityType_CPU ∈ activities)),
    (bool_decide_reflect (ActivityType_CUDA ∈ activities));
    destruct k; rewrite ?Hne; set_unfold; intuition congruence.
Qed.

(** X6: [prepareProfiler] throws a usage error, leaving the collector
    untouched, unless the configuration's state is [KINETO].  Otherwise
    it returns, whatever the requested activities (the empty set
    included), with the collector registered and initialised and the set
    of kinds handed to it; the collector is initialised with
    [cpuOnly = !hasCUDA] only if it was not registered before. *)
Theorem prepareProfiler_outcome (hasCUDA : bool) (config : ProfilerConfig)
  (activities : list ActivityType) (api : KinetoApi) :
  (state config ≠ KINETO →
     prepareProfiler hasCUDA config activities api
     = Throw (UsageError "Supported only in Kineto profiler") api)
  ∧ (state config = KINETO →
     ∃ api',
       prepareProfiler hasCUDA config activities api = Val () api'
       ∧ preparedActivities api' = Some (k_activities activities)
       ∧ profilerRegistered api' = true
       ∧ profilerInitialized api' = true
       ∧ init_cpuOnly api'
         = (if profilerRegistered api then init_cpuOnly api
            else Some (negb hasCUDA))
       ∧ logMessagesSuppressed api'
         = (logMessagesSuppressed api || negb (profilerRegistered api))).
Proof.
  split; intros Hk; unfold prepareProfiler;
    cbv [mbind M_bind TORCH_CHECK get_state mret M_ret].
  - by rewrite bool_decide_eq_false_2.
  - rewrite bool_decide_eq_true_2 by done.
    destruct api as [[] [] c l pa]; cbn; eexists; (split; [done|]);
      cbn; by rewrite ?orb_true_r, ?orb_false_r.
Qed.

Lemma prepareProfiler_outcome_witness :
  prepareProfiler true legacy_config [ActivityType_CPU] fresh_api
    = Throw (UsageError "Supported only in Kineto profiler") fresh_api
  ∧ ∃ api',
      prepareProfiler true sample_config [] fresh_api = Val () api'
      ∧ preparedActivities api' = Some ∅
      ∧ init_cpuOnly api' = Some false.
Proof.
  destruct (prepareProfiler_outcome true legacy_config [ActivityType_CPU]
              fresh_api) as [Hbad _].
  destruct (prepareProfiler_outcome true sample_config [] fresh_api)
    as [_ Hgood].
  split; [apply Hbad; discriminate|].
  destruct (Hgood eq_refl) as (api' & Hrun & Hset & _ & _ & Hcpu & _).
  exists api'. split; [exact Hrun|]. split; [exact Hset|exact Hcpu].
Defined.


(** ** Enabling a session *)

(** X7: called with a [KINETO] configuration and a non-empty activity set
    in a context without an active state, [enableProfiler] returns; it
    has allocated a new state object, published it in the calling
    context's slot, given it an empty event sequence, the start marker
    and a buffer whose span starts at the current time, and started the
    collector's trace.  It has registered the callback pair exactly when
    the CPU activity is requested.  No other object, no other context's
    slot or callbacks and not the correlation counter have changed. *)
Theorem enableProfiler_enables (env : Env) (config : ProfilerConfig)
  (activities : list ActivityType) (w : World) :
  state config = KINETO → activities ≠ [] →
  active_state (currentThreadId env) w = None →
  ∃ w',
    enableProfiler env config activities w = Val () w'
    ∧ active_state (currentThreadId env) w' = Some (next_loc w)
    ∧ states w' !! next_loc w
      = Some (enabled_object env config
                (if set_count ActivityType_CPU activities
                 then next_callback_handle w else 0))
    ∧ (∀ q, q ≠ next_loc w → states w' !! q = states w !! q)
    ∧ (∀ t, t ≠ currentThreadId env →
         slot t w' = slot t w ∧ callbacks w' !! t = callbacks w !! t)
    ∧ callbacks w' !! currentThreadId env
      = (if set_count ActivityType_CPU activities
         then Some (default [] (callbacks w !! currentThreadId env)
                    ++ [registered_callback config w])
         else callbacks w !! currentThreadId env)
    ∧ trace_started (kineto w') = true
    ∧ correlation_stack (kineto w') = correlation_stack (kineto w)
    ∧ corr_id_ w' = corr_id_ w.
Proof.
  intros Hk Ha Hnone. exists (enabled env config activities w).
  split; [by apply enableProfiler_ok|].
  unfold enabled, active_state, slot. cbn.
  split; [by rewrite lookup_insert_eq|].
  split; [by rewrite lookup_insert_eq|].
  split; [intros q Hq; by rewrite lookup_insert_ne|].
  split.
  - intros t Ht. rewrite lookup_insert_ne by done. split; [done|].
    destruct (set_count _ _); [by rewrite lookup_insert_ne|done].
  - split; [|done]. destruct (set_count _ _); [|done].
    by rewrite lookup_insert_eq.
Qed.

Lemma enableProfiler_enables_witness :
  ∃ w',
    enableProfiler sample_env sample_config [ActivityType_CPU] World_init
      = Val () w'
    ∧ active_state 7 w' = Some 0%nat
    ∧ states w' !! 0%nat = Some (enabled_object sample_env sample_config 1)
    ∧ callbacks w' !! 7
      = Some [{| cb_handle := 1; cb_needsInputs := true;
                 cb_needsIds := true |}].
Proof.
  destruct (enableProfiler_enables sample_env sample_config [ActivityType_CPU]
              World_init eq_refl) as (w' & Hrun & Hact & Hobj & _ & _ & Hcb & _).
  { discriminate. }
  { reflexivity. }
  exists w'. split; [exact Hrun|]. split; [exact Hact|].
  split; [exact Hobj|exact Hcb].
Defined.

(** ** The start callback on an active session *)

(** X8: in a context whose active state is of [KINETO] kind, the start
    callback takes the current value of the correlation counter as the
    operation's correlation id, advances the counter by one modulo
    [2^64], pushes the id on the calling context's correlation stack and
    stamps the context with the current time and thread; it changes no
    state object, slot or callback and no other context's correlation
    stack. *)
Theorem start_callback_issues_correlation_id (env : Env) (fn : RecordFunction)
  (w : World) (p : nat) (st : KinetoThreadLocalState) :
  active_state (currentThreadId env) w = Some p → states w !! p = Some st →
  state (config_ st) = KINETO →
  ∃ ctx w',
    start_callback env fn w = Val ctx w'
    ∧ correlationId ctx = corr_id_ w
    ∧ startUs ctx = getTimeUs env
    ∧ startThreadId ctx = currentThreadId env
    ∧ corr_id_ w' = (corr_id_ w + 1) mod uint64_modulus
    ∧ correlation_stack_of (currentThreadId env) w'
      = corr_id_ w :: correlation_stack_of (currentThreadId env) w
    ∧ (∀ t, t ≠ currentThreadId env →
         correlation_stack_of t w' = correlation_stack_of t w)
    ∧ states w' = states w ∧ debug_info w' = debug_info w
    ∧ callbacks w' = callbacks w.
Proof.
  intros Hact Hp Hk. eexists _, _.
  split; [by apply (start_callback_on env fn w p st)|].
  unfold started, correlation_stack_of, with_correlation_stack. cbn.
  split; [done|]. split; [done|]. split; [done|]. split; [done|].
  split; [by rewrite lookup_insert_eq|]. split; [|done].
  intros t Ht. by rewrite lookup_insert_ne.
Qed.

Lemma start_callback_issues_correlation_id_witness :
  ∃ ctx w',
    start_callback sample_env sample_fn world_enabled = Val ctx w'
    ∧ correlationId ctx = 1 ∧ corr_id_ w' = 2
    ∧ correlation_stack_of 7 w' = [1].
Proof.
  destruct (start_callback_issues_correlation_id sample_env sample_fn
              world_enabled 0%nat (enabled_object sample_env sample_config 1)
              eq_refl eq_refl eq_refl)
    as (ctx & w' & Hrun & Hid & _ & _ & Hctr & Hstk & _).
  exists ctx, w'. split; [exact Hrun|]. split; [exact Hid|].
  split; [exact Hctr|exact Hstk].
Defined.

(** X9: in the same situation the context captures the input shapes and
    one type name per input exactly when shape reporting is on, the extra
    arguments exactly when flop reporting is on, and the operation's
    sequence number, forward thread id and scope always.  It captures a
    call stack exactly when stack capture is on and the scope is not a
    backward function; the stack is the interpreter's, or the Python one
    when the interpreter's is empty. *)
Theorem start_callback_captures (env : Env) (fn : RecordFunction)
  (w : World) (p : nat) (st : KinetoThreadLocalState) :
  active_state (currentThreadId env) w = Some p → states w !! p = Some st →
  state (config_ st) = KINETO →
  ∃ ctx w',
    start_callback env fn w = Val ctx w'
    ∧ shapes ctx
      = (if report_input_shapes (config_ st)
         then Some (fn_inputSizes fn) else None)
    ∧ dtypes ctx
      = (if report_input_shapes (config_ st)
         then Some (inputTypes fn) else None)
    ∧ length (inputTypes fn) = length (fn_inputs fn)
    ∧ extraArgs ctx
      = (if with_flops (config_ st) then Some (fn_extraArgs fn) else None)
    ∧ sequenceNr ctx = fn_seqNr fn
    ∧ fwdThreadId ctx = fn_forwardThreadId fn
    ∧ recFunScope ctx = fn_scope fn
    ∧ (with_stack (config_ st) = false ∨ fn_scope fn = BACKWARD_FUNCTION →
         stack ctx = None)
    ∧ (with_stack (config_ st) = true → fn_scope fn ≠ BACKWARD_FUNCTION →
         stack ctx
         = Some (if bool_decide (currentCallstack env = [])
                 then pythonCallstack env else currentCallstack env)).
Proof.
  intros Hact Hp Hk. eexists _, _.
  split; [by apply (start_callback_on env fn w p st)|].
  unfold started_ctx. cbn.
  split; [done|]. split; [done|].
  split; [unfold inputTypes; by rewrite length_fmap|].
  split; [done|]. split; [done|]. split; [done|]. split; [done|]. split.
  - intros [->| ->]; [done|].
    rewrite bool_decide_eq_false_2 by (by intros []).
    by rewrite andb_false_r.
  - intros -> Hscope. rewrite bool_decide_eq_true_2 by done. cbn.
    by destruct (currentCallstack env).
Qed.

Lemma start_callback_captures_witness :
  ∃ ctx w',
    start_callback sample_env sample_fn world_enabled = Val ctx w'
    ∧ dtypes ctx = Some ["float"; "Int"]
    ∧ stack ctx = Some ["a.py(1): f"].
Proof.
  destruct (start_callback_captures sample_env sample_fn
              world_enabled 0%nat (enabled_object sample_env sample_config 1)
              eq_refl eq_refl eq_refl)
    as (ctx & w' & Hrun & _ & Hty & _ & _ & _ & _ & _ & _ & Hstk).
  exists ctx, w'. split; [exact Hrun|]. split; [exact Hty|].
  apply Hstk; [reflexivity|discriminate].
Defined.


(** ** Recording a finished operation *)

(** X10: with a null context [reportClientActivity] does nothing.  With a
    context, on an object that owns its buffer, it appends exactly one
    event to the event sequence and one activity to the buffer, so the
    two keep the same length, and makes the calling thread known to the
    collector.  The event stores the context's shapes, type names and
    stack only when the list is present and non-empty (an empty captured
    list is dropped), and a flop count only when extra arguments were
    saved. *)
Theorem reportClientActivity_appends_one (p : nat) (env : Env) (flops : Z)
  (fn : RecordFunction) (ctx : KinetoObserverContext) (w : World)
  (st : KinetoThreadLocalState) (buf : libkineto.CpuTraceBuffer) :
  states w !! p = Some st → cpu_trace st = Some buf →
  reportClientActivity p env flops fn None w = Val () w
  ∧ ∃ w' st' buf' ev,
      reportClientActivity p env flops fn (Some ctx) w = Val () w'
      ∧ states w' !! p = Some st' ∧ cpu_trace st' = Some buf'
      ∧ kineto_events_ st' = kineto_events_ st ++ [ev]
      ∧ libkineto.activities buf'
        = libkineto.activities buf ++ [client_activity env fn ctx]
      ∧ (length (libkineto.activities buf) = length (kineto_events_ st) →
         length (libkineto.activities buf') = length (kineto_events_ st'))
      ∧ currentThreadId env ∈ thread_info (kineto w')
      ∧ shapes_ ev
        = (if engaged_nonempty (shapes ctx) then shapes ctx else None)
      ∧ dtypes_ ev
        = (if engaged_nonempty (dtypes ctx) then dtypes ctx else None)
      ∧ stack_ ev
        = (if engaged_nonempty (stack ctx) then stack ctx else None)
      ∧ stack_ ev ≠ Some []
      ∧ flops_ ev = (if engaged_nonempty (extraArgs ctx) then flops else 0)
      ∧ (∀ q, q ≠ p → states w' !! q = states w !! q).
Proof.
  intros Hp Hbuf. split; [done|].
  exists (with_object p (recorded env flops fn ctx st buf)
            (with_thread_info (currentThreadId env) w)),
    (recorded env flops fn ctx st buf),
    (set_activities
       (libkineto.activities buf ++ [client_activity env fn ctx]) buf),
    (client_event env flops fn ctx).
  split; [by apply reportClientActivity_records|].
  split; [apply with_object_lookup|]. unfold recorded. cbn.
  split; [done|]. split; [done|]. split; [done|].
  split; [intros Hlen; rewrite !length_app; cbn; lia|].
  split; [apply elem_of_union_l, elem_of_singleton; done|].
  split; [done|]. split; [done|]. split; [done|].
  split; [apply engaged_nonempty_None_stack|]. split; [done|].
  intros q Hq. by rewrite lookup_insert_ne.
Qed.

Lemma reportClientActivity_appends_one_witness :
  ∃ w' st' ev,
    reportClientActivity 0 sample_env 0 sample_fn
      (Some KinetoObserverContext_new) world_enabled = Val () w'
    ∧ states w' !! 0%nat = Some st'
    ∧ kineto_events_ st' = [ev]
    ∧ stack_ ev = None.
Proof.
  destruct (reportClientActivity_appends_one 0 sample_env 0 sample_fn
              KinetoObserverContext_new world_enabled
              (enabled_object sample_env sample_config 1) _ eq_refl eq_refl)
    as (_ & w' & st' & buf' & ev & Hrun & Hst & _ & Hev & _ & _ & _ & _ & _
        & Hstk & _).
  exists w', st', ev. split; [exact Hrun|]. split; [exact Hst|].
  split; [exact Hev|exact Hstk].
Defined.

(** ** The end callback on an active session *)

(** X11: in a context with an active [KINETO] session that owns its
    buffer, the end callback handed a context returns it with the end
    thread id written, appends one event of kind [CPU_OP] carrying the
    operation's name, the context's correlation id, start time, thread
    ids, sequence number and scope, and the elapsed time as duration,
    appends the matching activity to the buffer, and pops the calling
    context's correlation stack.  It leaves every other object, the slots,
    the callbacks and the correlation counter alone. *)
Theorem end_callback_records_operation (env : Env) (flops : Z)
  (fn : RecordFunction) (ctx : KinetoObserverContext) (w : World) (p : nat)
  (st : KinetoThreadLocalState) (buf : libkineto.CpuTraceBuffer) :
  session_active (currentThreadId env) p st buf w →
  ∃ w' st' buf' ev,
    end_callback env flops fn (Some ctx) w
      = Val (Some (set_endThreadId (currentThreadId env) ctx)) w'
    ∧ session_active (currentThreadId env) p st' buf' w'
    ∧ kineto_events_ st' = kineto_events_ st ++ [ev]
    ∧ libkineto.activities buf'
      = libkineto.activities buf
        ++ [client_activity env fn
              (set_endThreadId (currentThreadId env) ctx)]
    ∧ name_ ev = fn_name fn
    ∧ activity_type_ ev = libkineto.CPU_OP
    ∧ correlation_id_ ev = correlationId ctx
    ∧ start_us_ ev = startUs ctx
    ∧ duration_us_ ev = getTimeUs env - startUs ctx
    ∧ start_thread_id_ ev = startThreadId ctx
    ∧ end_thread_id_ ev = currentThreadId env
    ∧ sequence_nr_ ev = sequenceNr ctx
    ∧ fwd_thread_id_ ev = fwdThreadId ctx
    ∧ scope_ ev = recFunScope ctx
    ∧ is_async_ ev = fn_isAsync fn
    ∧ correlation_stack_of (currentThreadId env) w'
      = tail (correlation_stack_of (currentThreadId env) w)
    ∧ (∀ q, q ≠ p → states w' !! q = states w !! q)
    ∧ debug_info w' = debug_info w ∧ callbacks w' = callbacks w
    ∧ corr_id_ w' = corr_id_ w.
Proof.
  intros Hses. pose proof Hses as (Hact & Hp & Hk & Hbuf).
  exists (ended env flops fn ctx p st buf w),
    (recorded env flops fn (set_endThreadId (currentThreadId env) ctx) st buf),
    (set_activities
       (libkineto.activities buf
        ++ [client_activity env fn
              (set_endThreadId (currentThreadId env) ctx)]) buf),
    (client_event env flops fn (set_endThreadId (currentThreadId env) ctx)).
  split; [by apply end_callback_on|].
  unfold ended, recorded, session_active, active_state,
    correlation_stack_of, with_correlation_stack, with_object,
    with_thread_info in *. cbn.
  rewrite !lookup_insert_eq.
  split; [done|]. do 14 (split; [done|]). split; [|done].
  intros q Hq. by rewrite lookup_insert_ne.
Qed.

Lemma session_active_world_enabled :
  session_active 7 0 (enabled_object sample_env sample_config 1)
    {| libkineto.span :=
         {| libkineto.span_startTime := 100; libkineto.span_endTime := 0;
            libkineto.span_name := "PyTorch Profiler" |};
       libkineto.gpuOpCount := -1; libkineto.activities := [] |}
    world_enabled.
Proof. done. Qed.

Lemma end_callback_records_operation_witness :
  ∃ ctx' w' st' ev,
    end_callback sample_env 0 sample_fn (Some sample_ctx) world_enabled
      = Val ctx' w'
    ∧ states w' !! 0%nat = Some st'
    ∧ kineto_events_ st' = [ev]
    ∧ name_ ev = "add" ∧ correlation_id_ ev = 1.
Proof.
  destruct (end_callback_records_operation sample_env 0 sample_fn sample_ctx
              world_enabled 0%nat _ _ session_active_world_enabled)
    as (w' & st' & buf' & ev & Hrun & (_ & Hst & _) & Hev & _ & Hname & _
        & Hid & _).
  exists (Some (set_endThreadId (currentThreadId sample_env) sample_ctx)),
    w', st', ev.
  split; [exact Hrun|]. split; [exact Hst|].
  split; [exact Hev|]. split; [exact Hname|exact Hid].
Defined.

(** X12: in a context with an active [KINETO] state, the end callback
    handed a null context fails the internal assertion before it has
    changed anything. *)
Theorem end_callback_null_context (env : Env) (flops : Z)
  (fn : RecordFunction) (w : World) (p : nat) (st : KinetoThreadLocalState) :
  active_state (currentThreadId env) w = Some p → states w !! p = Some st →
  state (config_ st) = KINETO →
  end_callback env flops fn None w = Throw (InternalAssert "") w.
Proof. apply end_callback_null. Qed.

Lemma end_callback_null_context_witness :
  end_callback sample_env 0 sample_fn None world_enabled
  = Throw (InternalAssert "") world_enabled.
Proof.
  exact (end_callback_null_context sample_env 0 sample_fn world_enabled
           0%nat (enabled_object sample_env sample_config 1)
           eq_refl eq_refl eq_refl).
Defined.

(** X13: in a context with an active [KINETO] session, running the start
    callback and then the end callback on the context it returned leaves
    the context's correlation stack as it was, advances the correlation
    counter by one, and appends exactly one event, whose correlation id
    is the id the start callback issued and whose duration is the time
    between the two callbacks. *)
Theorem start_then_end_callback (env env' : Env) (flops : Z)
  (fn : RecordFunction) (w : World) (p : nat) (st : KinetoThreadLocalState)
  (buf : libkineto.CpuTraceBuffer) :
  currentThreadId env' = currentThreadId env →
  session_active (currentThreadId env) p st buf w →
  ∃ ctx w1 ctx' w2 st2 buf2 ev,
    start_callback env fn w = Val ctx w1
    ∧ end_callback env' flops fn (Some ctx) w1 = Val ctx' w2
    ∧ session_active (currentThreadId env) p st2 buf2 w2
    ∧ kineto_events_ st2 = kineto_events_ st ++ [ev]
    ∧ length (libkineto.activities buf2)
      = S (length (libkineto.activities buf))
    ∧ correlation_id_ ev = corr_id_ w
    ∧ duration_us_ ev = getTimeUs env' - getTimeUs env
    ∧ correlation_stack_of (currentThreadId env) w2
      = correlation_stack_of (currentThreadId env) w
    ∧ corr_id_ w2 = (corr_id_ w + 1) mod uint64_modulus.
Proof.
  intros Ht Hses. pose proof Hses as (Hact & Hp & Hk & Hbuf).
  assert (Hses1 : session_active (currentThreadId env') p st buf
                    (started env w)).
  { rewrite Ht. done. }
  exists (started_ctx env fn (config_ st) (corr_id_ w)), (started env w),
    (Some (set_endThreadId (currentThreadId env')
             (started_ctx env fn (config_ st) (corr_id_ w)))),
    (ended env' flops fn (started_ctx env fn (config_ st) (corr_id_ w))
       p st buf (started env w)),
    (recorded env' flops fn
       (set_endThreadId (currentThreadId env')
          (started_ctx env fn (config_ st) (corr_id_ w))) st buf),
    (set_activities
       (libkineto.activities buf
        ++ [client_activity env' fn
              (set_endThreadId (currentThreadId env')
                 (started_ctx env fn (config_ st) (corr_id_ w)))]) buf),
    (client_event env' flops fn
       (set_endThreadId (currentThreadId env')
          (started_ctx env fn (config_ st) (corr_id_ w)))).
  split; [by apply (start_callback_on env fn w p st)|].
  split; [by apply end_callback_on|].
  split.
  { rewrite <- Ht.
    apply (session_active_ended env' flops fn _ (started env w) p st buf Hses1). }
  split; [done|]. split; [cbn; rewrite length_app; cbn; lia|].
  split; [done|]. split; [done|]. split; [|done].
  rewrite <- Ht at 1. rewrite correlation_stack_of_ended, Ht.
  by rewrite correlation_stack_of_started.
Qed.

Lemma start_then_end_callback_witness :
  ∃ ctx w1 ctx' w2,
    start_callback sample_env sample_fn world_enabled = Val ctx w1
    ∧ end_callback sample_env 0 sample_fn (Some ctx) w1 = Val ctx' w2
    ∧ correlation_stack_of 7 w2 = []
    ∧ corr_id_ w2 = 2.
Proof.
  destruct (start_then_end_callback sample_env sample_env 0 sample_fn
              world_enabled 0%nat _ _ eq_refl session_active_world_enabled)
    as (ctx & w1 & ctx' & w2 & st2 & buf2 & ev & Hstart & Hend & _ & _ & _
        & _ & _ & Hstk & Hctr).
  exists ctx, w1, ctx', w2. split; [exact Hstart|]. split; [exact Hend|].
  split; [exact Hstk|exact Hctr].
Defined.


(** ** Disabling a session *)

Section disabling.

Lemma imported_not_cpu_op (acts : list libkineto.TraceActivity) :
  Forall (λ e, activity_type_ e ≠ libkineto.CPU_OP) (imported acts).
Proof.
  unfold imported. apply Forall_fmap, Forall_forall.
  intros a Ha%list_elem_of_filter. cbn. tauto.
Qed.

Lemma filter_none {A} (P : A → Prop) `{!∀ x, Decision (P x)} (l : list A) :
  Forall (λ x, ¬ P x) l → filter P l = [].
Proof.
  induction 1 as [|x l Hx _ IH]; [done|].
  rewrite filter_cons. by rewrite decide_False.
Qed.

End disabling.

(** X14: in a context whose slot holds a [KINETO] session that owns its
    buffer, with one activity per event and no empty stored stack,
    [disableProfiler] returns when the collector hands back a trace.  The
    result holds the recorded events followed, in the trace's order, by
    the imported events of the trace's non-[CPU_OP] activities, so its
    events of kind [CPU_OP] are exactly those recorded; it holds the
    legacy events followed by the stop marker, the trace, and is not yet
    saved.  The state has been popped from the slot, its callback removed,
    the buffer handed to the collector with the finalised activities and
    the current time as end of its span, and the trace stopped. *)
Theorem disableProfiler_returns_session (env : Env)
  (trace : libkineto.ActivityTraceInterface) (w : World) (p : nat)
  (rest : list nat) (st : KinetoThreadLocalState)
  (buf : libkineto.CpuTraceBuffer) :
  slot (currentThreadId env) w = p :: rest →
  states w !! p = Some st → state (config_ st) = KINETO →
  cpu_trace st = Some buf →
  length (libkineto.activities buf) = length (kineto_events_ st) →
  stacks_nonempty (kineto_events_ st) →
  ∃ r w' tb,
    disableProfiler env (Some trace) w = Val r w'
    ∧ events_ r
      = kineto_events_ st ++ imported (libkineto.trace_activities trace)
    ∧ filter (λ e, activity_type_ e = libkineto.CPU_OP) (events_ r)
      = filter (λ e, activity_type_ e = libkineto.CPU_OP) (kineto_events_ st)
    ∧ legacy_events_ r = legacy_events_of st ++ [stop_mark env]
    ∧ trace_ r = trace ∧ saved_ r = false
    ∧ slot (currentThreadId env) w' = rest
    ∧ states w' !! p = Some (emptied_object st)
    ∧ (hasCallbackHandle st = true →
       ∀ cb, cb ∈ default [] (callbacks w' !! currentThreadId env) →
             cb_handle cb ≠ handle_ st)
    ∧ transferred (kineto w') = transferred (kineto w) ++ [tb]
    ∧ libkineto.activities tb
      = finalized_activities (kineto_events_ st) (libkineto.activities buf)
    ∧ libkineto.span_endTime (libkineto.span tb) = getTimeUs env
    ∧ libkineto.span_startTime (libkineto.span tb)
      = libkineto.span_startTime (libkineto.span buf)
    ∧ trace_started (kineto w') = false.
Proof.
  intros Hslot Hp Hk Hbuf Hlen Hwf.
  exists (session_result env st trace),
    (torn_down env p rest st buf (emptied_object st) w),
    (transferred_buffer env st buf).
  split.
  { by rewrite (disableProfiler_on env (Some trace) w p rest st buf). }
  split; [done|]. split.
  { cbn [events_ session_result ProfilerResult_new]. rewrite filter_app.
    rewrite (filter_none _ (imported _)); [by rewrite app_nil_r|].
    eapply Forall_impl; [apply imported_not_cpu_op|]. done. }
  split; [done|]. split; [done|]. split; [done|].
  split; [by rewrite slot_torn_down, decide_True|].
  unfold torn_down. cbn.
  split; [by rewrite lookup_insert_eq|]. split; [|done].
  intros -> cb. rewrite lookup_insert_eq. cbn.
  by intros [? _]%list_elem_of_filter.
Qed.

(** X15: in the same situation, when the collector hands back nothing,
    [disableProfiler] throws a usage error, but only after it has torn
    the session down: the state is popped from the slot, its callback
    removed, the stop marker added, the buffer handed to the collector and
    the trace stopped.  The recorded events stay in the popped object. *)
Theorem disableProfiler_without_trace (env : Env) (w : World) (p : nat)
  (rest : list nat) (st : KinetoThreadLocalState)
  (buf : libkineto.CpuTraceBuffer) :
  slot (currentThreadId env) w = p :: rest →
  states w !! p = Some st → state (config_ st) = KINETO →
  cpu_trace st = Some buf →
  length (libkineto.activities buf) = length (kineto_events_ st) →
  stacks_nonempty (kineto_events_ st) →
  ∃ w' st',
    disableProfiler env None w = Throw (UsageError "") w'
    ∧ slot (currentThreadId env) w' = rest
    ∧ states w' !! p = Some st'
    ∧ kineto_events_ st' = kineto_events_ st
    ∧ cpu_trace st' = None
    ∧ legacy_events_of st' = legacy_events_of st ++ [stop_mark env]
    ∧ (hasCallbackHandle st = true →
       ∀ cb, cb ∈ default [] (callbacks w' !! currentThreadId env) →
             cb_handle cb ≠ handle_ st)
    ∧ transferred (kineto w')
      = transferred (kineto w) ++ [transferred_buffer env st buf]
    ∧ trace_started (kineto w') = false.
Proof.
  intros Hslot Hp Hk Hbuf Hlen Hwf.
  exists (torn_down env p rest st buf (stopped_object env st) w),
    (stopped_object env st).
  split.
  { by rewrite (disableProfiler_on env None w p rest st buf). }
  split; [by rewrite slot_torn_down, decide_True|].
  unfold torn_down. cbn.
  split; [by rewrite lookup_insert_eq|].
  split; [done|]. split; [done|]. split; [done|]. split; [|done].
  intros -> cb. rewrite lookup_insert_eq. cbn.
  by intros [? _]%list_elem_of_filter.
Qed.

Lemma disableProfiler_returns_session_witness :
  ∃ r w',
    disableProfiler sample_env
      (Some {| libkineto.trace_activities := [sample_kernel] |})
      world_ended = Val r w'
    ∧ (name_ <$> events_ r) = ["add"; "add_kernel"]
    ∧ slot 7 w' = [].
Proof.
  assert (Hslot : slot (currentThreadId sample_env) world_ended = [0%nat])
    by (by vm_compute).
  assert (Hst : states world_ended !! 0%nat = Some sample_final_state)
    by (by vm_compute).
  assert (Hk : state (config_ sample_final_state) = KINETO)
    by (by vm_compute).
  assert (Hbuf : cpu_trace sample_final_state
                 = Some (default libkineto.CpuTraceBuffer_new
                           (cpu_trace sample_final_state)))
    by (by vm_compute).
  assert (Hlen : length (libkineto.activities
                           (default libkineto.CpuTraceBuffer_new
                              (cpu_trace sample_final_state)))
                 = length (kineto_events_ sample_final_state))
    by (by vm_compute).
  assert (Hwf : stacks_nonempty (kineto_events_ sample_final_state)).
  { exact (reachable_store_ok world_ended reachable_world_ended 0%nat _ Hst). }
  destruct (disableProfiler_returns_session sample_env
              {| libkineto.trace_activities := [sample_kernel] |}
              world_ended 0%nat [] sample_final_state _
              Hslot Hst Hk Hbuf Hlen Hwf)
    as (r & w' & tb & Hrun & Hev & _ & _ & _ & _ & Hslot' & _).
  exists r, w'. split; [exact Hrun|]. split; [|exact Hslot'].
  rewrite Hev. by vm_compute.
Defined.

Lemma disableProfiler_without_trace_witness :
  ∃ w' st',
    disableProfiler sample_env None world_ended = Throw (UsageError "") w'
    ∧ slot 7 w' = []
    ∧ states w' !! 0%nat = Some st'
    ∧ (name_ <$> kineto_events_ st') = ["add"]
    ∧ cpu_trace st' = None.
Proof.
  assert (Hslot : slot (currentThreadId sample_env) world_ended = [0%nat])
    by (by vm_compute).
  assert (Hst : states world_ended !! 0%nat = Some sample_final_state)
    by (by vm_compute).
  assert (Hk : state (config_ sample_final_state) = KINETO)
    by (by vm_compute).
  assert (Hbuf : cpu_trace sample_final_state
                 = Some (default libkineto.CpuTraceBuffer_new
                           (cpu_trace sample_final_state)))
    by (by vm_compute).
  assert (Hlen : length (libkineto.activities
                           (default libkineto.CpuTraceBuffer_new
                              (cpu_trace sample_final_state)))
                 = length (kineto_events_ sample_final_state))
    by (by vm_compute).
  assert (Hwf : stacks_nonempty (kineto_events_ sample_final_state)).
  { exact (reachable_store_ok world_ended reachable_world_ended 0%nat _ Hst). }
  destruct (disableProfiler_without_trace sample_env
              world_ended 0%nat [] sample_final_state _
              Hslot Hst Hk Hbuf Hlen Hwf)
    as (w' & st' & Hrun & Hslot' & Hst' & Hev & Hnone & _).
  exists w', st'. split; [exact Hrun|]. split; [exact Hslot'|].
  split; [exact Hst'|]. split; [|exact Hnone].
  rewrite Hev. by vm_compute.
Defined.

(** ** Process states reachable through the session calls *)

(** X16: in every process state reachable from the initial one through
    [enableProfiler], the two callbacks and [disableProfiler], the slot
    of each context is empty or publishes exactly one state object; that
    object is allocated, of [KINETO] kind, owns its buffer, has as many
    buffered activities as recorded events, and none of its events stores
    an empty stack.  No object is published in two contexts. *)
Theorem reachable_sessions_well_formed (w : World) :
  reachable w →
  (∀ t,
     slot t w = []
     ∨ ∃ p st buf,
         slot t w = [p] ∧ (p < next_loc w)%nat
         ∧ states w !! p = Some st ∧ state (config_ st) = KINETO
         ∧ cpu_trace st = Some buf
         ∧ length (libkineto.activities buf) = length (kineto_events_ st)
         ∧ stacks_nonempty (kineto_events_ st))
  ∧ (∀ t1 t2 p, p ∈ slot t1 w → p ∈ slot t2 w → t1 = t2).
Proof.
  intros Hr. destruct (reachable_sessions_ok w Hr) as [Hslots Hdisj].
  split; [|exact Hdisj].
  intros t. destruct (Hslots t) as [Hnil|(p & Hp & Hlt & st & buf & H)];
    [by left|].
  right. by exists p, st, buf.
Qed.

Lemma reachable_sessions_well_formed_witness :
  ∃ p st buf,
    slot 7 world_ended = [p] ∧ states world_ended !! p = Some st
    ∧ cpu_trace st = Some buf
    ∧ length (libkineto.activities buf) = length (kineto_events_ st).
Proof.
  destruct (reachable_sessions_well_formed world_ended reachable_world_ended)
    as [H _].
  destruct (H 7) as [Hnil|(p & st & buf & Hp & _ & Hst & _ & Hbuf & Hlen & _)].
  - by vm_compute in Hnil.
  - by exists p, st, buf.
Defined.

(** X17: from a reachable process state every one of the four calls is
    defined (it dereferences no null or dangling pointer and erases from
    no empty string) and leads to a reachable state.  [enableProfiler]
    returns or throws a usage error leaving the state as it was; the
    start callback returns; the end callback handed a context returns;
    [disableProfiler] returns or throws a usage error, and it returns
    whenever the slot is not empty and the collector hands back a trace:
    the count assertion of [finalizeCPUTrace] never fails. *)
Theorem reachable_calls_defined (w : World) :
  reachable w →
  (∀ c, ∃ w', run c w = Some w' ∧ reachable w')
  ∧ (∀ env config activities,
       (∃ msg,
          enableProfiler env config activities w = Throw (UsageError msg) w)
       ∨ ∃ w', enableProfiler env config activities w = Val () w')
  ∧ (∀ env fn, ∃ ctx w', start_callback env fn w = Val ctx w')
  ∧ (∀ env flops fn ctx,
       ∃ ctx' w', end_callback env flops fn (Some ctx) w = Val ctx' w')
  ∧ (∀ env finalised,
       (∃ msg w',
          disableProfiler env finalised w = Throw (UsageError msg) w')
       ∨ ∃ r w', disableProfiler env finalised w = Val r w')
  ∧ (∀ env trace,
       slot (currentThreadId env) w ≠ [] →
       ∃ r w', disableProfiler env (Some trace) w = Val r w').
Proof.
  intros Hr. pose proof (reachable_sessions_ok w Hr) as Hok.
  split; [|split; [|split; [|split; [|split]]]].
  - intros c. destruct (run_sessions_ok c w Hok) as (w' & Hrun & _).
    exists w'. split; [done|]. by apply (reachable_step c w).
  - intros env config activities.
    destruct (enableProfiler_cases env config activities w Hok)
      as [H|(_ & _ & _ & H)]; [by left|right; by eexists].
  - intros env fn.
    destruct (start_callback_cases env fn w Hok)
      as [[_ H]|(p & st & buf & _ & _ & H)]; by eexists _, _.
  - intros env flops fn ctx.
    destruct (end_callback_cases env flops fn (Some ctx) w Hok)
      as [[_ H]|(p & st & buf & _ & _ & H)]; by eexists _, _.
  - intros env finalised.
    destruct (disableProfiler_cases env finalised w Hok)
      as [[_ H]|(p & st & buf & _ & _ & H)]; [left; by eexists _, _|].
    destruct finalised; [right|left]; by eexists _, _.
  - intros env trace Hne.
    destruct (disableProfiler_cases env (Some trace) w Hok)
      as [[Hnil _]|(p & st & buf & _ & _ & H)]; [done|by eexists _, _].
Qed.

Lemma reachable_calls_defined_witness :
  (∃ ctx' w',
     end_callback sample_env 0 sample_fn (Some sample_ctx) world_ended
     = Val ctx' w')
  ∧ ∃ r w',
      disableProfiler sample_env
        (Some {| libkineto.trace_activities := [sample_kernel] |})
        world_ended = Val r w'.
Proof.
  destruct (reachable_calls_defined world_ended reachable_world_ended)
    as (_ & _ & _ & Hend & _ & Hdis).
  split; [apply Hend|]. apply Hdis. by vm_compute.
Defined.

(** X18: a call made in one context leaves every other context alone: its
    slot, its correlation stack, its registered callbacks and the object
    its slot publishes are the same after the call as before. *)
Theorem calls_leave_other_contexts (w w' : World) (c : Call) (t : Z) :
  reachable w → run c w = Some w' → t ≠ thread_of c →
  slot t w' = slot t w
  ∧ correlation_stack_of t w' = correlation_stack_of t w
  ∧ callbacks w' !! t = callbacks w !! t
  ∧ (∀ p, p ∈ slot t w → states w' !! p = states w !! p).
Proof.
  intros Hr Hrun Ht. pose proof (reachable_sessions_ok w Hr) as Hok.
  assert (Hother : ∀ p q, p ∈ slot t w → slot (thread_of c) w = [q] → q ≠ p).
  { intros p q Hp Hq ->. apply Ht. apply (proj2 Hok _ _ p); [done|].
    rewrite Hq. apply list_elem_of_here. }
  destruct c as [env config activities|env fn|env flops fn ctx
                |env finalised]; cbn [run thread_of] in *.
  - destruct (enableProfiler_cases env config activities w Hok)
      as [[msg H]|(_ & _ & _ & H)]; rewrite H in Hrun;
      injection Hrun as <-; [done|].
    rewrite slot_enabled, decide_False by done.
    split; [done|]. split; [done|]. split.
    + unfold enabled. cbn [callbacks].
      destruct (set_count _ _); [by rewrite lookup_insert_ne|done].
    + intros p Hp. destruct (sessions_ok_elem _ _ _ Hok Hp) as (_ & Hlt & _).
      unfold enabled. cbn [states]. by rewrite lookup_insert_ne by lia.
  - destruct (start_callback_cases env fn w Hok)
      as [[_ H]|(p & st & buf & _ & _ & H)]; rewrite H in Hrun;
      injection Hrun as <-; [done|].
    split; [done|]. split; [|done].
    unfold correlation_stack_of, started, with_correlation_stack. cbn.
    by rewrite lookup_insert_ne.
  - destruct (end_callback_cases env flops fn ctx w Hok)
      as [[_ H]|(q & st & buf & Hq & _ & H)].
    { rewrite H in Hrun. by injection Hrun as <-. }
    destruct ctx as [c|]; rewrite H in Hrun; injection Hrun as <-; [|done].
    split; [done|]. split; [|split; [done|]].
    + unfold correlation_stack_of, ended, with_correlation_stack. cbn.
      by rewrite lookup_insert_ne.
    + intros p Hp. unfold ended. cbn [states with_correlation_stack set_kineto].
      rewrite with_object_lookup_ne by (by apply Hother). done.
  - destruct (disableProfiler_cases env finalised w Hok)
      as [[_ H]|(q & st & buf & Hq & _ & H)].
    { rewrite H in Hrun. by injection Hrun as <-. }
    assert (Hdown : ∀ obj,
              let w1 := torn_down env q [] st buf obj w in
              slot t w1 = slot t w
              ∧ correlation_stack_of t w1 = correlation_stack_of t w
              ∧ callbacks w1 !! t = callbacks w !! t
              ∧ (∀ p, p ∈ slot t w → states w1 !! p = states w !! p)).
    { intros obj w1. unfold w1. rewrite slot_torn_down, decide_False by done.
      split; [done|]. split; [done|]. split.
      - unfold torn_down. cbn [callbacks].
        destruct (hasCallbackHandle st); [by rewrite lookup_insert_ne|done].
      - intros p Hp. unfold torn_down. cbn [states].
        apply lookup_insert_ne. by apply Hother. }
    rewrite H in Hrun. destruct finalised; injection Hrun as <-; apply Hdown.
Qed.

Lemma calls_leave_other_contexts_witness :
  ∃ w',
    run (Call_enableProfiler other_env sample_config [ActivityType_CPU])
      world_ended = Some w'
    ∧ slot 7 w' = slot 7 world_ended
    ∧ correlation_stack_of 7 w' = correlation_stack_of 7 world_ended.
Proof.
  destruct (run_sessions_ok
              (Call_enableProfiler other_env sample_config [ActivityType_CPU])
              world_ended (reachable_sessions_ok _ reachable_world_ended))
    as (w' & Hw' & _).
  destruct (calls_leave_other_contexts world_ended w' _ 7
              reachable_world_ended Hw') as (Hslot & Hstk & _).
  { discriminate. }
  exists w'. split; [exact Hw'|]. split; [exact Hslot|exact Hstk].
Defined.

(** ** A whole session *)

Section whole_session.

Implicit Types (w : World) (env : Env) (st : KinetoThreadLocalState)
  (cs : list Completion).

Lemma complete_all_on (t : Z) cs w p st buf :
  Forall (λ c, currentThreadId (c_env c) = t) cs →
  session_active t p st buf w →
  ∃ w' st' buf',
    complete_all cs w = Val () w'
    ∧ session_active t p st' buf' w'
    ∧ config_ st' = config_ st ∧ handle_ st' = handle_ st
    ∧ legacy_events_of st' = legacy_events_of st
    ∧ kineto_events_ st' = kineto_events_ st ++ (completed_event <$> cs)
    ∧ libkineto.activities buf'
      = libkineto.activities buf ++ (completed_activity <$> cs)
    ∧ libkineto.span buf' = libkineto.span buf
    ∧ debug_info w' = debug_info w ∧ callbacks w' = callbacks w
    ∧ corr_id_ w' = corr_id_ w
    ∧ transferred (kineto w') = transferred (kineto w).
Proof.
  intros Hcs. revert w st buf.
  induction Hcs as [|c cs Hc _ IH]; intros w st buf Hses.
  - exists w, st, buf. split; [done|]. split; [done|].
    cbn [fmap list_fmap]. by rewrite !app_nil_r.
  - subst t. cbn [complete_all].
    pose proof (session_active_ended (c_env c) (c_flops c) (c_fn c) (c_ctx c)
                  w p st buf Hses) as Hses1.
    destruct (IH _ _ _ Hses1)
      as (w' & st' & buf' & Hrun & Hses' & Hcfg & Hh & Hleg & Hev & Hact
          & Hspan & Hd & Hcb & Hid & Htr).
    exists w', st', buf'. split.
    { rewrite (bind_Val _ _ w _ _ (end_callback_on _ _ _ _ _ _ _ _ Hses)).
      exact Hrun. }
    split; [done|]. split; [by rewrite Hcfg|]. split; [by rewrite Hh|].
    split; [by rewrite Hleg|].
    split.
    { rewrite Hev. unfold recorded.
      cbn [kineto_events_ set_cpu_trace set_kineto_events_ fmap list_fmap].
      by rewrite <- app_assoc. }
    split.
    { rewrite Hact. cbn [libkineto.activities set_activities fmap list_fmap].
      by rewrite <- app_assoc. }
    split; [by rewrite Hspan|]. split; [by rewrite Hd|].
    split; [by rewrite Hcb|]. split; [by rewrite Hid|]. by rewrite Htr.
Qed.

Lemma filter_all {A} (P : A → Prop) `{!∀ x, Decision (P x)} (l : list A) :
  Forall P l → filter P l = l.
Proof.
  induction 1 as [|x l Hx _ IH]; [done|].
  rewrite filter_cons. rewrite decide_True by done. by rewrite IH.
Qed.

Lemma stacks_nonempty_completed cs :
  stacks_nonempty (completed_event <$> cs).
Proof.
  apply Forall_fmap, Forall_forall. intros c _. cbn.
  apply engaged_nonempty_None_stack.
Qed.

End whole_session.

(** X19: a whole session in one context, started where no state is
    active: [enableProfiler], the end callback for each of [cs] completed
    operations, then [disableProfiler] with the trace handed back by the
    collector.  It returns a result whose events are one event per
    completed operation, in the order of completion, followed by the
    imported events of the trace; whose legacy events are the start and
    the stop marker; and which is not saved.  The collector has received
    one buffer, with one finalised activity per completed operation, and
    the context's slot is empty again.  An activity of the trace that the
    collector reports as linked to the buffered activity of a completed
    operation is in the result as an event whose linked correlation id is
    the correlation id of that operation's event. *)
Theorem profile_session_result (env env_stop : Env) (config : ProfilerConfig)
  (activities : list ActivityType) (cs : list Completion)
  (trace : libkineto.ActivityTraceInterface) (w : World) :
  state config = KINETO → activities ≠ [] →
  active_state (currentThreadId env) w = None →
  Forall (λ c, currentThreadId (c_env c) = currentThreadId env) cs →
  currentThreadId env_stop = currentThreadId env →
  ∃ r w' tb,
    profile_session env config activities cs env_stop trace w = Val r w'
    ∧ events_ r
      = (completed_event <$> cs)
        ++ imported (libkineto.trace_activities trace)
    ∧ length (filter (λ e, activity_type_ e = libkineto.CPU_OP) (events_ r))
      = length cs
    ∧ legacy_events_ r = [start_mark env; stop_mark env_stop]
    ∧ trace_ r = trace ∧ saved_ r = false
    ∧ slot (currentThreadId env) w' = []
    ∧ transferred (kineto w') = transferred (kineto w) ++ [tb]
    ∧ libkineto.activities tb
      = finalized_activities (completed_event <$> cs)
          (completed_activity <$> cs)
    ∧ libkineto.span_startTime (libkineto.span tb) = getTimeUs env
    ∧ libkineto.span_endTime (libkineto.span tb) = getTimeUs env_stop
    ∧ corr_id_ w' = corr_id_ w
    ∧ (∀ c a,
         c ∈ cs → a ∈ libkineto.trace_activities trace →
         libkineto.type a ≠ libkineto.CPU_OP →
         libkineto.linkedActivity a
         = Some (libkineto.as_TraceActivity (completed_activity c)) →
         completed_event c ∈ events_ r
         ∧ activity a KinetoEvent_new ∈ events_ r
         ∧ activity_type_ (completed_event c) = libkineto.CPU_OP
         ∧ correlation_id_ (completed_event c) = correlationId (c_ctx c)
         ∧ correlation_id_ (activity a KinetoEvent_new) = 0
         ∧ linked_correlation_id_ (activity a KinetoEvent_new)
           = correlation_id_ (completed_event c)).
Proof.
  intros Hk Ha Hnone Hcs Hstop.
  pose proof (enableProfiler_ok env config activities w Hk Ha Hnone) as Hen.
  set (h := if set_count ActivityType_CPU activities
            then next_callback_handle w else 0).
  assert (Hses : session_active (currentThreadId env) (next_loc w)
                   (enabled_object env config h)
                   {| libkineto.span :=
                        {| libkineto.span_startTime := getTimeUs env;
                           libkineto.span_endTime := 0;
                           libkineto.span_name := "PyTorch Profiler" |};
                      libkineto.gpuOpCount := -1;
                      libkineto.activities := [] |}
                   (enabled env config activities w)).
  { unfold session_active, active_state, enabled. cbn.
    rewrite !lookup_insert_eq. done. }
  destruct (complete_all_on _ cs _ _ _ _ Hcs Hses)
    as (w1 & st1 & buf1 & Hrun & (Hact1 & Hst1 & Hk1 & Hbuf1) & Hcfg & Hh
        & Hleg & Hev & Hacts & Hspan & Hd & Hcb & Hid & Htr).
  cbn [kineto_events_ enabled_object app libkineto.activities] in Hev, Hacts.
  assert (Hslot : default [] (debug_info w1 !! currentThreadId env_stop)
                  = [next_loc w]).
  { rewrite Hstop, Hd. unfold enabled. cbn. by rewrite lookup_insert_eq. }
  assert (Hlen : length (libkineto.activities buf1)
                 = length (kineto_events_ st1)).
  { by rewrite Hev, Hacts, !length_fmap. }
  assert (Hwf : stacks_nonempty (kineto_events_ st1)).
  { rewrite Hev. apply stacks_nonempty_completed. }
  pose proof (disableProfiler_on env_stop (Some trace) w1 (next_loc w) []
                st1 buf1 Hslot Hst1 Hk1 Hbuf1 Hlen Hwf) as Hdis.
  exists (session_result env_stop st1 trace),
    (torn_down env_stop (next_loc w) [] st1 buf1 (emptied_object st1) w1),
    (transferred_buffer env_stop st1 buf1).
  split.
  { unfold profile_session.
    rewrite (bind_Val _ _ w _ _ Hen). by rewrite (bind_Val _ _ _ _ _ Hrun). }
  cbn [events_ legacy_events_ trace_ saved_ session_result
       ProfilerResult_new].
  split; [by rewrite Hev|]. split.
  { rewrite Hev, filter_app.
    rewrite (filter_none _ (imported _)).
    - rewrite app_nil_r, <- (length_fmap completed_event cs). f_equal.
      apply filter_all. apply Forall_fmap, Forall_forall. by intros.
    - eapply Forall_impl; [apply imported_not_cpu_op|]. done. }
  split; [by rewrite Hleg|]. split; [done|]. split; [done|].
  split; [by rewrite <- Hstop, slot_torn_down, decide_True|].
  unfold torn_down, transferred_buffer. cbn.
  split; [by rewrite Htr|]. split; [by rewrite Hev, Hacts|].
  split; [by rewrite Hspan|]. split; [done|]. split; [by rewrite Hid|].
  intros c a Hc Hin Hty Hlink. rewrite Hev. split; [|split].
  - apply elem_of_app; left. apply list_elem_of_fmap. by exists c.
  - apply elem_of_app; right. unfold imported.
    apply list_elem_of_fmap. exists a. split; [done|].
    by apply list_elem_of_filter.
  - cbn. rewrite Hlink. cbn. by rewrite decide_False.
Qed.

Lemma profile_session_result_witness :
  ∃ r w',
    profile_session sample_env sample_config [ActivityType_CPU]
      [sample_completion] sample_env
      {| libkineto.trace_activities := [sample_linked_kernel] |} World_init
    = Val r w'
    ∧ (name_ <$> events_ r) = ["add"; "add_kernel"]
    ∧ (correlation_id_ <$> events_ r) = [1; 0]
    ∧ (linked_correlation_id_ <$> events_ r) = [0; 1]
    ∧ slot 7 w' = []
    ∧ linked_correlation_id_ (activity sample_linked_kernel KinetoEvent_new)
      = correlation_id_ (completed_event sample_completion).
Proof.
  destruct (profile_session_result sample_env sample_env sample_config
              [ActivityType_CPU] [sample_completion]
              {| libkineto.trace_activities := [sample_linked_kernel] |}
              World_init)
    as (r & w' & tb & Hrun & Hev & _ & _ & _ & _ & Hslot & _ & _ & _ & _ & _
        & Hlinked).
  - reflexivity.
  - discriminate.
  - reflexivity.
  - repeat constructor.
  - reflexivity.
  - destruct (Hlinked sample_completion sample_linked_kernel)
      as (_ & _ & _ & _ & _ & Hl).
    + apply list_elem_of_here.
    + apply list_elem_of_here.
    + discriminate.
    + reflexivity.
    + exists r, w'. split; [exact Hrun|]. rewrite Hev.
      split; [by vm_compute|]. split; [by vm_compute|].
      split; [by vm_compute|]. split; [exact Hslot|exact Hl].
Defined.
